(** * Control input and trial evaluation of the CARLA driving client

    Shallow embedding of
    - [ReseachCode/manual_control_steeringwheel_Research_Base.py]
      (classes [DualControl] and [TrialManager]), and
    - [NSTICampCode/carlatest with time trial copy.py]
      (the trial counters of class [CarlaSimulator]).

    Number model.  Python floats are modelled without rounding: as real
    numbers where the code calls [math.tan] and [math.log10]
    ([DualControl]), and as rationals where it only adds, subtracts,
    divides and compares ([TrialManager], [CarlaSimulator]), which keeps
    those definitions executable.  Python ints are [Z].  Exceptions are
    explicit: every function that can raise returns a [Res]. *)

From Stdlib Require Import Reals Lra QArith ZArith List Bool Lia.
From stdpp Require Import gmap strings.
From Stdlib Require Import Qround.
From Stdlib Require Lqa.
From stdpp Require Import pretty.
Import ListNotations.

(** ** Python runtime pieces *)

Module Py.

Inductive Exc : Type :=
| KeyError
| IndexError
| ValueError
| TypeError.

Inductive Res (A : Type) : Type :=
| Ok (a : A)
| Raise (e : Exc).
Arguments Ok {A} a.
Arguments Raise {A} e.

Definition bind {A B : Type} (r : Res A) (k : A -> Res B) : Res B :=
  match r with
  | Ok a => k a
  | Raise e => Raise e
  end.

Definition is_ok {A : Type} (r : Res A) : bool :=
  match r with
  | Ok _ => true
  | Raise _ => false
  end.

(** [l[i]] on a Python list: a negative index counts from the end, and an
    index outside [-len(l), len(l))] raises [IndexError]. *)
Definition getitem {A : Type} (l : list A) (i : Z) : Res A :=
  let n := Z.of_nat (length l) in
  let j := if (i <? 0)%Z then (n + i)%Z else i in
  if ((0 <=? j) && (j <? n))%Z
  then match nth_error l (Z.to_nat j) with
       | Some a => Ok a
       | None => Raise IndexError
       end
  else Raise IndexError.

(** [d[k]] on a Python dict: a missing key raises [KeyError]. *)
Definition dict_getitem {V : Type} (d : gmap string V) (k : string) : Res V :=
  match d !! k with
  | Some v => Ok v
  | None => Raise KeyError
  end.

End Py.

Import Py.

Notation "'py' x <- c ; k" := (Py.bind c (fun x => k))
  (at level 10, x name, c at level 100, k at level 200).

(** ** [DualControl]: keyboard, wheel and transmission handling *)

Module DualControl.

Local Open Scope R_scope.

(** [carla.VehicleControl]. *)
Record VehicleControl : Type := mkControl {
  throttle : R;
  steer : R;
  brake : R;
  hand_brake : bool;
  reverse : bool;
  manual_gear_shift : bool;
  gear : Z
}.

(** A freshly constructed [carla.VehicleControl()]. *)
Definition VehicleControl_default : VehicleControl :=
  mkControl 0 0 0 false false false 0%Z.

Definition set_throttle (v : R) (c : VehicleControl) : VehicleControl :=
  mkControl v (steer c) (brake c) (hand_brake c) (reverse c)
            (manual_gear_shift c) (gear c).
Definition set_steer (v : R) (c : VehicleControl) : VehicleControl :=
  mkControl (throttle c) v (brake c) (hand_brake c) (reverse c)
            (manual_gear_shift c) (gear c).
Definition set_brake (v : R) (c : VehicleControl) : VehicleControl :=
  mkControl (throttle c) (steer c) v (hand_brake c) (reverse c)
            (manual_gear_shift c) (gear c).
Definition set_hand_brake (b : bool) (c : VehicleControl) : VehicleControl :=
  mkControl (throttle c) (steer c) (brake c) b (reverse c)
            (manual_gear_shift c) (gear c).
Definition set_reverse (b : bool) (c : VehicleControl) : VehicleControl :=
  mkControl (throttle c) (steer c) (brake c) (hand_brake c) b
            (manual_gear_shift c) (gear c).
Definition set_manual_gear_shift (b : bool) (c : VehicleControl)
  : VehicleControl :=
  mkControl (throttle c) (steer c) (brake c) (hand_brake c) (reverse c)
            b (gear c).
Definition set_gear (g : Z) (c : VehicleControl) : VehicleControl :=
  mkControl (throttle c) (steer c) (brake c) (hand_brake c) (reverse c)
            (manual_gear_shift c) g.

(** The three values [self.transmission_mode] ever holds. *)
Inductive TransmissionMode : Type :=
| automatic
| manual
| automatic_shifter.

(** Calls made on the [world] collaborator (HUD, camera, weather, player).
    They are recorded in order; none of them feeds back into the
    controller state. *)
Inductive WorldCall : Type :=
| restart
| hud_toggle_info
| hud_help_toggle
| camera_toggle_camera
| next_weather (rev : bool)
| camera_next_sensor
| camera_set_sensor (index : Z)
| camera_toggle_recording
| toggle_headlights
| hud_notification (text : string)
| player_set_autopilot (enabled : bool)
| player_toggle_high_beam
| player_apply_control (c : VehicleControl)
| set_vehicle_light_state (brake_light reverse_light : bool).

(** The controller object.  [axis_mapping] keeps the binding entries of the
    Python dict (control name to its ['joystick'] value, [None] when
    unbound); the scalar settings of that dict are read once by [__init__]
    into the three damping fields.  [key_mapping] maps a control name to
    the configured key name.  [world_calls] is the trace of calls made on
    [world] so far.  The model covers the case in which [self._control] is
    a [carla.VehicleControl]. *)
Record t : Type := mk {
  _autopilot_enabled : bool;
  _control : VehicleControl;
  _steer_cache : R;
  axis_mapping : gmap string (option Z);
  key_mapping : gmap string (option string);
  steering_damping : R;
  throttle_damping : R;
  brake_damping : R;
  transmission_mode : TransmissionMode;
  _shifter_mode : bool;
  _neutral_mode : bool;
  world_calls : list WorldCall
}.

Definition with_control (c : VehicleControl) (s : t) : t :=
  mk (_autopilot_enabled s) c (_steer_cache s) (axis_mapping s)
     (key_mapping s) (steering_damping s) (throttle_damping s)
     (brake_damping s) (transmission_mode s) (_shifter_mode s)
     (_neutral_mode s) (world_calls s).
Definition with_autopilot (b : bool) (s : t) : t :=
  mk b (_control s) (_steer_cache s) (axis_mapping s)
     (key_mapping s) (steering_damping s) (throttle_damping s)
     (brake_damping s) (transmission_mode s) (_shifter_mode s)
     (_neutral_mode s) (world_calls s).
Definition with_steer_cache (v : R) (s : t) : t :=
  mk (_autopilot_enabled s) (_control s) v (axis_mapping s)
     (key_mapping s) (steering_damping s) (throttle_damping s)
     (brake_damping s) (transmission_mode s) (_shifter_mode s)
     (_neutral_mode s) (world_calls s).
Definition with_transmission (m : TransmissionMode) (shifter neutral : bool)
  (s : t) : t :=
  mk (_autopilot_enabled s) (_control s) (_steer_cache s) (axis_mapping s)
     (key_mapping s) (steering_damping s) (throttle_damping s)
     (brake_damping s) m shifter neutral (world_calls s).
Definition with_neutral_mode (neutral : bool) (s : t) : t :=
  mk (_autopilot_enabled s) (_control s) (_steer_cache s) (axis_mapping s)
     (key_mapping s) (steering_damping s) (throttle_damping s)
     (brake_damping s) (transmission_mode s) (_shifter_mode s)
     neutral (world_calls s).
Definition call (w : WorldCall) (s : t) : t :=
  mk (_autopilot_enabled s) (_control s) (_steer_cache s) (axis_mapping s)
     (key_mapping s) (steering_damping s) (throttle_damping s)
     (brake_damping s) (transmission_mode s) (_shifter_mode s)
     (_neutral_mode s) (world_calls s ++ [w]).

(** [self._control.gear = 1 if self._control.reverse else -1] *)
Definition toggle_reverse_gear (s : t) : t :=
  with_control
    (set_gear (if reverse (_control s) then 1%Z else (-1)%Z) (_control s)) s.

(** pygame key codes used by the file. *)
Definition K_BACKSPACE : Z := 8.
Definition K_TAB : Z := 9.
Definition K_ESCAPE : Z := 27.
Definition K_SPACE : Z := 32.
Definition K_COMMA : Z := 44.
Definition K_PERIOD : Z := 46.
Definition K_SLASH : Z := 47.
Definition K_0 : Z := 48.
Definition K_9 : Z := 57.
Definition K_BACKQUOTE : Z := 96.
Definition K_a : Z := 97.
Definition K_c : Z := 99.
Definition K_d : Z := 100.
Definition K_h : Z := 104.
Definition K_l : Z := 108.
Definition K_m : Z := 109.
Definition K_p : Z := 112.
Definition K_q : Z := 113.
Definition K_r : Z := 114.
Definition K_s : Z := 115.
Definition K_w : Z := 119.
Definition K_F1 : Z := 1073741882.
Definition K_RIGHT : Z := 1073741903.
Definition K_LEFT : Z := 1073741904.
Definition K_DOWN : Z := 1073741905.
Definition K_UP : Z := 1073741906.

(** Events delivered by [pygame.event.get()]. *)
Inductive Event : Type :=
| QUIT
| JOYBUTTONDOWN (button : Z)
| KEYUP (key : Z)
| OtherEvent.

(** What one frame reads from pygame: the event queue, the modifier state
    of [pygame.key.get_mods()], the pressed-key table, the frame time of
    [clock.get_time()], and, when a joystick was opened by [__init__], its
    current axis readings (one per axis the device reports). *)
Record Frame : Type := mkFrame {
  events : list Event;
  mod_shift : bool;
  mod_ctrl : bool;
  keys : Z -> bool;
  milliseconds : Z;
  joystick : option (list R)
}.

Section Controller.

(** [pygame_K name] is [getattr(pygame, 'K_' + name, None)], the key code
    pygame gives to a key name; [round1 x] is Python's [round(x, 1)]. *)
Variable pygame_K : string -> option Z.
Variable round1 : R -> R.

(** [self.axis_mapping[name]['joystick'] is not None and
     event.button == self.axis_mapping[name]['joystick']] *)
Definition joystick_binding_is (s : t) (name : string) (button : Z)
  : Res bool :=
  py j <- dict_getitem (axis_mapping s) name;
  Ok (match j with
      | Some i => (button =? i)%Z
      | None => false
      end).

(** [self.key_mapping[name] is not None and
     event.key == getattr(pygame, f'K_{self.key_mapping[name]}', None)] *)
Definition key_binding_is (s : t) (name : string) (key : Z) : Res bool :=
  py v <- dict_getitem (key_mapping s) name;
  Ok (match v with
      | Some nm => match pygame_K nm with
                   | Some k => (key =? k)%Z
                   | None => false
                   end
      | None => false
      end).

Definition _handle_joystick_button (button : Z) (s : t) : Res t :=
  py is_reverse <- joystick_binding_is s "reverse" button;
  if is_reverse then Ok (toggle_reverse_gear s) else
  py is_handbrake <- joystick_binding_is s "handbrake" button;
  if is_handbrake
  then Ok (with_control
             (set_hand_brake (negb (hand_brake (_control s))) (_control s)) s)
  else
  py is_hide_hud <- joystick_binding_is s "hide_hud" button;
  if is_hide_hud then Ok (call hud_toggle_info s) else
  py is_headlights <- joystick_binding_is s "toggle_headlights" button;
  if is_headlights then Ok (call toggle_headlights s) else
  py is_drive <- (if _shifter_mode s
                  then joystick_binding_is s "shifter_drive" button
                  else Ok false);
  if is_drive
  then Ok (with_control (set_gear 1 (_control s)) (with_neutral_mode false s))
  else
  py is_neutral <- (if _shifter_mode s
                    then joystick_binding_is s "shifter_neutral" button
                    else Ok false);
  if is_neutral
  then Ok (with_control (set_gear 0 (_control s)) (with_neutral_mode true s))
  else
  py is_shift_reverse <- (if _shifter_mode s
                          then joystick_binding_is s "shifter_reverse" button
                          else Ok false);
  if is_shift_reverse
  then Ok (with_control (set_gear (-1) (_control s))
             (with_neutral_mode false s))
  else if (button =? 0)%Z then Ok (call restart s)
  else if (button =? 1)%Z then Ok (call hud_toggle_info s)
  else if (button =? 2)%Z then Ok (call camera_toggle_camera s)
  else if (button =? 3)%Z then Ok (call (next_weather false) s)
  else if (button =? 23)%Z then Ok (call camera_next_sensor s)
  else Ok s.

(** The first [if]/[elif] chain of [_handle_key]: HUD, camera and weather
    keys, then the four configurable key bindings. *)
Definition _handle_key_bindings (shift : bool) (key : Z) (s : t) : Res t :=
  if (key =? K_BACKSPACE)%Z then Ok (call restart s)
  else if (key =? K_F1)%Z then Ok (call hud_toggle_info s)
  else if ((key =? K_h) || ((key =? K_SLASH) && shift))%Z
       then Ok (call hud_help_toggle s)
  else if (key =? K_TAB)%Z then Ok (call camera_toggle_camera s)
  else if ((key =? K_c)%Z && shift) then Ok (call (next_weather true) s)
  else if (key =? K_c)%Z then Ok (call (next_weather false) s)
  else if (key =? K_BACKQUOTE)%Z then Ok (call camera_next_sensor s)
  else if ((K_0 <? key) && (key <=? K_9))%Z
       then Ok (call (camera_set_sensor (key - 1 - K_0)%Z) s)
  else if (key =? K_r)%Z then Ok (call camera_toggle_recording s)
  else
  py is_reverse <- key_binding_is s "reverse" key;
  if is_reverse then Ok (toggle_reverse_gear s) else
  py is_handbrake <- key_binding_is s "handbrake" key;
  if is_handbrake
  then Ok (with_control
             (set_hand_brake (negb (hand_brake (_control s))) (_control s)) s)
  else
  py is_hide_hud <- key_binding_is s "hide_hud" key;
  if is_hide_hud then Ok (call hud_toggle_info s) else
  py is_headlights <- key_binding_is s "toggle_headlights" key;
  if is_headlights then Ok (call toggle_headlights s) else
  Ok s.

(** The [K_m] branch: advance [transmission_mode] one step of the cycle. *)
Definition cycle_transmission_mode (s : t) : t :=
  match transmission_mode s with
  | automatic =>
      with_control (set_manual_gear_shift true (_control s))
        (with_transmission manual (_shifter_mode s) (_neutral_mode s) s)
  | manual =>
      with_control (set_manual_gear_shift false (_control s))
        (with_transmission automatic_shifter true false s)
  | automatic_shifter =>
      with_control (set_manual_gear_shift false (_control s))
        (with_transmission automatic false false s)
  end.

Definition transmission_text (m : TransmissionMode) : string :=
  match m with
  | automatic => "Automatic Transmission"
  | manual => "Manual Transmission"
  | automatic_shifter => "Automatic Shifter Transmission"
  end.

(** The second chain of [_handle_key], under
    [isinstance(self._control, carla.VehicleControl)]. *)
Definition _handle_key_vehicle (key : Z) (s : t) : t :=
  if (key =? K_q)%Z then toggle_reverse_gear s
  else if (key =? K_m)%Z then
    let s' := cycle_transmission_mode s in
    call (hud_notification (transmission_text (transmission_mode s'))) s'
  else if (manual_gear_shift (_control s) && (key =? K_COMMA)%Z) then
    with_control
      (set_gear (Z.max (-1) (gear (_control s) - 1)) (_control s)) s
  else if (manual_gear_shift (_control s) && (key =? K_PERIOD)%Z) then
    with_control (set_gear (gear (_control s) + 1) (_control s)) s
  else if (key =? K_p)%Z then
    let s' := with_autopilot (negb (_autopilot_enabled s)) s in
    call (hud_notification
            (if _autopilot_enabled s' then "Autopilot On" else "Autopilot Off"))
      (call (player_set_autopilot (_autopilot_enabled s')) s')
  else if (key =? K_l)%Z then call player_toggle_high_beam s
  else s.

Definition _handle_key (shift : bool) (key : Z) (s : t) : Res t :=
  py s1 <- _handle_key_bindings shift key s;
  Ok (_handle_key_vehicle key s1).

Definition _is_quit_shortcut (ctrl : bool) (key : Z) : bool :=
  ((key =? K_ESCAPE)%Z || ((key =? K_q)%Z && ctrl)).

Definition _parse_vehicle_keys (keys : Z -> bool) (milliseconds : Z) (s : t)
  : t :=
  let c := _control s in
  let c := set_throttle
             (if negb (_neutral_mode s)
              then (if keys K_UP || keys K_w then 1 else 0)
              else 0) c in
  let steer_increment := 5e-4 * IZR milliseconds in
  let cache :=
    if keys K_LEFT || keys K_a then _steer_cache s - steer_increment
    else if keys K_RIGHT || keys K_d then _steer_cache s + steer_increment
    else 0 in
  let cache := Rmin 0.7 (Rmax (-0.7) cache) in
  let c := set_steer (round1 cache) c in
  let c := set_brake (if keys K_DOWN || keys K_s then 1 else 0) c in
  let c := set_hand_brake (keys K_SPACE) c in
  with_control c (with_steer_cache cache s).

(** [math.log10]: a domain error outside the positive reals. *)
Definition log10 (x : R) : Res R :=
  if Rlt_dec 0 x then Ok (ln x / ln 10) else Raise ValueError.

(** [self.axis_mapping.get(name, {}).get('joystick')] *)
Definition axis_binding (s : t) (name : string) : option Z :=
  match axis_mapping s !! name with
  | Some j => j
  | None => None
  end.

(** The three commands [_parse_vehicle_wheel] computes from the axis
    readings, in the order (steerCmd, throttleCmd, brakeCmd), after the two
    [max(0, min(1, .))] lines. *)
Definition wheel_commands (jsInputs : list R) (steering_axis throttle_axis
  brake_axis : Z) (s : t) : Res (R * R * R) :=
  py x_steer <- getitem jsInputs steering_axis;
  let steerCmd := steering_damping s * tan (1.1 * x_steer) in
  py x_throttle <- getitem jsInputs throttle_axis;
  py l_throttle <- log10 (-0.7 * x_throttle + 1.4);
  let throttleCmd :=
    throttle_damping s * (1.6 + (2.05 * l_throttle - 1.2) / 0.92) in
  py x_brake <- getitem jsInputs brake_axis;
  py l_brake <- log10 (-0.7 * x_brake + 1.4);
  let brakeCmd := brake_damping s * (1.6 + (2.05 * l_brake - 1.2) / 0.92) in
  let throttleCmd := Rmax 0 (Rmin 1 throttleCmd) in
  let brakeCmd := Rmax 0 (Rmin 1 brakeCmd) in
  Ok (steerCmd, throttleCmd, brakeCmd).

Definition _parse_vehicle_wheel (jsInputs : list R) (s : t) : Res t :=
  match axis_binding s "steering", axis_binding s "throttle",
        axis_binding s "brake" with
  | Some steering_axis, Some throttle_axis, Some brake_axis =>
      py cmds <- wheel_commands jsInputs steering_axis throttle_axis
                   brake_axis s;
      let '(steerCmd, throttleCmd, brakeCmd) := cmds in
      let c := set_steer steerCmd (_control s) in
      let c := set_brake brakeCmd c in
      let c := set_throttle (if negb (_neutral_mode s) then throttleCmd else 0)
                 c in
      Ok (with_control c s)
  | _, _, _ => Ok s
  end.

Definition update_vehicle_lights (s : t) : t :=
  let brake_light := if Rlt_dec 0 (brake (_control s)) then true else false in
  let reverse_light := (gear (_control s) <? 0)%Z in
  call (set_vehicle_light_state brake_light reverse_light) s.

(** The event loop of [parse_events]; the flag is [true] when the loop
    returned [True] (quit), and then the rest of the queue is not handled. *)
Fixpoint handle_events (fr : Frame) (evs : list Event) (s : t)
  : Res (bool * t) :=
  match evs with
  | [] => Ok (false, s)
  | QUIT :: _ => Ok (true, s)
  | JOYBUTTONDOWN button :: rest =>
      py s1 <- _handle_joystick_button button s;
      handle_events fr rest s1
  | KEYUP key :: rest =>
      if _is_quit_shortcut (mod_ctrl fr) key then Ok (true, s)
      else py s1 <- _handle_key (mod_shift fr) key s;
           handle_events fr rest s1
  | OtherEvent :: rest => handle_events fr rest s
  end.

Definition parse_events (fr : Frame) (s : t) : Res (bool * t) :=
  py r <- handle_events fr (events fr) s;
  let '(quit, s1) := r in
  if quit then Ok (true, s1)
  else if negb (_autopilot_enabled s1) then
    let s2 := _parse_vehicle_keys (keys fr) (milliseconds fr) s1 in
    py s3 <- match joystick fr with
             | Some jsInputs => _parse_vehicle_wheel jsInputs s2
             | None => Ok s2
             end;
    let s4 := with_control
                (set_reverse (gear (_control s3) <? 0)%Z (_control s3)) s3 in
    let s5 := call (player_apply_control (_control s4)) s4 in
    Ok (false, update_vehicle_lights s5)
  else Ok (false, s1).

End Controller.

End DualControl.

(** ** [TrialManager]: the timed trial run and its speed violations *)

Module TrialManager.

Local Open Scope Q_scope.

(** A float that may be [float('inf')]. *)
Inductive Float : Type :=
| Finite (q : Q)
| Infinity.

(** The dict stored in [self.trial_results]. *)
Record Results : Type := mkResults {
  trial_duration : Q;
  avg_speed : Q;
  avg_violation_duration : Q;
  result_violation_count : Z
}.

(** Calls on the collaborators [hud] and [player]. *)
Inductive Call : Type :=
| hud_notification (text : string) (seconds : Q)
| player_set_transform (x y z pitch yaw roll : Q).

Record t : Type := mk {
  trial_active : bool;
  start_time : option Q;
  end_time : option Q;
  violation_start : option Q;
  violation_durations : list (Q * Q);
  violation_count : Z;
  trial_settings : gmap string Q;
  max_speed : Q;
  trial_results : option Results;
  display_results : bool;
  start_screen : bool;
  current_speed : Q;
  speeding_warning : bool;
  max_speed_during_run : Q;
  min_speed_during_run : Float;
  calls : list Call
}.

(** [d.get(key, default)] *)
Definition get (d : gmap string Q) (key : string) (default : Q) : Q :=
  match d !! key with
  | Some v => v
  | None => default
  end.

(** [TrialManager.__init__], from the loaded [trial_settings]. *)
Definition init (settings : gmap string Q) : t :=
  mk false None None None [] 0%Z settings (get settings "speed_limit" 45.0)
     None false false 0.0 false 0.0 Infinity [].

(** Python's [max(a, b)] and [min(a, b)]: the first argument wins ties. *)
Definition py_max (a b : Q) : Q := if Qlt_le_dec a b then b else a.
Definition py_min (a : Float) (b : Q) : Q :=
  match a with
  | Finite q => if Qlt_le_dec b q then b else q
  | Infinity => b
  end.

(** [sum(l)] and [len(l)] as a float. *)
Definition sum (l : list Q) : Q := fold_left Qplus l 0.
Definition len {A : Type} (l : list A) : Q := inject_Z (Z.of_nat (length l)).

Definition start_trial (s : t) : t :=
  let st := trial_settings s in
  mk false (start_time s) (end_time s) (violation_start s)
     (violation_durations s) (violation_count s) st (max_speed s)
     (trial_results s) (display_results s) true (current_speed s)
     (speeding_warning s) (max_speed_during_run s) (min_speed_during_run s)
     (calls s ++
      [hud_notification "Press Enter to Start Run" 10;
       player_set_transform
         (get st "location_x" 246.3) (get st "location_y" (-27.0))
         (get st "location_z" 1.0) (get st "rotation_pitch" 0.0)
         (get st "rotation_yaw" (-86.76)) (get st "rotation_roll" 0.0)]).

Definition initiate_trial (now : Q) (s : t) : t :=
  mk true (Some now) (end_time s) None [] 0%Z (trial_settings s) (max_speed s)
     (trial_results s) false false (current_speed s) false 0.0 Infinity
     (calls s).

(** [trial_duration] subtracts two attributes that are [None] until set. *)
Definition calculate_results (s : t) : Res t :=
  match end_time s, start_time s with
  | Some e, Some b =>
      let trial_duration := e - b in
      let avg_speed :=
        match violation_durations s with
        | [] => 0
        | _ => sum (map snd (violation_durations s))
               / len (violation_durations s)
        end in
      let avg_violation_duration :=
        match violation_durations s with
        | [] => 0
        | _ => sum (map fst (violation_durations s))
               / len (violation_durations s)
        end in
      Ok (mk (trial_active s) (start_time s) (end_time s) (violation_start s)
            (violation_durations s) (violation_count s) (trial_settings s)
            (max_speed s)
            (Some (mkResults trial_duration avg_speed avg_violation_duration
                     (violation_count s)))
            (display_results s) (start_screen s) (current_speed s)
            (speeding_warning s) (max_speed_during_run s)
            (min_speed_during_run s) (calls s))
  | _, _ => Raise TypeError
  end.

Definition end_trial (now : Q) (s : t) : Res t :=
  let s1 := mk false (start_time s) (Some now) (violation_start s)
              (violation_durations s) (violation_count s) (trial_settings s)
              (max_speed s) (trial_results s) (display_results s)
              (start_screen s) (current_speed s) (speeding_warning s)
              (max_speed_during_run s) (min_speed_during_run s) (calls s) in
  py s2 <- calculate_results s1;
  Ok (mk (trial_active s2) (start_time s2) (end_time s2) (violation_start s2)
        (violation_durations s2) (violation_count s2) (trial_settings s2)
        (max_speed s2) (trial_results s2) true (start_screen s2)
        (current_speed s2) (speeding_warning s2) (max_speed_during_run s2)
        (min_speed_during_run s2) (calls s2)).

(** [track_speed(speed)]; [now] is what [time.time()] returns during the
    call. *)
Definition track_speed (speed now : Q) (s : t) : t :=
  if trial_active s then
    let max_run := py_max (max_speed_during_run s) speed in
    let min_run := Finite (py_min (min_speed_during_run s) speed) in
    if Qlt_le_dec (max_speed s) speed then
      match violation_start s with
      | None =>
          mk (trial_active s) (start_time s) (end_time s) (Some now)
             (violation_durations s) (violation_count s + 1)%Z
             (trial_settings s) (max_speed s) (trial_results s)
             (display_results s) (start_screen s) speed true max_run min_run
             (calls s)
      | Some _ =>
          mk (trial_active s) (start_time s) (end_time s) (violation_start s)
             (violation_durations s) (violation_count s)
             (trial_settings s) (max_speed s) (trial_results s)
             (display_results s) (start_screen s) speed true max_run min_run
             (calls s)
      end
    else
      match violation_start s with
      | Some started =>
          let violation_end := now in
          let violation_duration := violation_end - started in
          mk (trial_active s) (start_time s) (end_time s) None
             (violation_durations s ++ [(violation_duration, speed)])
             (violation_count s)
             (trial_settings s) (max_speed s) (trial_results s)
             (display_results s) (start_screen s) speed false max_run min_run
             (calls s)
      | None =>
          mk (trial_active s) (start_time s) (end_time s) None
             (violation_durations s) (violation_count s)
             (trial_settings s) (max_speed s) (trial_results s)
             (display_results s) (start_screen s) speed false max_run min_run
             (calls s)
      end
  else
    mk (trial_active s) (start_time s) (end_time s) (violation_start s)
       (violation_durations s) (violation_count s) (trial_settings s)
       (max_speed s) (trial_results s) (display_results s) (start_screen s)
       speed (speeding_warning s) (max_speed_during_run s)
       (min_speed_during_run s) (calls s).

(** The trial part of one iteration of [game_loop]: the three keys that
    drive the trial, then the speed sample of the frame. *)
Definition game_loop_trial_step (key_KP1 key_RETURN key_SPACE : bool)
  (speed now : Q) (s : t) : Res t :=
  let s := if key_KP1 then start_trial s else s in
  let s := if key_RETURN && start_screen s then initiate_trial now s else s in
  py s <- (if key_SPACE && trial_active s then end_trial now s else Ok s);
  let s := if key_RETURN && display_results s then start_trial s else s in
  Ok (track_speed speed now s).

(** The calls a driver of the object can make, and a run of them. *)
Inductive Op : Type :=
| op_start_trial
| op_initiate_trial (now : Q)
| op_end_trial (now : Q)
| op_track_speed (speed now : Q).

Definition step (o : Op) (s : t) : Res t :=
  match o with
  | op_start_trial => Ok (start_trial s)
  | op_initiate_trial now => Ok (initiate_trial now s)
  | op_end_trial now => end_trial now s
  | op_track_speed speed now => Ok (track_speed speed now s)
  end.

Fixpoint run (ops : list Op) (s : t) : Res t :=
  match ops with
  | [] => Ok s
  | o :: rest => py s1 <- step o s; run rest s1
  end.

End TrialManager.

(** ** [CarlaSimulator]: the trial counters of the time-trial client

    Only the attributes the trial statistics read or write are kept;
    rendering, weather, camera and the vehicle control are left out. *)

Module CarlaSimulator.

Local Open Scope Q_scope.

Record t : Type := mk {
  speed_violation_count : Z;
  speed_exceeded : bool;
  trial_run_active : bool;
  trial_countdown : bool;
  countdown_start_time : Q;
  trial_running : bool;
  trial_timer_start : Q;
  max_speed : Q;
  violation_durations : list Q;
  current_violation_start : Q;
  results_displayed : bool;
  speed_sum : Q;
  speed_sample_count : Z;
  final_duration : Q;
  countdown_duration : Q;
  max_speed_limit : Q
}.

(** The values [calculate_results] prints. *)
Record Report : Type := mkReport {
  duration : Q;
  report_max_speed : Q;
  average_speed : Q;
  speed_violations : Z;
  average_violation_duration : Q
}.

(** [CarlaSimulator.__init__] *)
Definition init (countdown_duration max_speed_limit : Q) : t :=
  mk 0%Z false false false 0 false 0 0 [] 0 false 0 0%Z 0
     countdown_duration max_speed_limit.

Definition py_max (a b : Q) : Q := if Qlt_le_dec a b then b else a.
Definition sum (l : list Q) : Q := fold_left Qplus l 0.

(** [int(x)]: truncation towards zero. *)
Definition int (x : Q) : Z := Z.quot (Qnum x) (Zpos (Qden x)).

(** The counter updates of [display_speed], for the sample [speed] read at
    time [now]. *)
Definition display_speed (speed now : Q) (s : t) : t :=
  let s1 :=
    if Qlt_le_dec (max_speed_limit s) speed then
      if negb (speed_exceeded s) then
        mk (speed_violation_count s + 1)%Z true (trial_run_active s)
           (trial_countdown s) (countdown_start_time s) (trial_running s)
           (trial_timer_start s) (max_speed s) (violation_durations s)
           now (results_displayed s) (speed_sum s) (speed_sample_count s)
           (final_duration s) (countdown_duration s) (max_speed_limit s)
      else s
    else
      if speed_exceeded s then
        mk (speed_violation_count s) false (trial_run_active s)
           (trial_countdown s) (countdown_start_time s) (trial_running s)
           (trial_timer_start s) (max_speed s)
           (violation_durations s ++ [now - current_violation_start s])
           (current_violation_start s) (results_displayed s) (speed_sum s)
           (speed_sample_count s) (final_duration s) (countdown_duration s)
           (max_speed_limit s)
      else s in
  if trial_running s1 then
    mk (speed_violation_count s1) (speed_exceeded s1) (trial_run_active s1)
       (trial_countdown s1) (countdown_start_time s1) (trial_running s1)
       (trial_timer_start s1) (py_max (max_speed s1) speed)
       (violation_durations s1) (current_violation_start s1)
       (results_displayed s1) (speed_sum s1 + speed)
       (speed_sample_count s1 + 1)%Z (final_duration s1)
       (countdown_duration s1) (max_speed_limit s1)
  else s1.

Definition start_trial_run (s : t) : t :=
  mk 0%Z (speed_exceeded s) true (trial_countdown s) (countdown_start_time s)
     (trial_running s) (trial_timer_start s) (max_speed s)
     (violation_durations s) (current_violation_start s)
     (results_displayed s) (speed_sum s) (speed_sample_count s)
     (final_duration s) (countdown_duration s) (max_speed_limit s).

Definition start_countdown (now : Q) (s : t) : t :=
  mk (speed_violation_count s) (speed_exceeded s) false true now
     (trial_running s) (trial_timer_start s) (max_speed s)
     (violation_durations s) (current_violation_start s)
     (results_displayed s) (speed_sum s) (speed_sample_count s)
     (final_duration s) (countdown_duration s) (max_speed_limit s).

(** The state change of [display_countdown]: when the countdown has run
    out the trial starts and every counter is reset. *)
Definition display_countdown (now : Q) (s : t) : t :=
  let countdown :=
    int (countdown_duration s - (now - countdown_start_time s)) in
  if (countdown <=? 0)%Z then
    mk 0%Z (speed_exceeded s) (trial_run_active s) false
       (countdown_start_time s) true now 0 [] (current_violation_start s)
       (results_displayed s) 0 0%Z (final_duration s) (countdown_duration s)
       (max_speed_limit s)
  else s.

Definition calculate_results (s : t) : Report :=
  let duration := final_duration s in
  let average_speed :=
    speed_sum s
    / inject_Z (if (0 <? speed_sample_count s)%Z
                then speed_sample_count s else 1%Z) in
  let total_violations := Z.of_nat (length (violation_durations s)) in
  let average_violation_duration :=
    if (0 <? total_violations)%Z
    then sum (violation_durations s) / inject_Z total_violations
    else 0 in
  mkReport duration (max_speed s) average_speed (speed_violation_count s)
    average_violation_duration.

Definition stop_trial_run (now : Q) (s : t) : t * Report :=
  let s1 :=
    mk (speed_violation_count s) (speed_exceeded s) (trial_run_active s)
       (trial_countdown s) (countdown_start_time s) false
       (trial_timer_start s) (max_speed s) (violation_durations s)
       (current_violation_start s) true (speed_sum s) (speed_sample_count s)
       (now - trial_timer_start s) (countdown_duration s) (max_speed_limit s)
  in (s1, calculate_results s1).

(** The calls that change the counters, and the states they reach from a
    fresh object. *)
Inductive Op : Type :=
| op_display_speed (speed now : Q)
| op_start_trial_run
| op_start_countdown (now : Q)
| op_display_countdown (now : Q)
| op_stop_trial_run (now : Q).

Definition step (o : Op) (s : t) : t :=
  match o with
  | op_display_speed speed now => display_speed speed now s
  | op_start_trial_run => start_trial_run s
  | op_start_countdown now => start_countdown now s
  | op_display_countdown now => display_countdown now s
  | op_stop_trial_run now => fst (stop_trial_run now s)
  end.

Definition run (ops : list Op) (s : t) : t := fold_left (fun s o => step o s) ops s.

End CarlaSimulator.

(** ** The specification's response curves and mode cycle

    These follow the wording of the specification, for comparison with the
    code above. *)

Module Spec.

Local Open Scope R_scope.

Definition clamp (v lo hi : R) : R := Rmax lo (Rmin hi v).

(** [steer(x, d) = clamp(d * tan(1.1 * x), -1, 1)] *)
Definition steer (x d : R) : R := clamp (d * tan (1.1 * x)) (-1) 1.

(** [pedal(x, d) =
     clamp(d * (1.6 + (2.05 * log10(-0.7 * x + 1.4) - 1.2) / 0.92), 0, 1)] *)
Definition pedal (x d : R) : R :=
  clamp (d * (1.6 + (2.05 * (ln (-0.7 * x + 1.4) / ln 10) - 1.2) / 0.92)) 0 1.

(** [Automatic -> Manual -> AutomaticShifter -> Automatic] *)
Definition next_mode (m : DualControl.TransmissionMode)
  : DualControl.TransmissionMode :=
  match m with
  | DualControl.automatic => DualControl.manual
  | DualControl.manual => DualControl.automatic_shifter
  | DualControl.automatic_shifter => DualControl.automatic
  end.

(** [reverse == (gear < 0)] for every control vector handed to the
    vehicle. *)
Definition applied_control_ok (w : DualControl.WorldCall) : Prop :=
  match w with
  | DualControl.player_apply_control c =>
      DualControl.reverse c = (DualControl.gear c <? 0)%Z
  | _ => True
  end.

(** [s'] differs from [s] on the [world] trace by appended calls only,
    and every control vector among them satisfies the invariant. *)
Definition appends_ok (s s' : DualControl.t) : Prop :=
  exists calls,
    DualControl.world_calls s' = DualControl.world_calls s ++ calls
    /\ Forall applied_control_ok calls.

(** The key configuration under which key [m] is the mode-cycle command
    and nothing else that touches the gear: the four configurable entries
    of [key_mapping] exist and the reverse control is not bound to [m]. *)
Definition cycle_key_dedicated (pygame_K : string -> option Z)
  (key_mapping : gmap string (option string)) : Prop :=
  (exists v, key_mapping !! "reverse" = Some v
             /\ forall nm, v = Some nm -> pygame_K nm <> Some DualControl.K_m)
  /\ is_Some (key_mapping !! "handbrake")
  /\ is_Some (key_mapping !! "hide_hud")
  /\ is_Some (key_mapping !! "toggle_headlights").

(** The number of violation intervals open in the tracker: the single
    slot [violation_start] holds it. *)
Definition open_intervals (s : TrialManager.t) : Z :=
  match TrialManager.violation_start s with
  | Some _ => 1%Z
  | None => 0%Z
  end.

(** Every violation counted has been closed into the list, except the one
    that is open. *)
Definition tracker_consistent (s : TrialManager.t) : Prop :=
  TrialManager.violation_count s
  = (Z.of_nat (length (TrialManager.violation_durations s))
     + open_intervals s)%Z.

(** [averageSpeed = speedSampleCount > 0 ?
     speedSampleSum / speedSampleCount : 0] *)
Definition average_speed (speed_sample_sum : Q) (speed_sample_count : Z)
  : Q :=
  if (0 <? speed_sample_count)%Z
  then (speed_sample_sum / inject_Z speed_sample_count)%Q
  else 0%Q.

(** The two sample counters of [CarlaSimulator] move together. *)
Definition counters_consistent (s : CarlaSimulator.t) : Prop :=
  (0 <= CarlaSimulator.speed_sample_count s)%Z
  /\ (CarlaSimulator.speed_sample_count s = 0%Z ->
      CarlaSimulator.speed_sum s = 0%Q).

End Spec.

(** ** Sample configurations and inputs *)

Module Sample.

Import DualControl.
Local Open Scope R_scope.

(** Key names of a small keyboard. *)
Definition pygame_K (name : string) : option Z :=
  if String.eqb name "b" then Some 98%Z
  else if String.eqb name "m" then Some K_m
  else if String.eqb name "q" then Some K_q
  else if String.eqb name "SPACE" then Some K_SPACE
  else if String.eqb name "F1" then Some K_F1
  else None.

(** The default bindings of [load_config] with the wheel axes of a
    three-axis device bound in order. *)
Definition axes : gmap string (option Z) :=
  <["steering" := Some 0%Z]> (<["throttle" := Some 1%Z]>
  (<["brake" := Some 2%Z]> (<["reverse" := None]> (<["handbrake" := None]>
  (<["hide_hud" := None]> (<["toggle_headlights" := None]> ∅)))))).

(** As [axes], with the steering wheel configured on axis 5. *)
Definition axes_steering_on_5 : gmap string (option Z) :=
  <["steering" := Some 5%Z]> axes.

Definition key_names : gmap string (option string) :=
  <["reverse" := Some "b"]> (<["handbrake" := Some "SPACE"]>
  (<["hide_hud" := Some "F1"]> (<["toggle_headlights" := None]> ∅))).

(** A controller right after [__init__] with the given bindings and
    dampings. *)
Definition controller (bindings : gmap string (option Z))
  (steering throttle brake : R) : t :=
  mk false VehicleControl_default 0 bindings key_names steering throttle brake
     automatic false false [].

(** The same controller when the configuration file binds the reverse
    control to key [m], the key of the mode cycle. *)
Definition controller_reverse_on_m : t :=
  mk false VehicleControl_default 0 axes (<["reverse" := Some "m"]> key_names)
     0.5 1 1 automatic false false [].

(** The controller [__init__] builds when the configuration file has no
    [KeyMapping] section (or does not exist): [load_config] then returns
    its initial [key_mapping = {}].  The car is in gear [g]. *)
Definition controller_without_key_section (g : Z) : t :=
  mk false (set_gear g VehicleControl_default) 0 axes ∅ 0.5 1 1
     automatic false false [].

Definition no_keys : Z -> bool := fun _ => false.

(** A frame with no events and no key held, read with the given axes. *)
Definition quiet_frame (js : option (list R)) : Frame :=
  mkFrame [] false false no_keys 16%Z js.

(** A trial at 30 mph under the default limit of 45 mph: two samples, no
    violation. *)
Definition slow_trial : list TrialManager.Op :=
  [TrialManager.op_initiate_trial 0%Q;
   TrialManager.op_track_speed 30%Q 1%Q;
   TrialManager.op_track_speed 30%Q 2%Q;
   TrialManager.op_end_trial 3%Q].

(** A trial that is still speeding when it is ended: a sample of 50 mph at
    time 4 opens a violation, and the driver stops the trial at time 5. *)
Definition speeding_until_the_end : list TrialManager.Op :=
  [TrialManager.op_initiate_trial 0%Q;
   TrialManager.op_track_speed 50%Q 4%Q].

(** A violation that is opened and closed again. *)
Definition one_closed_violation : list TrialManager.Op :=
  [TrialManager.op_initiate_trial 0%Q;
   TrialManager.op_track_speed 50%Q 1%Q;
   TrialManager.op_track_speed 30%Q 3%Q].

End Sample.

(** ** Further parts of the Research client *)

(** Exceptions of the collaborators modelled below. *)
Module PyMore.

Inductive Exc : Type :=
| ZeroDivisionError
| TypeError
| AttributeError
| IndexError
| ValueError.

Inductive Outcome (A : Type) : Type :=
| Return (a : A)
| Throw (e : Exc).
Arguments Return {A} a.
Arguments Throw {A} e.

Definition and_then {A B : Type} (r : Outcome A) (k : A -> Outcome B)
  : Outcome B :=
  match r with
  | Return a => k a
  | Throw e => Throw e
  end.

(** [l[i]] on a Python list, as [Py.getitem]. *)
Definition getitem {A : Type} (l : list A) (i : Z) : Outcome A :=
  let n := Z.of_nat (length l) in
  let j := if (i <? 0)%Z then (n + i)%Z else i in
  if ((0 <=? j) && (j <? n))%Z
  then match nth_error l (Z.to_nat j) with
       | Some a => Return a
       | None => Throw IndexError
       end
  else Throw IndexError.

End PyMore.

(** *** [World]: vehicle lights and weather

    The attributes the light and weather methods read or write.  The
    player exists ([restart] has spawned it), and its light state is the
    integer [get_light_state] returns. *)

Module World.

Import PyMore.

(** Flags of [carla.VehicleLightState]. *)
Definition vls_NONE : Z := 0.
Definition vls_Position : Z := 1.
Definition vls_LowBeam : Z := 2.
Definition vls_HighBeam : Z := 4.
Definition vls_Brake : Z := 8.
Definition vls_Reverse : Z := 64.

Record t : Type := mk {
  player_light_state : Z;
  headlights_on : bool;
  _weather_presets : list string;
  _weather_index : Z;
  weather : option string;
  notification : option string
}.

Definition with_lights (l : Z) (w : t) : t :=
  mk l (headlights_on w) (_weather_presets w) (_weather_index w) (weather w)
     (notification w).

Definition init_vehicle_lights (w : t) : t :=
  with_lights (Z.lor vls_NONE vls_Position) w.

Definition toggle_headlights (w : t) : t :=
  let on := negb (headlights_on w) in
  let light_state := player_light_state w in
  let light_state :=
    if on then Z.lor light_state vls_LowBeam
    else Z.land light_state (Z.lnot vls_LowBeam) in
  mk light_state on (_weather_presets w) (_weather_index w) (weather w)
     (notification w).

Definition set_vehicle_light_state (brake_light reverse_light : bool) (w : t)
  : t :=
  let light_state := player_light_state w in
  let light_state :=
    if brake_light then Z.lor light_state vls_Brake
    else Z.land light_state (Z.lnot vls_Brake) in
  let light_state :=
    if reverse_light then Z.lor light_state vls_Reverse
    else Z.land light_state (Z.lnot vls_Reverse) in
  with_lights light_state w.

(** [DualControl._toggle_vehicle_lights(world)], which reads and writes
    the player's light state. *)
Definition _toggle_vehicle_lights (w : t) : t :=
  let light_state := player_light_state w in
  let new_state :=
    if negb (Z.land light_state vls_HighBeam =? 0)%Z
    then Z.land light_state (Z.lnot vls_HighBeam)
    else Z.lor light_state vls_HighBeam in
  with_lights new_state w.

(** [self._weather_index %= len(self._weather_presets)] divides by the
    number of presets. *)
Definition next_weather (reverse : bool) (w : t) : Outcome t :=
  let index := (_weather_index w + (if reverse then -1 else 1))%Z in
  let n := Z.of_nat (length (_weather_presets w)) in
  if (n =? 0)%Z then Throw ZeroDivisionError
  else
    let index := (index mod n)%Z in
    and_then (getitem (_weather_presets w) index) (fun name =>
    Return (mk (player_light_state w) (headlights_on w)
              (_weather_presets w) index (Some name)
              (Some ("Weather: " +:+ name)))).

End World.

(** *** [CameraManager]: the sensor table and the camera positions *)

Module CameraManager.

Import PyMore.

(** The rows of [self.sensors]: blueprint id, colour converter, label. *)
Definition sensors : list (string * option string * string) :=
  [("sensor.camera.rgb", Some "Raw", "Camera RGB");
   ("sensor.camera.depth", Some "Raw", "Camera Depth (Raw)");
   ("sensor.camera.depth", Some "Depth", "Camera Depth (Gray Scale)");
   ("sensor.camera.depth", Some "LogarithmicDepth",
    "Camera Depth (Logarithmic Gray Scale)");
   ("sensor.camera.semantic_segmentation", Some "Raw",
    "Camera Semantic Segmentation (Raw)");
   ("sensor.camera.semantic_segmentation", Some "CityScapesPalette",
    "Camera Semantic Segmentation (CityScapes Palette)");
   ("sensor.lidar.ray_cast", None, "Lidar (Ray-Cast)")].

(** The two entries of [self._camera_transforms], as (x, z, pitch). *)
Definition _camera_transforms : list (Q * Q * Q) :=
  [((-5.5)%Q, 2.8%Q, (-15)%Q); (1.6%Q, 1.7%Q, 0%Q)].

(** The live sensor actor: the row it was spawned from and the camera
    position it is attached at. *)
Record Sensor : Type := mkSensor {
  spawned_from : Z;
  attached_at : Q * Q * Q
}.

Record t : Type := mk {
  sensor : option Sensor;
  recording : bool;
  transform_index : Z;
  index : option Z;
  notifications : list string
}.

(** [CameraManager.__init__] *)
Definition init : t := mk None false 1 None [].

Definition blueprint_id (row : string * option string * string) : string :=
  fst (fst row).
Definition label (row : string * option string * string) : string := snd row.

Definition toggle_camera (m : t) : Outcome t :=
  let ti :=
    ((transform_index m + 1) mod Z.of_nat (length _camera_transforms))%Z in
  match sensor m with
  | None => Throw AttributeError
  | Some live =>
      and_then (getitem _camera_transforms ti) (fun tr =>
      Return (mk (Some (mkSensor (spawned_from live) tr)) (recording m) ti
                (index m) (notifications m)))
  end.

Definition set_sensor (i : Z) (notify : bool) (m : t) : Outcome t :=
  let i := (i mod Z.of_nat (length sensors))%Z in
  and_then (getitem sensors i) (fun new_row =>
  and_then
    (match index m with
     | None => Return true
     | Some old =>
         and_then (getitem sensors old) (fun old_row =>
         Return (negb (String.eqb (blueprint_id new_row)
                         (blueprint_id old_row))))
     end) (fun needs_respawn =>
  and_then
    (if needs_respawn
     then and_then (getitem _camera_transforms (transform_index m)) (fun tr =>
          Return (Some (mkSensor i tr)))
     else Return (sensor m)) (fun live =>
  Return (mk live (recording m) (transform_index m) (Some i)
            (if notify then notifications m ++ [label new_row]
             else notifications m))))).

Definition next_sensor (m : t) : Outcome t :=
  match index m with
  | None => Throw TypeError
  | Some i => set_sensor (i + 1) true m
  end.

Definition toggle_recording (m : t) : t :=
  let on := negb (recording m) in
  mk (sensor m) on (transform_index m) (index m)
     (notifications m ++ [if on then "Recording On" else "Recording Off"]).

(** The calls the keyboard can make on a camera manager. *)
Inductive Op : Type :=
| op_toggle_camera
| op_set_sensor (i : Z)
| op_next_sensor
| op_toggle_recording.

Definition step (o : Op) (m : t) : Outcome t :=
  match o with
  | op_toggle_camera => toggle_camera m
  | op_set_sensor i => set_sensor i true m
  | op_next_sensor => next_sensor m
  | op_toggle_recording => Return (toggle_recording m)
  end.

Fixpoint run (ops : list Op) (m : t) : Outcome t :=
  match ops with
  | [] => Return m
  | o :: rest => and_then (step o m) (run rest)
  end.

End CameraManager.

(** *** [FadingText]: the HUD notification line *)

Module FadingText.

Local Open Scope Q_scope.

(** [alpha] is the value last given to [surface.set_alpha], [None] for a
    surface on which it has not been called. *)
Record t : Type := mk {
  text : string;
  seconds_left : Q;
  alpha : option Q
}.

(** [FadingText.__init__] *)
Definition init : t := mk "" 0 None.

(** [set_text] draws the text on a fresh surface. *)
Definition set_text (new_text : string) (seconds : Q) (f : t) : t :=
  mk new_text seconds None.

Section Floats.

(** [round_float x] is the float that the number [x] is rounded to: an
    operation on floats gives the rounding of its exact result. *)
Variable round_float : Q -> Q.

(** A number that is a float. *)
Definition is_float (x : Q) : Prop := round_float x == x.

(** [delta_seconds = 1e-3 * clock.get_time()] *)
Definition delta_seconds (milliseconds : Z) : Q :=
  round_float (round_float 1e-3 * inject_Z milliseconds).

(** [tick]; [milliseconds] is [clock.get_time()]. *)
Definition tick (milliseconds : Z) (f : t) : t :=
  let left := round_float (seconds_left f - delta_seconds milliseconds) in
  let left := if Qlt_le_dec 0.0 left then left else 0.0 in
  mk (text f) left (Some (round_float (500.0 * left))).

Definition ticks (frames : list Z) (f : t) : t :=
  fold_left (fun f ms => tick ms f) frames f.

End Floats.

End FadingText.

(** *** [CollisionSensor]: the collision history and its HUD graph *)

Module CollisionSensor.

Local Open Scope Q_scope.

(** [self.history]: (frame, intensity) pairs, oldest first. *)
Definition History : Type := list (Z * Q).

(** The bookkeeping of [_on_collision] for an event of the given frame and
    intensity. *)
Definition _on_collision (frame : Z) (intensity : Q) (history : History)
  : History :=
  let history := history ++ [(frame, intensity)] in
  if (4000 <? length history)%nat then tl history else history.

(** [get_collision_history]: a [defaultdict(int)] keyed by frame. *)
Definition get_collision_history (history : History) : gmap Z Q :=
  fold_left
    (fun d entry => <[fst entry := default 0 (d !! fst entry) + snd entry]> d)
    history ∅.

(** [colhist[k]] on the default dict. *)
Definition at_frame (colhist : gmap Z Q) (k : Z) : Q := default 0 (colhist !! k).

Definition py_max (a b : Q) : Q := if Qlt_le_dec a b then b else a.

(** [max(l)] on a non-empty list. *)
Definition list_max (l : list Q) : option Q :=
  match l with
  | [] => None
  | x :: rest => Some (fold_left py_max rest x)
  end.

(** The collision graph [HUD.tick] builds for the frame [hud_frame]: the
    last 200 frames, scaled by their maximum or by 1 when that is
    smaller. *)
Definition collision_graph (hud_frame : Z) (history : History) : list Q :=
  let colhist := get_collision_history history in
  let collision :=
    map (fun x => at_frame colhist (Z.of_nat x + hud_frame - 200))
      (seq 0 200) in
  match list_max collision with
  | Some m =>
      let max_col := py_max 1.0 m in
      map (fun x => x / max_col) collision
  | None => []
  end.

End CollisionSensor.

(** *** [TrialManager]: the game loop and the timer text *)

Module TrialLoop.

Local Open Scope Q_scope.

(** What one iteration of [game_loop] reads for the trial. *)
Record Input : Type := mkInput {
  key_KP1 : bool;
  key_RETURN : bool;
  key_SPACE : bool;
  speed : Q;
  now : Q
}.

Fixpoint game_loop (frames : list Input) (s : TrialManager.t)
  : Res TrialManager.t :=
  match frames with
  | [] => Ok s
  | f :: rest =>
      py s1 <- TrialManager.game_loop_trial_step (key_KP1 f) (key_RETURN f)
                 (key_SPACE f) (speed f) (now f) s;
      game_loop rest s1
  end.

(** Python's [x % m] and [x // m] on floats, for [m] one of 1 and 60 and
    [0 <= x < 2^53]: there the remainder is computed without rounding,
    and the quotient is a whole number below [2^53]. *)
Definition float_mod (x m : Q) : Q := x - m * inject_Z (Qfloor (x / m)).
Definition float_floordiv (x m : Q) : Q := inject_Z (Qfloor (x / m)).

(** [f"{n:02}"] *)
Definition format_02 (n : Z) : string :=
  let digits := pretty n in
  if (String.length digits <? 2)%nat then "0" +:+ digits else digits.

Section Timer.

(** [float_mul x y] is the product of two floats as the machine computes
    it, rounded to a float. *)
Variable float_mul : Q -> Q -> Q.

(** The three numbers [format_time] prints: minutes, seconds and the
    hundredths the source calls [milliseconds]. *)
Definition time_fields (seconds : Q) : Z * Z * Z :=
  let milliseconds :=
    CarlaSimulator.int (float_mul (float_mod seconds 1) 100) in
  let minutes := CarlaSimulator.int (float_floordiv seconds 60) in
  let seconds := CarlaSimulator.int (float_mod seconds 60) in
  (minutes, seconds, milliseconds).

Definition format_time (seconds : Q) : string :=
  let '(minutes, seconds, milliseconds) := time_fields seconds in
  format_02 minutes +:+ ":" +:+ format_02 seconds +:+ ":"
  +:+ format_02 milliseconds.

End Timer.

(** Time stamps that never run backwards along a list of calls, starting
    from [last]. *)
Fixpoint clock_monotone (last : Q) (ops : list TrialManager.Op) : Prop :=
  match ops with
  | [] => True
  | TrialManager.op_start_trial :: rest => clock_monotone last rest
  | TrialManager.op_initiate_trial t :: rest
  | TrialManager.op_end_trial t :: rest
  | TrialManager.op_track_speed _ t :: rest =>
      last <= t /\ clock_monotone t rest
  end.

(** [track_speed] over a list of (speed, time) samples. *)
Definition track_all (samples : list (Q * Q)) (s : TrialManager.t)
  : TrialManager.t :=
  fold_left (fun s x => TrialManager.track_speed (fst x) (snd x) s) samples s.

(** [a <= v] for a float that may be infinite. *)
Definition at_most (a : TrialManager.Float) (v : Q) : Prop :=
  match a with
  | TrialManager.Finite m => m <= v
  | TrialManager.Infinity => False
  end.

End TrialLoop.

(** *** Invariants of [DualControl] *)

Module Invariants.

Import DualControl.

(** The flags that mirror [transmission_mode], and the floor of the
    gear. *)
Definition mode_flags_consistent (s : t) : Prop :=
  manual_gear_shift (_control s)
  = match transmission_mode s with manual => true | _ => false end
  /\ _shifter_mode s
     = match transmission_mode s with automatic_shifter => true | _ => false end
  /\ (_neutral_mode s = true -> _shifter_mode s = true)
  /\ (-1 <= gear (_control s))%Z.

Definition not_applied (w : WorldCall) : Prop :=
  match w with
  | player_apply_control _ => False
  | _ => True
  end.

(** [s'] extends the [world] trace of [s] by calls none of which hands a
    control vector to the vehicle. *)
Definition appends_without_control (s s' : t) : Prop :=
  exists calls,
    world_calls s' = world_calls s ++ calls /\ Forall not_applied calls.


(** The mode and its flags are the same in both states. *)
Definition same_mode (s s' : t) : Prop :=
  transmission_mode s' = transmission_mode s
  /\ _shifter_mode s' = _shifter_mode s
  /\ _neutral_mode s' = _neutral_mode s
  /\ manual_gear_shift (_control s') = manual_gear_shift (_control s)
  /\ gear (_control s') = gear (_control s).

End Invariants.

(** *** What the camera shows *)

Module CameraShown.

Import PyMore.
Import CameraManager.

(** A sensor is selected and the live sensor is the selected one: it was
    spawned from a row with the blueprint of the selected row, and it is
    attached at the selected camera position. *)
Definition shows_selection (m : t) : Prop :=
  exists i live from_row selected_row tr,
    index m = Some i
    /\ (0 <= i < 7)%Z
    /\ sensor m = Some live
    /\ getitem sensors (spawned_from live) = Return from_row
    /\ getitem sensors i = Return selected_row
    /\ blueprint_id from_row = blueprint_id selected_row
    /\ (0 <= transform_index m < 2)%Z
    /\ getitem _camera_transforms (transform_index m) = Return tr
    /\ attached_at live = tr.

End CameraShown.

(** * Properties *)

(** ** The wheel path: response curves and axis lookup *)

Module WheelFacts.

Import DualControl.
Local Open Scope R_scope.

Lemma log10_pos (x : R) : 0 < x -> log10 x = Ok (ln x / ln 10).
Proof.
  intros Hx. unfold log10. destruct (Rlt_dec 0 x) as [_ | Hn].
  - reflexivity.
  - contradiction.
Qed.

Lemma log10_nonpos (x : R) : x <= 0 -> log10 x = Raise ValueError.
Proof.
  intros Hx. unfold log10. destruct (Rlt_dec 0 x) as [Hp | _].
  - lra.
  - reflexivity.
Qed.

Lemma clamp_bounds (v lo hi : R) :
  lo <= hi -> lo <= Spec.clamp v lo hi <= hi.
Proof.
  intros Hle. unfold Spec.clamp. split.
  - apply Rmax_l.
  - apply Rmax_lub; [exact Hle | apply Rmin_l].
Qed.

Lemma clamp_above (v lo hi : R) : lo <= hi -> hi <= v -> Spec.clamp v lo hi = hi.
Proof.
  intros Hle Hv. unfold Spec.clamp.
  rewrite Rmin_left by exact Hv. apply Rmax_right. exact Hle.
Qed.

(** One degree and a tenth of a radian past [PI / 4]: the tangent is
    already above 1 at full lock. *)
Lemma tan_full_lock : 1 < tan (1.1 * 1).
Proof.
  pose proof PI_RGT_0 as Hpos. pose proof PI_4 as H4.
  pose proof PI2_3_2 as H32.
  assert (H : tan (PI / 4) < tan (1.1 * 1)) by (apply tan_increasing; lra).
  rewrite tan_PI4 in H. exact H.
Qed.

(** The commands computed when the three axis reads succeed and both
    logarithms are defined. *)
Lemma wheel_commands_defined (js : list R) (sa ta ba : Z) (s : t)
  (xs xt xb : R) :
  getitem js sa = Ok xs -> getitem js ta = Ok xt -> getitem js ba = Ok xb ->
  0 < -0.7 * xt + 1.4 -> 0 < -0.7 * xb + 1.4 ->
  wheel_commands js sa ta ba s =
  Ok (steering_damping s * tan (1.1 * xs),
      Spec.pedal xt (throttle_damping s),
      Spec.pedal xb (brake_damping s)).
Proof.
  intros Hs Ht Hb Hpt Hpb. unfold wheel_commands.
  rewrite Hs, Ht, Hb. cbn [bind].
  rewrite (log10_pos _ Hpt). cbn [bind].
  rewrite (log10_pos _ Hpb). cbn [bind].
  reflexivity.
Qed.

(** A throttle reading whose logarithm is undefined stops the computation
    with the domain error of [math.log10]. *)
Lemma wheel_commands_throttle_domain (js : list R) (sa ta ba : Z) (s : t)
  (xs xt : R) :
  getitem js sa = Ok xs -> getitem js ta = Ok xt ->
  -0.7 * xt + 1.4 <= 0 ->
  wheel_commands js sa ta ba s = Raise ValueError.
Proof.
  intros Hs Ht Hn. unfold wheel_commands.
  rewrite Hs, Ht. cbn [bind].
  rewrite (log10_nonpos _ Hn). reflexivity.
Qed.

Lemma wheel_commands_brake_domain (js : list R) (sa ta ba : Z) (s : t)
  (xs xt xb : R) :
  getitem js sa = Ok xs -> getitem js ta = Ok xt -> getitem js ba = Ok xb ->
  0 < -0.7 * xt + 1.4 -> -0.7 * xb + 1.4 <= 0 ->
  wheel_commands js sa ta ba s = Raise ValueError.
Proof.
  intros Hs Ht Hb Hpt Hn. unfold wheel_commands.
  rewrite Hs, Ht, Hb. cbn [bind].
  rewrite (log10_pos _ Hpt). cbn [bind].
  rewrite (log10_nonpos _ Hn). reflexivity.
Qed.

(** [_parse_vehicle_wheel] once the three bindings are known. *)
Lemma parse_vehicle_wheel_bound (js : list R) (s : t) (sa ta ba : Z) :
  axis_binding s "steering" = Some sa ->
  axis_binding s "throttle" = Some ta ->
  axis_binding s "brake" = Some ba ->
  _parse_vehicle_wheel js s =
  py cmds <- wheel_commands js sa ta ba s;
  Ok (with_control
        (set_throttle (if negb (_neutral_mode s) then snd (fst cmds) else 0)
           (set_brake (snd cmds) (set_steer (fst (fst cmds)) (_control s))))
        s).
Proof.
  intros Hs Ht Hb. unfold _parse_vehicle_wheel. rewrite Hs, Ht, Hb.
  destruct (wheel_commands js sa ta ba s) as [[[c1 c2] c3] | e]; reflexivity.
Qed.

Lemma sample_bindings (sd td bd : R) :
  axis_binding (Sample.controller Sample.axes sd td bd) "steering" = Some 0%Z
  /\ axis_binding (Sample.controller Sample.axes sd td bd) "throttle"
     = Some 1%Z
  /\ axis_binding (Sample.controller Sample.axes sd td bd) "brake"
     = Some 2%Z.
Proof. repeat split; reflexivity. Qed.

(** C1, at the input where the code departs from the claim: the wheel at
    full right lock ([x = 1]) with steering damping [d = 2] and both pedals
    released.  [_parse_vehicle_wheel] writes [2 * tan 1.1] into
    [_control.steer]; that value is above 1, whereas the claimed
    [clamp(d * tan(1.1 * x), -1, 1)] is exactly 1 there. *)
Theorem steer_not_clamped_at_full_lock :
  exists s',
    _parse_vehicle_wheel [1; -1; -1] (Sample.controller Sample.axes 2 1 1)
    = Ok s'
    /\ steer (_control s') = 2 * tan (1.1 * 1)
    /\ 1 < steer (_control s')
    /\ Spec.steer 1 2 = 1
    /\ steer (_control s') <> Spec.steer 1 2.
Proof.
  destruct (sample_bindings 2 1 1) as (Hs & Ht & Hb).
  pose proof tan_full_lock as Htan.
  assert (Hspec : Spec.steer 1 2 = 1).
  { unfold Spec.steer. apply clamp_above; lra. }
  eexists. split.
  - rewrite (parse_vehicle_wheel_bound _ _ _ _ _ Hs Ht Hb).
    rewrite (wheel_commands_defined _ 0 1 2 _ 1 (-1) (-1));
      [ reflexivity | reflexivity | reflexivity | reflexivity | lra | lra ].
  - cbn. rewrite Hspec. repeat split; try lra.
Qed.

(** C6.  For pedal readings in [-1, 1] the throttle and brake commands of
    the wheel path are the specification's clamped pedal curve, each with
    its own damping, for every damping value and so for those in (0, 2];
    both lie in [0, 1].  The brake command is written to the control
    vector as it is, the throttle command too unless the shifter is in
    neutral, where 0 is written; either way the written values lie in
    [0, 1]. *)
Theorem pedal_commands_clamped (js : list R) (s : t) (sa ta ba : Z)
  (xs xt xb : R) :
  axis_binding s "steering" = Some sa ->
  axis_binding s "throttle" = Some ta ->
  axis_binding s "brake" = Some ba ->
  getitem js sa = Ok xs -> getitem js ta = Ok xt -> getitem js ba = Ok xb ->
  -1 <= xt <= 1 -> -1 <= xb <= 1 ->
  exists steerCmd throttleCmd brakeCmd s',
    wheel_commands js sa ta ba s = Ok (steerCmd, throttleCmd, brakeCmd)
    /\ throttleCmd = Spec.pedal xt (throttle_damping s)
    /\ brakeCmd = Spec.pedal xb (brake_damping s)
    /\ 0 <= throttleCmd <= 1 /\ 0 <= brakeCmd <= 1
    /\ _parse_vehicle_wheel js s = Ok s'
    /\ brake (_control s') = brakeCmd
    /\ throttle (_control s') = (if _neutral_mode s then 0 else throttleCmd)
    /\ 0 <= throttle (_control s') <= 1.
Proof.
  intros Hs Ht Hb Gs Gt Gb Rt Rb.
  assert (Hpt : 0 < -0.7 * xt + 1.4) by lra.
  assert (Hpb : 0 < -0.7 * xb + 1.4) by lra.
  pose proof (wheel_commands_defined js sa ta ba s xs xt xb Gs Gt Gb Hpt Hpb)
    as Hcmd.
  assert (Bt : 0 <= Spec.pedal xt (throttle_damping s) <= 1)
    by (apply clamp_bounds; lra).
  assert (Bb : 0 <= Spec.pedal xb (brake_damping s) <= 1)
    by (apply clamp_bounds; lra).
  eexists _, _, _, _.
  split; [exact Hcmd |].
  split; [reflexivity |]. split; [reflexivity |].
  split; [exact Bt |]. split; [exact Bb |].
  split.
  { rewrite (parse_vehicle_wheel_bound _ _ _ _ _ Hs Ht Hb), Hcmd.
    reflexivity. }
  cbn. split; [reflexivity |].
  destruct (_neutral_mode s); cbn; split; try reflexivity; lra.
Qed.

Lemma pedal_commands_clamped_witness :
  exists steerCmd throttleCmd brakeCmd s',
    wheel_commands [0; 1; -1] 0 1 2 (Sample.controller Sample.axes 0.5 1 1)
    = Ok (steerCmd, throttleCmd, brakeCmd)
    /\ throttleCmd = Spec.pedal 1 1
    /\ brakeCmd = Spec.pedal (-1) 1
    /\ 0 <= throttleCmd <= 1 /\ 0 <= brakeCmd <= 1
    /\ _parse_vehicle_wheel [0; 1; -1]
         (Sample.controller Sample.axes 0.5 1 1) = Ok s'
    /\ brake (_control s') = brakeCmd
    /\ throttle (_control s') = throttleCmd
    /\ 0 <= throttle (_control s') <= 1.
Proof.
  apply (pedal_commands_clamped [0; 1; -1]
           (Sample.controller Sample.axes 0.5 1 1) 0 1 2 0 1 (-1));
    [ reflexivity | reflexivity | reflexivity
    | reflexivity | reflexivity | reflexivity | lra | lra ].
Defined.

(** C7, as stated, fails: a throttle reading of 2 makes the argument of
    [math.log10] zero, nothing clamps it, and the wheel path stops with the
    domain error. *)
Lemma pedal_log_domain_error_at_2 :
  _parse_vehicle_wheel [0; 2; -1] (Sample.controller Sample.axes 0.5 1 1)
  = Raise ValueError.
Proof.
  destruct (sample_bindings 0.5 1 1) as (Hs & Ht & Hb).
  rewrite (parse_vehicle_wheel_bound _ _ _ _ _ Hs Ht Hb).
  rewrite (wheel_commands_throttle_domain _ 0 1 2 _ 0 2);
    [ reflexivity | reflexivity | reflexivity | lra ].
Qed.

(** C7, amended.  The logarithm is taken of [-0.7 * x + 1.4] itself.  When
    both pedal readings are below 2 (as every reading in [-1, 1] is) the
    argument is positive and the commands are the pedal curve, with no
    domain error; when the throttle or the brake reading is 2 or more the
    wheel path raises the domain error of [math.log10]. *)
Theorem pedal_log_defined_below_2 (js : list R) (s : t) (sa ta ba : Z)
  (xs xt xb : R) :
  axis_binding s "steering" = Some sa ->
  axis_binding s "throttle" = Some ta ->
  axis_binding s "brake" = Some ba ->
  getitem js sa = Ok xs -> getitem js ta = Ok xt -> getitem js ba = Ok xb ->
  (xt < 2 /\ xb < 2 ->
   log10 (-0.7 * xt + 1.4) = Ok (ln (-0.7 * xt + 1.4) / ln 10)
   /\ log10 (-0.7 * xb + 1.4) = Ok (ln (-0.7 * xb + 1.4) / ln 10)
   /\ wheel_commands js sa ta ba s =
      Ok (steering_damping s * tan (1.1 * xs),
          Spec.pedal xt (throttle_damping s),
          Spec.pedal xb (brake_damping s))
   /\ is_ok (_parse_vehicle_wheel js s) = true)
  /\ (2 <= xt \/ 2 <= xb -> _parse_vehicle_wheel js s = Raise ValueError).
Proof.
  intros Hs Ht Hb Gs Gt Gb. split.
  - intros [Lt Lb].
    assert (Hpt : 0 < -0.7 * xt + 1.4) by lra.
    assert (Hpb : 0 < -0.7 * xb + 1.4) by lra.
    split; [apply log10_pos; exact Hpt |].
    split; [apply log10_pos; exact Hpb |].
    pose proof (wheel_commands_defined js sa ta ba s xs xt xb
                  Gs Gt Gb Hpt Hpb) as Hcmd.
    split; [exact Hcmd |].
    rewrite (parse_vehicle_wheel_bound _ _ _ _ _ Hs Ht Hb), Hcmd.
    reflexivity.
  - intros Hout.
    rewrite (parse_vehicle_wheel_bound _ _ _ _ _ Hs Ht Hb).
    destruct (Rlt_dec xt 2) as [Lt | Ge].
    + destruct Hout as [Bad | Bad]; [lra |].
      rewrite (wheel_commands_brake_domain js sa ta ba s xs xt xb);
        [ reflexivity | assumption | assumption | assumption | lra | lra ].
    + rewrite (wheel_commands_throttle_domain js sa ta ba s xs xt);
        [ reflexivity | assumption | assumption | lra ].
Qed.

Lemma pedal_log_defined_below_2_witness :
  is_ok (_parse_vehicle_wheel [0; 1; -1]
           (Sample.controller Sample.axes 0.5 1 1)) = true.
Proof.
  apply (pedal_log_defined_below_2 [0; 1; -1]
           (Sample.controller Sample.axes 0.5 1 1) 0 1 2 0 1 (-1));
    [ reflexivity | reflexivity | reflexivity
    | reflexivity | reflexivity | reflexivity | split; lra ].
Defined.

(** A configured axis index the device does not have makes the list access
    of the wheel path raise. *)
Lemma wheel_index_out_of_range (js : list R) (s : t) (sa ta ba : Z) :
  axis_binding s "steering" = Some sa ->
  axis_binding s "throttle" = Some ta ->
  axis_binding s "brake" = Some ba ->
  (Z.of_nat (length js) <= sa)%Z ->
  _parse_vehicle_wheel js s = Raise IndexError.
Proof.
  intros Hs Ht Hb Hlen.
  rewrite (parse_vehicle_wheel_bound _ _ _ _ _ Hs Ht Hb).
  unfold wheel_commands, getitem.
  assert (Hneg : (sa <? 0)%Z = false) by lia. rewrite Hneg.
  assert (Hin : ((0 <=? sa) && (sa <? Z.of_nat (length js)))%Z = false).
  { apply andb_false_iff. right. lia. }
  rewrite Hin. reflexivity.
Qed.

Section Frames.

Variable pygame_K : string -> option Z.
Variable round1 : R -> R.

(** C5, at the input where the code departs from the claim: the steering
    control is configured on axis 5 and the connected device reports three
    axes.  The frame has no events and no key held; [parse_events] raises
    [IndexError] instead of resolving the control to neutral. *)
Theorem axis_index_beyond_device_raises :
  parse_events pygame_K round1 (Sample.quiet_frame (Some [0; 0; 0]))
    (Sample.controller Sample.axes_steering_on_5 0.5 1 1)
  = Raise IndexError.
Proof.
  unfold parse_events. cbn [Sample.quiet_frame events handle_events bind].
  cbn [Sample.controller _autopilot_enabled negb].
  change (joystick (Sample.quiet_frame (Some [0; 0; 0])))
    with (Some [0; 0; 0]).
  cbv iota.
  rewrite (wheel_index_out_of_range [0; 0; 0] _ 5 1 2);
    [ reflexivity | reflexivity | reflexivity | reflexivity | cbn; lia ].
Qed.

(** Without a joystick the wheel path is not entered: a frame whose event
    handlers do not raise never raises, whatever the axis bindings are. *)
Lemma parse_events_without_joystick (fr : Frame) (s : t) :
  joystick fr = None ->
  is_ok (handle_events pygame_K fr (events fr) s) = true ->
  is_ok (parse_events pygame_K round1 fr s) = true.
Proof.
  intros Hjs Hev. unfold parse_events.
  destruct (handle_events pygame_K fr (events fr) s) as [[quit s1] | e];
    [| discriminate].
  cbn [bind]. destruct quit; [reflexivity |].
  destruct (negb (_autopilot_enabled s1)); [| reflexivity].
  rewrite Hjs. reflexivity.
Qed.

End Frames.

End WheelFacts.

(** ** The transmission cycle *)

Module TransmissionFacts.

Import DualControl.

Section Keys.

Variable pygame_K : string -> option Z.

Lemma key_binding_is_present (s : t) (name : string) (key : Z) :
  is_Some (key_mapping s !! name) ->
  exists b, key_binding_is pygame_K s name key = Ok b.
Proof.
  intros [v Hv]. unfold key_binding_is, dict_getitem. rewrite Hv.
  cbn [bind]. eexists. reflexivity.
Qed.

Lemma reverse_not_on_m (s : t) :
  Spec.cycle_key_dedicated pygame_K (key_mapping s) ->
  key_binding_is pygame_K s "reverse" K_m = Ok false.
Proof.
  intros [(v & Hv & Hfree) _]. unfold key_binding_is, dict_getitem.
  rewrite Hv. cbn [bind]. destruct v as [nm |]; [| reflexivity].
  specialize (Hfree nm eq_refl).
  destruct (pygame_K nm) as [k |]; [| reflexivity].
  destruct (Z.eqb_spec K_m k) as [Heq | _]; [| reflexivity].
  contradiction Hfree. rewrite Heq. reflexivity.
Qed.

(** Key [m] passes the fixed keys of the first chain and reaches the
    configurable bindings. *)
Lemma handle_key_bindings_m (shift : bool) (s : t) :
  _handle_key_bindings pygame_K shift K_m s =
  py is_reverse <- key_binding_is pygame_K s "reverse" K_m;
  if is_reverse then Ok (toggle_reverse_gear s) else
  py is_handbrake <- key_binding_is pygame_K s "handbrake" K_m;
  if is_handbrake
  then Ok (with_control
             (set_hand_brake (negb (hand_brake (_control s))) (_control s)) s)
  else
  py is_hide_hud <- key_binding_is pygame_K s "hide_hud" K_m;
  if is_hide_hud then Ok (call hud_toggle_info s) else
  py is_headlights <- key_binding_is pygame_K s "toggle_headlights" K_m;
  if is_headlights then Ok (call toggle_headlights s) else
  Ok s.
Proof. destruct shift; reflexivity. Qed.

(** The second chain on key [m], from any state. *)
Lemma handle_key_vehicle_m (s : t) :
  key_mapping (_handle_key_vehicle K_m s) = key_mapping s
  /\ gear (_control (_handle_key_vehicle K_m s)) = gear (_control s)
  /\ transmission_mode (_handle_key_vehicle K_m s)
     = Spec.next_mode (transmission_mode s).
Proof.
  destruct s as [ap c cache am km sd td bd m sh n w].
  destruct m; repeat split; reflexivity.
Qed.

(** One press of [m]: the mode advances one step of the cycle and the gear
    and the key configuration stay as they were. *)
Lemma handle_key_m (shift : bool) (s : t) :
  Spec.cycle_key_dedicated pygame_K (key_mapping s) ->
  exists s',
    _handle_key pygame_K shift K_m s = Ok s'
    /\ key_mapping s' = key_mapping s
    /\ gear (_control s') = gear (_control s)
    /\ transmission_mode s' = Spec.next_mode (transmission_mode s).
Proof.
  intros Hded. pose proof (reverse_not_on_m s Hded) as Hrev.
  destruct Hded as (_ & Hhb & Hhud & Hhl).
  destruct (key_binding_is_present s "handbrake" K_m Hhb) as [b1 E1].
  destruct (key_binding_is_present s "hide_hud" K_m Hhud) as [b2 E2].
  destruct (key_binding_is_present s "toggle_headlights" K_m Hhl) as [b3 E3].
  assert (Hchain : exists s1,
             _handle_key_bindings pygame_K shift K_m s = Ok s1
             /\ key_mapping s1 = key_mapping s
             /\ gear (_control s1) = gear (_control s)
             /\ transmission_mode s1 = transmission_mode s).
  { rewrite handle_key_bindings_m, Hrev. cbn [bind].
    rewrite E1. cbn [bind].
    destruct b1; [eexists; split; [reflexivity | auto] |].
    rewrite E2. cbn [bind].
    destruct b2; [eexists; split; [reflexivity | auto] |].
    rewrite E3. cbn [bind].
    destruct b3; eexists; split; try reflexivity; auto. }
  destruct Hchain as (s1 & Es1 & K1 & G1 & M1).
  destruct (handle_key_vehicle_m s1) as (K2 & G2 & M2).
  exists (_handle_key_vehicle K_m s1). unfold _handle_key.
  rewrite Es1. cbn [bind]. split; [reflexivity |].
  repeat split; congruence.
Qed.

(** What the [K_m] branch does once it is reached.  With a key
    configuration in which the four lookups succeed and key [m] is the
    cycle command only: from [automatic] with gear [g], three presses of
    the mode key lead through [manual] and [automatic_shifter] back to
    [automatic], and the gear is [g] after each press. *)
Lemma cycle_mode_three_times (shift1 shift2 shift3 : bool) (s : t) (g : Z) :
  transmission_mode s = automatic ->
  gear (_control s) = g ->
  Spec.cycle_key_dedicated pygame_K (key_mapping s) ->
  exists s1 s2 s3,
    _handle_key pygame_K shift1 K_m s = Ok s1
    /\ _handle_key pygame_K shift2 K_m s1 = Ok s2
    /\ _handle_key pygame_K shift3 K_m s2 = Ok s3
    /\ transmission_mode s1 = manual
    /\ transmission_mode s2 = automatic_shifter
    /\ transmission_mode s3 = automatic
    /\ gear (_control s1) = g
    /\ gear (_control s2) = g
    /\ gear (_control s3) = g.
Proof.
  intros Hmode Hgear Hded.
  destruct (handle_key_m shift1 s Hded) as (s1 & E1 & K1 & G1 & M1).
  rewrite <- K1 in Hded.
  destruct (handle_key_m shift2 s1 Hded) as (s2 & E2 & K2 & G2 & M2).
  rewrite <- K2 in Hded.
  destruct (handle_key_m shift3 s2 Hded) as (s3 & E3 & K3 & G3 & M3).
  exists s1, s2, s3.
  rewrite Hmode in M1. rewrite M1 in M2. rewrite M2 in M3.
  repeat split; try assumption; congruence.
Qed.

Variable round1 : R -> R.

(** C8, at the input where the code departs from the claim: the
    configuration has no [KeyMapping] section, so [key_mapping] is the
    empty dict, the transmission is [automatic] and the car is in any
    gear [g].  A release of key [m] passes the fixed keys of the first
    chain and evaluates [self.key_mapping['reverse']], which raises
    [KeyError]: the handler does not reach its [K_m] branch, the frame
    does not return, and the mode is not advanced. *)
Theorem cycle_key_raises_without_key_section (shift : bool) (g : Z) :
  transmission_mode (Sample.controller_without_key_section g) = automatic
  /\ gear (_control (Sample.controller_without_key_section g)) = g
  /\ _handle_key pygame_K shift K_m (Sample.controller_without_key_section g)
     = Raise KeyError
  /\ parse_events pygame_K round1
       (mkFrame [KEYUP K_m] shift false Sample.no_keys 16%Z None)
       (Sample.controller_without_key_section g)
     = Raise KeyError.
Proof.
  assert (E : _handle_key pygame_K shift K_m
                (Sample.controller_without_key_section g) = Raise KeyError).
  { unfold _handle_key. rewrite handle_key_bindings_m. reflexivity. }
  split; [reflexivity |]. split; [reflexivity |]. split; [exact E |].
  unfold parse_events.
  cbn [events handle_events mod_ctrl mod_shift].
  change (_is_quit_shortcut false K_m) with false. cbv iota.
  rewrite E. reflexivity.
Qed.

End Keys.

Lemma sample_keys_dedicated :
  Spec.cycle_key_dedicated Sample.pygame_K Sample.key_names.
Proof.
  split; [| repeat split; eexists; reflexivity].
  exists (Some "b"). split; [reflexivity |].
  intros nm Hnm. injection Hnm as <-. discriminate.
Defined.

Lemma cycle_mode_three_times_witness :
  exists s1 s2 s3,
    _handle_key Sample.pygame_K false K_m
      (Sample.controller Sample.axes 0.5 1 1) = Ok s1
    /\ _handle_key Sample.pygame_K false K_m s1 = Ok s2
    /\ _handle_key Sample.pygame_K false K_m s2 = Ok s3
    /\ transmission_mode s1 = manual
    /\ transmission_mode s2 = automatic_shifter
    /\ transmission_mode s3 = automatic
    /\ gear (_control s1) = 0%Z
    /\ gear (_control s2) = 0%Z
    /\ gear (_control s3) = 0%Z.
Proof.
  apply (cycle_mode_three_times Sample.pygame_K false false false
           (Sample.controller Sample.axes 0.5 1 1) 0%Z);
    [ reflexivity | reflexivity | exact sample_keys_dedicated ].
Defined.

(** Why the configuration matters: when the reverse control is bound to
    key [m] too, one release of [m] both advances the mode and puts the
    car in reverse gear. *)
Lemma mode_key_shared_with_reverse :
  exists s',
    _handle_key Sample.pygame_K false K_m Sample.controller_reverse_on_m
    = Ok s'
    /\ transmission_mode s' = manual
    /\ gear (_control Sample.controller_reverse_on_m) = 0%Z
    /\ gear (_control s') = (-1)%Z.
Proof. eexists. split; [reflexivity |]. repeat split. Qed.

End TransmissionFacts.

(** ** The control vector handed to the vehicle *)

Module FrameFacts.

Import DualControl.

Lemma appends_ok_refl (s : t) : Spec.appends_ok s s.
Proof. exists []. split; [symmetry; apply app_nil_r | constructor]. Qed.

Lemma appends_ok_trans (s1 s2 s3 : t) :
  Spec.appends_ok s1 s2 -> Spec.appends_ok s2 s3 -> Spec.appends_ok s1 s3.
Proof.
  intros (c1 & E1 & F1) (c2 & E2 & F2). exists (c1 ++ c2). split.
  - rewrite E2, E1. symmetry. apply app_assoc.
  - apply Forall_app. split; assumption.
Qed.

(** States that differ from [s] by fields other than the trace, or by one
    or two appended calls that are not [apply_control]. *)
Ltac trace_only :=
  eexists; split;
  [ cbn; first [ reflexivity
               | symmetry; apply app_nil_r
               | rewrite <- app_assoc; reflexivity ]
  | repeat constructor ].

Ltac split_result H :=
  repeat match type of H with
    | context [bind ?r _] => destruct r eqn:?; cbn [bind] in H
    | context [if ?b then _ else _] => destruct b eqn:?
    | Ok _ = Ok _ => injection H as <-
    | Raise _ = Ok _ => discriminate H
    end.

Lemma handle_joystick_button_trace (button : Z) (s s' : t) :
  _handle_joystick_button button s = Ok s' -> Spec.appends_ok s s'.
Proof.
  intros H. unfold _handle_joystick_button in H.
  split_result H; trace_only.
Qed.

Lemma handle_key_vehicle_trace (key : Z) (s : t) :
  Spec.appends_ok s (_handle_key_vehicle key s).
Proof.
  unfold _handle_key_vehicle, cycle_transmission_mode.
  destruct (transmission_mode s);
    repeat match goal with
      | |- context [if ?b then _ else _] => destruct b
      end; trace_only.
Qed.

Lemma parse_vehicle_wheel_trace (js : list R) (s s' : t) :
  _parse_vehicle_wheel js s = Ok s' -> world_calls s' = world_calls s.
Proof.
  unfold _parse_vehicle_wheel. intros H.
  destruct (axis_binding s "steering"); [| injection H as <-; reflexivity].
  destruct (axis_binding s "throttle"); [| injection H as <-; reflexivity].
  destruct (axis_binding s "brake"); [| injection H as <-; reflexivity].
  destruct (wheel_commands js z z0 z1 s) as [[[c1 c2] c3] | e];
    [| discriminate H].
  injection H as <-. reflexivity.
Qed.

Section Frames.

Variable pygame_K : string -> option Z.
Variable round1 : R -> R.

Lemma handle_key_trace (shift : bool) (key : Z) (s s' : t) :
  _handle_key pygame_K shift key s = Ok s' -> Spec.appends_ok s s'.
Proof.
  unfold _handle_key. intros H.
  destruct (_handle_key_bindings pygame_K shift key s) as [s1 | e] eqn:E;
    [| discriminate H].
  cbn [bind] in H. injection H as <-.
  apply (appends_ok_trans s s1); [| apply handle_key_vehicle_trace].
  unfold _handle_key_bindings in E.
  split_result E; trace_only.
Qed.

Lemma handle_events_trace (fr : Frame) (evs : list Event) :
  forall (s : t) (quit : bool) (s' : t),
    handle_events pygame_K fr evs s = Ok (quit, s') -> Spec.appends_ok s s'.
Proof.
  induction evs as [| ev rest IH]; intros s quit s' H.
  - injection H as _ <-. apply appends_ok_refl.
  - destruct ev as [| button | key |]; cbn [handle_events] in H.
    + injection H as _ <-. apply appends_ok_refl.
    + destruct (_handle_joystick_button button s) as [s1 | e] eqn:E;
        [| discriminate H].
      cbn [bind] in H.
      apply (appends_ok_trans s s1);
        [apply (handle_joystick_button_trace _ _ _ E) | apply (IH _ _ _ H)].
    + destruct (_is_quit_shortcut (mod_ctrl fr) key).
      * injection H as _ <-. apply appends_ok_refl.
      * destruct (_handle_key pygame_K (mod_shift fr) key s) as [s1 | e]
          eqn:E; [| discriminate H].
        cbn [bind] in H.
        apply (appends_ok_trans s s1);
          [apply (handle_key_trace _ _ _ _ E) | apply (IH _ _ _ H)].
    + apply (IH _ _ _ H).
Qed.

(** C9.  Every control vector [parse_events] hands to the vehicle has
    [reverse = (gear < 0)], whatever the key and joystick handlers of the
    frame did to the gear; and when the frame did not quit and ends with
    the autopilot off, the controller's own control vector is among the
    vectors applied in the frame. *)
Theorem applied_control_reverse_matches_gear (fr : Frame) (s : t)
  (quit : bool) (s' : t) :
  parse_events pygame_K round1 fr s = Ok (quit, s') ->
  exists calls,
    world_calls s' = world_calls s ++ calls
    /\ (forall c, In (player_apply_control c) calls ->
                  reverse c = (gear c <? 0)%Z)
    /\ (quit = false -> _autopilot_enabled s' = false ->
        In (player_apply_control (_control s')) calls).
Proof.
  unfold parse_events. intros H.
  destruct (handle_events pygame_K fr (events fr) s) as [[q s1] | e] eqn:E;
    [| discriminate H].
  cbn [bind] in H.
  destruct (handle_events_trace _ _ _ _ _ E) as (calls & Ecalls & Fcalls).
  assert (Hall : forall l, Forall Spec.applied_control_ok l ->
                 forall c, In (player_apply_control c) l ->
                           reverse c = (gear c <? 0)%Z).
  { intros l Fl c Hin.
    exact (proj1 (Stdlib.Lists.List.Forall_forall _ l) Fl _ Hin). }
  destruct q.
  { injection H as <- <-. exists calls.
    split; [exact Ecalls |]. split; [apply Hall; exact Fcalls |].
    discriminate. }
  destruct (_autopilot_enabled s1) eqn:Eauto; cbn [negb] in H.
  { injection H as <- <-. exists calls.
    split; [exact Ecalls |]. split; [apply Hall; exact Fcalls |].
    intros _ Hoff. rewrite Eauto in Hoff. discriminate Hoff. }
  set (s2 := _parse_vehicle_keys round1 (keys fr) (milliseconds fr) s1) in H.
  assert (Es3 : exists s3,
             match joystick fr with
             | Some jsInputs => _parse_vehicle_wheel jsInputs s2
             | None => Ok s2
             end = Ok s3 /\ world_calls s3 = world_calls s1).
  { destruct (joystick fr) as [js |].
    - destruct (_parse_vehicle_wheel js s2) as [s3 | e] eqn:Ew;
        [| discriminate H].
      exists s3. split; [reflexivity |].
      rewrite (parse_vehicle_wheel_trace _ _ _ Ew). reflexivity.
    - exists s2. split; reflexivity. }
  destruct Es3 as (s3 & Es3 & Ws3). rewrite Es3 in H. cbn [bind] in H.
  injection H as <- <-.
  set (c4 := set_reverse (gear (_control s3) <? 0)%Z (_control s3)).
  exists (calls ++ [player_apply_control c4;
                    set_vehicle_light_state
                      (if Rlt_dec 0 (brake c4) then true else false)
                      (gear c4 <? 0)%Z]).
  split.
  { cbn. rewrite Ws3, Ecalls. rewrite <- !app_assoc. reflexivity. }
  split.
  { apply Hall. apply Forall_app. split; [exact Fcalls |].
    repeat constructor. }
  intros _ _. apply in_or_app. right. left. reflexivity.
Qed.

End Frames.

(** A frame in which key [q] was released, with no joystick: the gear goes
    to reverse during the event loop and the applied vector carries the
    reverse flag. *)
Lemma applied_control_reverse_matches_gear_witness :
  exists s' calls,
    parse_events Sample.pygame_K (fun x => x)
      (mkFrame [KEYUP K_q] false false Sample.no_keys 16%Z None)
      (Sample.controller Sample.axes 0.5 1 1) = Ok (false, s')
    /\ world_calls s' = calls
    /\ gear (_control s') = (-1)%Z
    /\ (forall c, In (player_apply_control c) calls ->
                  reverse c = (gear c <? 0)%Z)
    /\ In (player_apply_control (_control s')) calls.
Proof.
  pose (s0 := Sample.controller Sample.axes 0.5 1 1).
  pose (s1 := toggle_reverse_gear s0).
  pose (s2 := _parse_vehicle_keys (fun x => x) Sample.no_keys 16%Z s1).
  pose (s4 := with_control
                (set_reverse (gear (_control s2) <? 0)%Z (_control s2)) s2).
  pose (s5 := update_vehicle_lights
                (call (player_apply_control (_control s4)) s4)).
  assert (E : parse_events Sample.pygame_K (fun x => x)
                (mkFrame [KEYUP K_q] false false Sample.no_keys 16%Z None) s0
              = Ok (false, s5)) by reflexivity.
  destruct (applied_control_reverse_matches_gear _ _ _ _ _ _ E)
    as (calls & Ecalls & Hrev & Hin).
  exists s5, calls. split; [exact E |].
  split; [exact Ecalls |]. split; [reflexivity |].
  split; [exact Hrev |]. apply Hin; reflexivity.
Defined.

End FrameFacts.

(** ** The trial run and its violation tracker *)

Module TrialFacts.

Import TrialManager.
Local Open Scope Q_scope.

(** C10.  While no trial is active [track_speed] stores the sample in
    [current_speed] and changes nothing else: the run's maximum and
    minimum speed, the open violation start, the violation list, the
    violation count and the speeding warning all keep their values. *)
Theorem track_speed_inactive (speed now : Q) (s : t) :
  trial_active s = false ->
  track_speed speed now s =
    mk (trial_active s) (start_time s) (end_time s) (violation_start s)
       (violation_durations s) (violation_count s) (trial_settings s)
       (max_speed s) (trial_results s) (display_results s) (start_screen s)
       speed (speeding_warning s) (max_speed_during_run s)
       (min_speed_during_run s) (calls s)
  /\ max_speed_during_run (track_speed speed now s) = max_speed_during_run s
  /\ min_speed_during_run (track_speed speed now s) = min_speed_during_run s
  /\ violation_start (track_speed speed now s) = violation_start s
  /\ violation_durations (track_speed speed now s) = violation_durations s
  /\ violation_count (track_speed speed now s) = violation_count s
  /\ speeding_warning (track_speed speed now s) = speeding_warning s
  /\ current_speed (track_speed speed now s) = speed.
Proof.
  intros Hidle. unfold track_speed. rewrite Hidle.
  repeat split; reflexivity.
Qed.

Lemma track_speed_inactive_witness :
  violation_count (track_speed 80 7 (init ∅)) = 0%Z
  /\ speeding_warning (track_speed 80 7 (init ∅)) = false
  /\ current_speed (track_speed 80 7 (init ∅)) = 80.
Proof.
  destruct (track_speed_inactive 80 7 (init ∅) eq_refl)
    as (_ & _ & _ & _ & _ & Hcount & Hwarn & Hspeed).
  split; [exact Hcount |]. split; [exact Hwarn | exact Hspeed].
Defined.

(** C4.  One sample during an active trial:
    - above the limit with no interval open, an interval opens at the
      current time and the violation count goes up by one;
    - above the limit with an interval open, the tracker (open interval,
      interval list, count) is unchanged;
    - at or below the limit with an interval open, the interval is closed:
      its duration up to the current time and the sample's speed are
      appended to the list and no interval is open;
    - at or below the limit with none open, the tracker is unchanged.
    The open interval lives in one slot, and the count of violations stays
    equal to the closed intervals plus the open one, so at most one
    interval is open. *)
Theorem track_speed_tracker_cases (speed now : Q) (s : t) :
  trial_active s = true ->
  (max_speed s < speed -> violation_start s = None ->
   violation_start (track_speed speed now s) = Some now
   /\ violation_count (track_speed speed now s) = (violation_count s + 1)%Z
   /\ violation_durations (track_speed speed now s) = violation_durations s)
  /\ (forall started, max_speed s < speed ->
      violation_start s = Some started ->
      violation_start (track_speed speed now s) = Some started
      /\ violation_count (track_speed speed now s) = violation_count s
      /\ violation_durations (track_speed speed now s)
         = violation_durations s)
  /\ (forall started, speed <= max_speed s ->
      violation_start s = Some started ->
      violation_start (track_speed speed now s) = None
      /\ violation_count (track_speed speed now s) = violation_count s
      /\ violation_durations (track_speed speed now s)
         = violation_durations s ++ [(now - started, speed)])
  /\ (speed <= max_speed s -> violation_start s = None ->
      violation_start (track_speed speed now s) = None
      /\ violation_count (track_speed speed now s) = violation_count s
      /\ violation_durations (track_speed speed now s)
         = violation_durations s)
  /\ (Spec.open_intervals (track_speed speed now s) <= 1)%Z
  /\ (Spec.tracker_consistent s ->
      Spec.tracker_consistent (track_speed speed now s)).
Proof.
  intros Hactive. unfold track_speed. rewrite Hactive.
  destruct (Qlt_le_dec (max_speed s) speed) as [Habove | Hbelow].
  - split; [intros _ Hnone; rewrite Hnone; repeat split |].
    split; [intros started _ Hopen; rewrite Hopen; repeat split; assumption |].
    split; [intros started Hle; exfalso; exact (Qlt_not_le _ _ Habove Hle) |].
    split; [intros Hle; exfalso; exact (Qlt_not_le _ _ Habove Hle) |].
    unfold Spec.tracker_consistent, Spec.open_intervals.
    destruct (violation_start s); cbn; split; lia.
  - split; [intros Hlt; exfalso; exact (Qlt_not_le _ _ Hlt Hbelow) |].
    split; [intros started Hlt; exfalso; exact (Qlt_not_le _ _ Hlt Hbelow) |].
    split.
    { intros started _ Hopen. rewrite Hopen. repeat split. }
    split; [intros _ Hnone; rewrite Hnone; repeat split |].
    unfold Spec.tracker_consistent, Spec.open_intervals.
    destruct (violation_start s); cbn; split; try lia.
    intros Hc. rewrite length_app. cbn. lia.
Qed.

(** The consistency of the tracker holds in every state a run of calls
    reaches from a fresh [TrialManager]. *)
Lemma tracker_consistent_step (o : Op) (s s' : t) :
  Spec.tracker_consistent s -> step o s = Ok s' -> Spec.tracker_consistent s'.
Proof.
  intros Hc Hstep. destruct o as [| now | now | speed now]; cbn in Hstep.
  - injection Hstep as <-. exact Hc.
  - injection Hstep as <-. reflexivity.
  - unfold end_trial, calculate_results in Hstep. cbn in Hstep.
    destruct (start_time s); [| discriminate Hstep].
    injection Hstep as <-. exact Hc.
  - injection Hstep as <-. destruct (trial_active s) eqn:Hactive.
    + apply (track_speed_tracker_cases speed now s Hactive). exact Hc.
    + unfold track_speed. rewrite Hactive. exact Hc.
Qed.

Lemma tracker_consistent_run (ops : list Op) :
  forall s s', Spec.tracker_consistent s -> run ops s = Ok s' ->
               Spec.tracker_consistent s'.
Proof.
  induction ops as [| o rest IH]; intros s s' Hc Hrun; cbn in Hrun.
  - injection Hrun as <-. exact Hc.
  - destruct (step o s) as [s1 | e] eqn:Hstep; [| discriminate Hrun].
    cbn [bind] in Hrun.
    exact (IH s1 s' (tracker_consistent_step o s s1 Hc Hstep) Hrun).
Qed.

Lemma tracker_consistent_reachable (settings : gmap string Q)
  (ops : list Op) (s : t) :
  run ops (init settings) = Ok s -> Spec.tracker_consistent s.
Proof. apply tracker_consistent_run. reflexivity. Qed.

Lemma track_speed_tracker_cases_witness :
  (violation_start (track_speed 50 1 (initiate_trial 0 (init ∅))) = Some 1
   /\ violation_count (track_speed 50 1 (initiate_trial 0 (init ∅))) = 1%Z)
  /\ (violation_start
        (track_speed 30 3 (track_speed 50 1 (initiate_trial 0 (init ∅))))
      = None
      /\ violation_durations
           (track_speed 30 3 (track_speed 50 1 (initiate_trial 0 (init ∅))))
         = [(3 - 1, 30)]).
Proof.
  split.
  - destruct (track_speed_tracker_cases 50 1 (initiate_trial 0 (init ∅))
                eq_refl) as (Hopen & _).
    destruct (Hopen eq_refl eq_refl) as (Hstart & Hcount & _).
    split; [exact Hstart | exact Hcount].
  - assert (Hactive : trial_active
                         (track_speed 50 1 (initiate_trial 0 (init ∅))) = true)
      by (vm_compute; reflexivity).
    destruct (track_speed_tracker_cases 30 3
                (track_speed 50 1 (initiate_trial 0 (init ∅))) Hactive)
      as (_ & _ & Hclose & _).
    assert (Hle : 30 <= max_speed
                          (track_speed 50 1 (initiate_trial 0 (init ∅))))
      by (vm_compute; discriminate).
    assert (Hopen : violation_start
                      (track_speed 50 1 (initiate_trial 0 (init ∅))) = Some 1)
      by (vm_compute; reflexivity).
    destruct (Hclose 1 Hle Hopen) as (Hstart & _ & Hlist).
    split; [exact Hstart | exact Hlist].
Defined.

(** C2, as stated, fails: the trial of [Sample.speeding_until_the_end] has
    a violation open since time 4 when it is ended at time 5.  [end_trial]
    leaves the interval open and the violation list empty; the results
    count one violation and average over no interval. *)
Lemma open_violation_dropped_at_trial_end :
  exists s s',
    run Sample.speeding_until_the_end (init ∅) = Ok s
    /\ trial_active s = true
    /\ violation_start s = Some 4
    /\ end_trial 5 s = Ok s'
    /\ end_time s' = Some 5
    /\ violation_start s' = Some 4
    /\ violation_durations s' = []
    /\ trial_results s' = Some (mkResults (5 - 0) 0 0 1%Z).
Proof.
  eexists _, _. split; [vm_compute; reflexivity |].
  split; [reflexivity |]. split; [reflexivity |].
  split; [vm_compute; reflexivity |].
  repeat split.
Qed.

(** C2, amended.  [end_trial], called on a trial that has been started,
    deactivates the trial, records [end_time = now] and computes the
    results from the violation intervals closed so far.  An interval still
    open is left as it is: [violation_start] keeps its value and nothing
    is appended to the interval list, while [violation_count] keeps
    counting it. *)
Theorem end_trial_keeps_tracker (now started : Q) (s : t) :
  start_time s = Some started ->
  exists s' results,
    end_trial now s = Ok s'
    /\ trial_active s' = false
    /\ end_time s' = Some now
    /\ display_results s' = true
    /\ violation_start s' = violation_start s
    /\ violation_durations s' = violation_durations s
    /\ violation_count s' = violation_count s
    /\ trial_results s' = Some results
    /\ trial_duration results = now - started
    /\ result_violation_count results = violation_count s
    /\ avg_violation_duration results
       = match violation_durations s with
         | [] => 0
         | _ => sum (map fst (violation_durations s))
                / len (violation_durations s)
         end.
Proof.
  intros Hstart. unfold end_trial, calculate_results. cbn.
  rewrite Hstart. cbn. eexists _, _. repeat split.
Qed.

Lemma end_trial_keeps_tracker_witness :
  exists s' results,
    end_trial 5 (track_speed 50 4 (initiate_trial 0 (init ∅))) = Ok s'
    /\ trial_active s' = false
    /\ end_time s' = Some 5
    /\ violation_start s' = Some 4
    /\ violation_durations s' = []
    /\ violation_count s' = 1%Z
    /\ trial_results s' = Some results
    /\ avg_violation_duration results = 0.
Proof.
  assert (Hstarted : start_time
                       (track_speed 50 4 (initiate_trial 0 (init ∅))) = Some 0)
    by (vm_compute; reflexivity).
  destruct (end_trial_keeps_tracker 5 0
              (track_speed 50 4 (initiate_trial 0 (init ∅))) Hstarted)
    as (s' & results & E & Hact & Hend & _ & Hvs & Hvd & Hvc & Hres & _ & _
        & Havg).
  exists s', results. repeat split; assumption.
Defined.

(** C3, at the input where [TrialManager] departs from the claim: the
    trial of [Sample.slow_trial] takes two samples of 30 mph and has no
    violation.  [calculate_results] reports an average speed of 0, where
    the samples' sum over their count is 30: the reported average is
    taken over the speeds stored with the closed violations, not over the
    samples. *)
Theorem avg_speed_ignores_samples :
  exists s,
    run Sample.slow_trial (init ∅) = Ok s
    /\ trial_results s = Some (mkResults (3 - 0) 0 0 0%Z)
    /\ Spec.average_speed (30 + 30) 2 == 30
    /\ ~ (0 == 30).
Proof.
  eexists. split; [vm_compute; reflexivity |].
  split; [reflexivity |]. split; [reflexivity | discriminate].
Qed.

(** What [TrialManager.calculate_results] reports instead: the mean of the
    speeds recorded when violations were closed, 0 when there are none;
    it never divides by zero. *)
Lemma avg_speed_of_closing_speeds (ended started : Q) (s : t) :
  end_time s = Some ended -> start_time s = Some started ->
  exists s' results,
    calculate_results s = Ok s'
    /\ trial_results s' = Some results
    /\ avg_speed results
       = match violation_durations s with
         | [] => 0
         | _ => sum (map snd (violation_durations s))
                / len (violation_durations s)
         end.
Proof.
  intros He Hs. unfold calculate_results. rewrite He, Hs.
  eexists _, _. repeat split.
Qed.

(** The sample run of the specification: speeds 50, 50, 30, 30, 60 at
    times 0 to 4 under a limit of 40 leave one closed interval, from 0 to
    2, and one open since 4, with two violations counted. *)
Example tracker_sample_run :
  exists s,
    run [op_initiate_trial 0; op_track_speed 50 0; op_track_speed 50 1;
         op_track_speed 30 2; op_track_speed 30 3; op_track_speed 60 4]
        (init (<["speed_limit" := 40]> ∅)) = Ok s
    /\ violation_durations s = [(2 - 0, 30)]
    /\ violation_start s = Some 4
    /\ violation_count s = 2%Z.
Proof. eexists. split; [vm_compute; reflexivity |]. repeat split. Qed.

End TrialFacts.

(** ** The sample counters of [CarlaSimulator] *)

Module SimulatorFacts.

Import CarlaSimulator.
Local Open Scope Q_scope.

Lemma counters_consistent_step (o : Op) (s : t) :
  Spec.counters_consistent s -> Spec.counters_consistent (step o s).
Proof.
  intros [Hnonneg Hzero]. unfold Spec.counters_consistent.
  destruct o as [speed now | | now | now | now]; cbn [step].
  - unfold display_speed.
    destruct (Qlt_le_dec (max_speed_limit s) speed);
      destruct (speed_exceeded s); cbn;
      destruct (trial_running s); cbn; split; auto; lia.
  - split; assumption.
  - split; assumption.
  - unfold display_countdown.
    destruct (int (countdown_duration s - (now - countdown_start_time s))
              <=? 0)%Z; cbn; split; auto; lia.
  - split; assumption.
Qed.

Lemma counters_consistent_run (ops : list Op) :
  forall s, Spec.counters_consistent s -> Spec.counters_consistent (run ops s).
Proof.
  induction ops as [| o rest IH]; intros s Hc.
  - exact Hc.
  - apply (IH (step o s)). apply counters_consistent_step. exact Hc.
Qed.

(** In [CarlaSimulator] the claim of C3 holds: in every state reached from
    a fresh object, [calculate_results] reports the sum of the samples over
    their count when there are samples and 0 when there are none; the
    divisor is never zero. *)
Lemma average_speed_of_samples (countdown_duration max_speed_limit : Q)
  (ops : list Op) :
  let s := run ops (init countdown_duration max_speed_limit) in
  average_speed (calculate_results s)
  = Spec.average_speed (speed_sum s) (speed_sample_count s).
Proof.
  intros s.
  assert (Hc : Spec.counters_consistent s).
  { apply counters_consistent_run. split; [cbn; lia | reflexivity]. }
  destruct Hc as [Hnonneg Hzero].
  unfold calculate_results, Spec.average_speed. cbn [average_speed].
  destruct (0 <? speed_sample_count s)%Z eqn:Hpos; [reflexivity |].
  assert (Hcount : speed_sample_count s = 0%Z) by lia.
  rewrite (Hzero Hcount). reflexivity.
Qed.

End SimulatorFacts.

(** ** More on the controller: modes, gears and what a frame applies *)

Module ControlFacts.

Import DualControl.
Import Invariants.
Local Open Scope R_scope.

Ltac step_result H :=
  repeat (cbn [bind] in H; cbv iota in H;
          match type of H with
          | context [bind ?r _] => destruct r eqn:?
          | context [if ?b then _ else _] => destruct b eqn:?
          | Ok _ = Ok _ => injection H as <-
          | Raise _ = Ok _ => discriminate H
          end).

Ltac flags_done :=
  match goal with
  | Hc : mode_flags_consistent _ |- _ => destruct Hc as (? & ? & ? & ?)
  end;
  unfold mode_flags_consistent; cbn;
  repeat split;
  try assumption;
  try (intros; first [assumption | discriminate | congruence]);
  try (repeat match goal with
              | |- context [if ?b then _ else _] => destruct b
              end; lia).

Ltac quiet_done :=
  eexists; split;
  [ cbn; first [ reflexivity
               | symmetry; apply app_nil_r
               | rewrite <- app_assoc; reflexivity ]
  | repeat constructor ].

Lemma same_mode_flags (s s' : t) :
  same_mode s s' -> mode_flags_consistent s -> mode_flags_consistent s'.
Proof.
  intros (Hm & Hs & Hn & Hg & Hgear) (H1 & H2 & H3 & H4).
  unfold mode_flags_consistent. rewrite Hm, Hs, Hn, Hg, Hgear.
  repeat split; assumption.
Qed.

Lemma handle_joystick_button_flags (button : Z) (s s' : t) :
  _handle_joystick_button button s = Ok s' ->
  mode_flags_consistent s -> mode_flags_consistent s'.
Proof.
  intros H Hc. unfold _handle_joystick_button in H.
  destruct (_shifter_mode s) eqn:Hsh; step_result H; flags_done.
Qed.

Lemma handle_key_vehicle_flags (key : Z) (s : t) :
  mode_flags_consistent s -> mode_flags_consistent (_handle_key_vehicle key s).
Proof.
  intros Hc. unfold _handle_key_vehicle, cycle_transmission_mode.
  destruct Hc as (H1 & H2 & H3 & H4).
  destruct (_neutral_mode s) eqn:Hn;
    destruct (_shifter_mode s) eqn:Hsh;
    destruct (transmission_mode s) eqn:Hm;
    try discriminate; try (specialize (H3 eq_refl); discriminate);
    repeat match goal with
      | |- context [if ?b then _ else _] => destruct b
      end;
    unfold mode_flags_consistent; cbn; rewrite ?Hm, ?Hn, ?Hsh;
    repeat split; try assumption; try discriminate; try reflexivity;
    try lia; try (intros; discriminate);
    destruct (reverse (_control s)); lia.
Qed.

Lemma handle_joystick_button_quiet (button : Z) (s s' : t) :
  _handle_joystick_button button s = Ok s' -> appends_without_control s s'.
Proof.
  intros H. unfold _handle_joystick_button in H.
  step_result H; quiet_done.
Qed.

Lemma handle_key_vehicle_quiet (key : Z) (s : t) :
  appends_without_control s (_handle_key_vehicle key s).
Proof.
  unfold _handle_key_vehicle, cycle_transmission_mode.
  destruct (transmission_mode s);
    repeat match goal with
      | |- context [if ?b then _ else _] => destruct b
      end; quiet_done.
Qed.

Lemma quiet_refl (s : t) : appends_without_control s s.
Proof. exists []. split; [symmetry; apply app_nil_r | constructor]. Qed.

Lemma quiet_trans (s1 s2 s3 : t) :
  appends_without_control s1 s2 -> appends_without_control s2 s3 ->
  appends_without_control s1 s3.
Proof.
  intros (c1 & E1 & F1) (c2 & E2 & F2). exists (c1 ++ c2). split.
  - rewrite E2, E1. symmetry. apply app_assoc.
  - apply Forall_app. split; assumption.
Qed.

Section Frames.

Variable pygame_K : string -> option Z.
Variable round1 : R -> R.

Lemma handle_key_flags (shift : bool) (key : Z) (s s' : t) :
  _handle_key pygame_K shift key s = Ok s' ->
  mode_flags_consistent s -> mode_flags_consistent s'.
Proof.
  unfold _handle_key. intros H Hc.
  destruct (_handle_key_bindings pygame_K shift key s) as [s1 | e] eqn:E;
    [| discriminate H].
  cbn [bind] in H. injection H as <-.
  apply handle_key_vehicle_flags.
  unfold _handle_key_bindings in E. step_result E; flags_done.
Qed.

Lemma handle_key_quiet (shift : bool) (key : Z) (s s' : t) :
  _handle_key pygame_K shift key s = Ok s' -> appends_without_control s s'.
Proof.
  unfold _handle_key. intros H.
  destruct (_handle_key_bindings pygame_K shift key s) as [s1 | e] eqn:E;
    [| discriminate H].
  cbn [bind] in H. injection H as <-.
  apply (quiet_trans s s1); [| apply handle_key_vehicle_quiet].
  unfold _handle_key_bindings in E. step_result E; quiet_done.
Qed.

Lemma handle_events_flags (fr : Frame) (evs : list Event) :
  forall (s : t) (quit : bool) (s' : t),
    handle_events pygame_K fr evs s = Ok (quit, s') ->
    mode_flags_consistent s -> mode_flags_consistent s'.
Proof.
  induction evs as [| ev rest IH]; intros s quit s' H Hc.
  - injection H as _ <-. exact Hc.
  - destruct ev as [| button | key |]; cbn [handle_events] in H.
    + injection H as _ <-. exact Hc.
    + destruct (_handle_joystick_button button s) as [s1 | e] eqn:E;
        [| discriminate H].
      cbn [bind] in H.
      exact (IH _ _ _ H (handle_joystick_button_flags _ _ _ E Hc)).
    + destruct (_is_quit_shortcut (mod_ctrl fr) key).
      * injection H as _ <-. exact Hc.
      * destruct (_handle_key pygame_K (mod_shift fr) key s) as [s1 | e]
          eqn:E; [| discriminate H].
        cbn [bind] in H.
        exact (IH _ _ _ H (handle_key_flags _ _ _ _ E Hc)).
    + exact (IH _ _ _ H Hc).
Qed.

Lemma handle_events_quiet (fr : Frame) (evs : list Event) :
  forall (s : t) (quit : bool) (s' : t),
    handle_events pygame_K fr evs s = Ok (quit, s') ->
    appends_without_control s s'.
Proof.
  induction evs as [| ev rest IH]; intros s quit s' H.
  - injection H as _ <-. apply quiet_refl.
  - destruct ev as [| button | key |]; cbn [handle_events] in H.
    + injection H as _ <-. apply quiet_refl.
    + destruct (_handle_joystick_button button s) as [s1 | e] eqn:E;
        [| discriminate H].
      cbn [bind] in H.
      apply (quiet_trans s s1);
        [apply (handle_joystick_button_quiet _ _ _ E) | apply (IH _ _ _ H)].
    + destruct (_is_quit_shortcut (mod_ctrl fr) key).
      * injection H as _ <-. apply quiet_refl.
      * destruct (_handle_key pygame_K (mod_shift fr) key s) as [s1 | e]
          eqn:E; [| discriminate H].
        cbn [bind] in H.
        apply (quiet_trans s s1);
          [apply (handle_key_quiet _ _ _ _ E) | apply (IH _ _ _ H)].
    + apply (IH _ _ _ H).
Qed.

(** The shape of a frame: the event loop, then either nothing more (quit,
    or autopilot on) or the two input paths and the hand-over. *)
Lemma parse_events_inv (fr : Frame) (s : t) (quit : bool) (s' : t) :
  parse_events pygame_K round1 fr s = Ok (quit, s') ->
  exists q s1,
    handle_events pygame_K fr (events fr) s = Ok (q, s1)
    /\ ((quit = true /\ q = true /\ s' = s1)
        \/ (quit = false /\ q = false /\ _autopilot_enabled s1 = true
            /\ s' = s1)
        \/ (quit = false /\ q = false /\ _autopilot_enabled s1 = false
            /\ exists s3,
                 match joystick fr with
                 | Some jsInputs =>
                     _parse_vehicle_wheel jsInputs
                       (_parse_vehicle_keys round1 (keys fr)
                          (milliseconds fr) s1)
                 | None =>
                     Ok (_parse_vehicle_keys round1 (keys fr)
                           (milliseconds fr) s1)
                 end = Ok s3
                 /\ s' = update_vehicle_lights
                           (call
                              (player_apply_control
                                 (set_reverse (gear (_control s3) <? 0)%Z
                                    (_control s3)))
                              (with_control
                                 (set_reverse (gear (_control s3) <? 0)%Z
                                    (_control s3)) s3)))).
Proof.
  unfold parse_events. intros H.
  destruct (handle_events pygame_K fr (events fr) s) as [[q s1] | e] eqn:E;
    [| discriminate H].
  cbn [bind] in H. exists q, s1. split; [reflexivity |].
  destruct q.
  { injection H as <- <-. left. auto. }
  destruct (_autopilot_enabled s1) eqn:Eauto; cbn [negb] in H.
  { injection H as <- <-. right. left. auto. }
  right. right.
  destruct (match joystick fr with
            | Some jsInputs =>
                _parse_vehicle_wheel jsInputs
                  (_parse_vehicle_keys round1 (keys fr) (milliseconds fr) s1)
            | None =>
                Ok (_parse_vehicle_keys round1 (keys fr) (milliseconds fr) s1)
            end) as [s3 | e] eqn:Ew; [| discriminate H].
  cbn [bind] in H. injection H as <- <-.
  repeat split. exists s3. split; reflexivity.
Qed.

(** What the wheel path keeps: everything but steer, brake and throttle. *)
Lemma parse_vehicle_wheel_keeps (js : list R) (s s' : t) :
  _parse_vehicle_wheel js s = Ok s' ->
  same_mode s s'
  /\ world_calls s' = world_calls s
  /\ _autopilot_enabled s' = _autopilot_enabled s
  /\ _steer_cache s' = _steer_cache s
  /\ hand_brake (_control s') = hand_brake (_control s).
Proof.
  unfold _parse_vehicle_wheel, same_mode. intros H.
  destruct (axis_binding s "steering");
    [| injection H as <-; repeat split; reflexivity].
  destruct (axis_binding s "throttle");
    [| injection H as <-; repeat split; reflexivity].
  destruct (axis_binding s "brake");
    [| injection H as <-; repeat split; reflexivity].
  destruct (wheel_commands js z z0 z1 s) as [[[c1 c2] c3] | e];
    [| discriminate H].
  injection H as <-. repeat split; reflexivity.
Qed.

Lemma clamp01 (v : R) : 0 <= Rmax 0 (Rmin 1 v) <= 1.
Proof.
  split; [apply Rmax_l |].
  apply Rmax_lub; [lra | apply Rmin_l].
Qed.

(** Both pedal commands of the wheel path lie in [0, 1] whenever the path
    returns, whatever the axis readings were. *)
Lemma wheel_commands_pedals (js : list R) (sa ta ba : Z) (s : t)
  (c1 c2 c3 : R) :
  wheel_commands js sa ta ba s = Ok (c1, c2, c3) ->
  0 <= c2 <= 1 /\ 0 <= c3 <= 1.
Proof.
  unfold wheel_commands. intros H.
  destruct (getitem js sa); [| discriminate H]. cbn [bind] in H.
  destruct (getitem js ta); [| discriminate H]. cbn [bind] in H.
  destruct (log10 (-0.7 * a0 + 1.4)); [| discriminate H]. cbn [bind] in H.
  destruct (getitem js ba); [| discriminate H]. cbn [bind] in H.
  destruct (log10 (-0.7 * a2 + 1.4)); [| discriminate H]. cbn [bind] in H.
  injection H as _ <- <-. split; apply clamp01.
Qed.

(** The pedals and the steering cache after the keyboard path. *)
Lemma parse_vehicle_keys_bounds (keys : Z -> bool) (ms : Z) (s : t) :
  let s' := _parse_vehicle_keys round1 keys ms s in
  (throttle (_control s') = 0 \/ throttle (_control s') = 1)
  /\ (brake (_control s') = 0 \/ brake (_control s') = 1)
  /\ (_neutral_mode s = true -> throttle (_control s') = 0)
  /\ -0.7 <= _steer_cache s' <= 0.7
  /\ steer (_control s') = round1 (_steer_cache s')
  /\ hand_brake (_control s') = keys K_SPACE.
Proof.
  unfold _parse_vehicle_keys. cbn.
  split; [destruct (_neutral_mode s), (keys K_UP || keys K_w); cbn; auto |].
  split; [destruct (keys K_DOWN || keys K_s); auto |].
  split; [intros ->; reflexivity |].
  split; [| split; reflexivity].
  split.
  - apply Rmin_glb; [lra | apply Rmax_l].
  - apply Rmin_l.
Qed.

(** The wheel path keeps pedals that are in range in range, and a
    throttle that neutral holds at 0 at 0. *)
Lemma parse_vehicle_wheel_pedals (js : list R) (s s' : t) :
  _parse_vehicle_wheel js s = Ok s' ->
  0 <= throttle (_control s) <= 1 ->
  0 <= brake (_control s) <= 1 ->
  (_neutral_mode s = true -> throttle (_control s) = 0) ->
  0 <= throttle (_control s') <= 1
  /\ 0 <= brake (_control s') <= 1
  /\ (_neutral_mode s = true -> throttle (_control s') = 0).
Proof.
  unfold _parse_vehicle_wheel. intros H Ht Hb Hn.
  destruct (axis_binding s "steering") as [sa |];
    [| injection H as <-; auto].
  destruct (axis_binding s "throttle") as [ta |];
    [| injection H as <-; auto].
  destruct (axis_binding s "brake") as [ba |];
    [| injection H as <-; auto].
  destruct (wheel_commands js sa ta ba s) as [[[c1 c2] c3] | e] eqn:Ec;
    [| discriminate H].
  destruct (wheel_commands_pedals _ _ _ _ _ _ _ _ Ec) as (B2 & B3).
  cbn [bind] in H. injection H as <-.
  destruct (_neutral_mode s) eqn:En; cbn; repeat split;
    try lra; try discriminate.
Qed.

(** X1.  Whatever the keys, the wheel and the handlers did in a frame,
    the throttle and the brake handed to the vehicle lie in [0, 1], the
    throttle is 0 while the shifter is in neutral, and the keyboard's
    steering cache stays within [-0.7, 0.7]. *)
Theorem applied_pedals_bounded (fr : Frame) (s s' : t) :
  parse_events pygame_K round1 fr s = Ok (false, s') ->
  _autopilot_enabled s' = false ->
  0 <= throttle (_control s') <= 1
  /\ 0 <= brake (_control s') <= 1
  /\ (_neutral_mode s' = true -> throttle (_control s') = 0)
  /\ -0.7 <= _steer_cache s' <= 0.7
  /\ exists before,
       world_calls s'
       = before ++ [player_apply_control (_control s');
                    set_vehicle_light_state
                      (if Rlt_dec 0 (brake (_control s')) then true else false)
                      (reverse (_control s'))].
Proof.
  intros H Hoff.
  destruct (parse_events_inv _ _ _ _ H) as (q & s1 & Hev & Hcase).
  destruct Hcase as [(Hq & _) | [(_ & _ & Hauto & ->) | Hrun]];
    [discriminate Hq | congruence |].
  destruct Hrun as (_ & _ & Hauto & s3 & Hpaths & ->).
  pose proof (parse_vehicle_keys_bounds (keys fr) (milliseconds fr) s1)
    as (Ht & Hb & Hn & Hcache & _).
  assert (Hn2 : _neutral_mode
                  (_parse_vehicle_keys round1 (keys fr) (milliseconds fr) s1)
                = _neutral_mode s1) by reflexivity.
  revert Ht Hb Hn Hcache Hn2 Hpaths.
  generalize (_parse_vehicle_keys round1 (keys fr) (milliseconds fr) s1).
  intros s2 Ht Hb Hn Hcache Hn2 Hpaths.
  assert (Ht' : 0 <= throttle (_control s2) <= 1) by (destruct Ht; lra).
  assert (Hb' : 0 <= brake (_control s2) <= 1) by (destruct Hb; lra).
  assert (Hn' : _neutral_mode s2 = true -> throttle (_control s2) = 0)
    by (rewrite Hn2; exact Hn).
  assert (Hs3 : 0 <= throttle (_control s3) <= 1
                /\ 0 <= brake (_control s3) <= 1
                /\ (_neutral_mode s3 = true -> throttle (_control s3) = 0)
                /\ -0.7 <= _steer_cache s3 <= 0.7).
  { destruct (joystick fr) as [js |].
    - destruct (parse_vehicle_wheel_keeps _ _ _ Hpaths)
        as ((_ & _ & Hneu & _) & _ & _ & Hsc & _).
      destruct (parse_vehicle_wheel_pedals _ _ _ Hpaths Ht' Hb' Hn')
        as (T3 & B3 & N3).
      rewrite Hneu, Hsc. auto.
    - injection Hpaths as <-. auto. }
  destruct Hs3 as (T3 & B3 & N3 & C3).
  cbn. repeat split; try lra; try exact N3.
  exists (world_calls s3). rewrite <- app_assoc. reflexivity.
Qed.

(** X2.  After any frame the flags still mirror the transmission mode
    ([manual_gear_shift] exactly in manual mode, [_shifter_mode] exactly
    in the shifter mode, neutral only in the shifter mode) and the gear
    is not below -1. *)
Theorem frame_keeps_mode_flags (fr : Frame) (s : t) (quit : bool) (s' : t) :
  parse_events pygame_K round1 fr s = Ok (quit, s') ->
  mode_flags_consistent s -> mode_flags_consistent s'.
Proof.
  intros H Hc.
  destruct (parse_events_inv _ _ _ _ H) as (q & s1 & Hev & Hcase).
  pose proof (handle_events_flags _ _ _ _ _ Hev Hc) as Hc1.
  destruct Hcase as [(_ & _ & ->) | [(_ & _ & _ & ->) | Hrun]];
    [exact Hc1 | exact Hc1 |].
  destruct Hrun as (_ & _ & _ & s3 & Hpaths & ->).
  assert (Hc3 : mode_flags_consistent s3).
  { destruct (joystick fr) as [js |].
    - destruct (parse_vehicle_wheel_keeps _ _ _ Hpaths) as (Hsame & _).
      apply (same_mode_flags _ _ Hsame).
      apply (same_mode_flags s1); [repeat split | exact Hc1].
    - injection Hpaths as <-.
      apply (same_mode_flags s1); [repeat split | exact Hc1]. }
  apply (same_mode_flags s3); [repeat split | exact Hc3].
Qed.

(** X3.  A frame that ends in a quit request, or with the autopilot on,
    hands no control vector to the vehicle. *)
Theorem no_control_applied_under_autopilot (fr : Frame) (s : t) (quit : bool)
  (s' : t) :
  parse_events pygame_K round1 fr s = Ok (quit, s') ->
  quit = true \/ _autopilot_enabled s' = true ->
  exists calls,
    world_calls s' = world_calls s ++ calls
    /\ forall c, ~ In (player_apply_control c) calls.
Proof.
  intros H Hwhy.
  destruct (parse_events_inv _ _ _ _ H) as (q & s1 & Hev & Hcase).
  destruct (handle_events_quiet _ _ _ _ _ Hev)
    as (calls & Ecalls & Fcalls).
  assert (Hnone : forall c, ~ In (player_apply_control c) calls).
  { intros c Hin.
    exact (proj1 (Stdlib.Lists.List.Forall_forall _ calls) Fcalls _ Hin). }
  destruct Hcase as [(_ & _ & ->) | [(_ & _ & _ & ->) | Hrun]].
  - exists calls. split; assumption.
  - exists calls. split; assumption.
  - destruct Hrun as (Hq & _ & Hoff & s3 & Hpaths & ->).
    destruct Hwhy as [Hquit | Hauto]; [congruence |].
    exfalso. cbn in Hauto.
    destruct (joystick fr) as [js |].
    + destruct (parse_vehicle_wheel_keeps _ _ _ Hpaths)
        as (_ & _ & Ha & _).
      cbn in Ha. congruence.
    + injection Hpaths as <-. cbn in Hauto. congruence.
Qed.

(** X4.  [QUIT] ends the frame on the spot: the events queued behind it
    are not handled and no control vector is applied. *)
Theorem quit_drops_rest_of_queue (fr : Frame) (pre post : list Event)
  (s s1 : t) :
  events fr = pre ++ QUIT :: post ->
  handle_events pygame_K fr pre s = Ok (false, s1) ->
  parse_events pygame_K round1 fr s = Ok (true, s1).
Proof.
  intros Hq Hpre.
  assert (Hall : handle_events pygame_K fr (pre ++ QUIT :: post) s
                 = Ok (true, s1)).
  { clear Hq. revert s Hpre.
    induction pre as [| ev rest IH]; intros s Hpre.
    - injection Hpre as ->. reflexivity.
    - destruct ev as [| button | key |]; cbn [handle_events app] in *.
      + discriminate Hpre.
      + destruct (_handle_joystick_button button s) as [s2 | e];
          [| discriminate Hpre].
        cbn [bind] in *. exact (IH _ Hpre).
      + destruct (_is_quit_shortcut (mod_ctrl fr) key);
          [discriminate Hpre |].
        destruct (_handle_key pygame_K (mod_shift fr) key s) as [s2 | e];
          [| discriminate Hpre].
        cbn [bind] in *. exact (IH _ Hpre).
      + exact (IH _ Hpre). }
  unfold parse_events. rewrite Hq, Hall. reflexivity.
Qed.

End Frames.

Lemma applied_pedals_bounded_witness :
  exists s',
    parse_events Sample.pygame_K (fun x => x) (Sample.quiet_frame None)
      (Sample.controller Sample.axes 0.5 1 1) = Ok (false, s')
    /\ 0 <= throttle (_control s') <= 1
    /\ 0 <= brake (_control s') <= 1
    /\ -0.7 <= _steer_cache s' <= 0.7.
Proof.
  pose (s0 := Sample.controller Sample.axes 0.5 1 1).
  pose (s2 := _parse_vehicle_keys (fun x => x) Sample.no_keys 16%Z s0).
  pose (s4 := with_control
                (set_reverse (gear (_control s2) <? 0)%Z (_control s2)) s2).
  pose (s5 := update_vehicle_lights
                (call (player_apply_control (_control s4)) s4)).
  assert (E : parse_events Sample.pygame_K (fun x => x)
                (Sample.quiet_frame None) s0 = Ok (false, s5))
    by reflexivity.
  destruct (applied_pedals_bounded Sample.pygame_K (fun x => x) _ _ _ E
              eq_refl) as (T & B & _ & C & _).
  exists s5. auto.
Defined.

Lemma sample_flags_consistent :
  mode_flags_consistent (Sample.controller Sample.axes 0.5 1 1).
Proof.
  repeat split; try reflexivity; [discriminate | cbn; lia].
Defined.

Lemma frame_keeps_mode_flags_witness :
  exists s',
    parse_events Sample.pygame_K (fun x => x)
      (mkFrame [KEYUP K_m] false false Sample.no_keys 16%Z None)
      (Sample.controller Sample.axes 0.5 1 1) = Ok (false, s')
    /\ transmission_mode s' = manual
    /\ mode_flags_consistent s'.
Proof.
  pose (s0 := Sample.controller Sample.axes 0.5 1 1).
  pose (s1 := _handle_key_vehicle K_m s0).
  pose (s2 := _parse_vehicle_keys (fun x => x) Sample.no_keys 16%Z s1).
  pose (s4 := with_control
                (set_reverse (gear (_control s2) <? 0)%Z (_control s2)) s2).
  pose (s5 := update_vehicle_lights
                (call (player_apply_control (_control s4)) s4)).
  assert (E : parse_events Sample.pygame_K (fun x => x)
                (mkFrame [KEYUP K_m] false false Sample.no_keys 16%Z None) s0
              = Ok (false, s5)) by reflexivity.
  exists s5. split; [exact E |]. split; [reflexivity |].
  exact (frame_keeps_mode_flags Sample.pygame_K (fun x => x) _ _ _ _ E
           sample_flags_consistent).
Defined.

Lemma no_control_applied_under_autopilot_witness :
  exists s' calls,
    parse_events Sample.pygame_K (fun x => x)
      (mkFrame [KEYUP K_p] false false Sample.no_keys 16%Z None)
      (Sample.controller Sample.axes 0.5 1 1) = Ok (false, s')
    /\ _autopilot_enabled s' = true
    /\ world_calls s' = calls
    /\ forall c, ~ In (player_apply_control c) calls.
Proof.
  pose (s0 := Sample.controller Sample.axes 0.5 1 1).
  pose (s1 := _handle_key_vehicle K_p s0).
  assert (E : parse_events Sample.pygame_K (fun x => x)
                (mkFrame [KEYUP K_p] false false Sample.no_keys 16%Z None) s0
              = Ok (false, s1)) by reflexivity.
  destruct (no_control_applied_under_autopilot Sample.pygame_K (fun x => x)
              _ _ _ _ E (or_intror eq_refl)) as (calls & Ecalls & Hnone).
  exists s1, calls. split; [exact E |]. split; [reflexivity |].
  split; [exact Ecalls | exact Hnone].
Defined.

Lemma quit_drops_rest_of_queue_witness :
  parse_events Sample.pygame_K (fun x => x)
    (mkFrame [QUIT; KEYUP K_q] false false Sample.no_keys 16%Z None)
    (Sample.controller Sample.axes 0.5 1 1)
  = Ok (true, Sample.controller Sample.axes 0.5 1 1).
Proof.
  apply (quit_drops_rest_of_queue Sample.pygame_K (fun x => x)
           (mkFrame [QUIT; KEYUP K_q] false false Sample.no_keys 16%Z None)
           [] [KEYUP K_q]); reflexivity.
Defined.

Section ShiftKeys.

Variable pygame_K : string -> option Z.









End ShiftKeys.








End ControlFacts.

(** ** More on the trial run: the game loop, extremes, times, the timer *)

Module TrialMoreFacts.

Import TrialManager.
Import TrialLoop.
Local Open Scope Q_scope.

Lemma py_max_bounds (a b : Q) : a <= py_max a b /\ b <= py_max a b.
Proof.
  unfold py_max. destruct (Qlt_le_dec a b) as [Hlt | Hle]; split;
    try apply Qle_refl; [apply Qlt_le_weak; exact Hlt | exact Hle].
Qed.

Lemma py_min_bounds (a : Float) (b : Q) :
  py_min a b <= b /\ forall m, a = Finite m -> py_min a b <= m.
Proof.
  unfold py_min. destruct a as [q |].
  - destruct (Qlt_le_dec b q) as [Hlt | Hle]; split;
      try apply Qle_refl; try exact Hle.
    + intros m [= <-]. apply Qlt_le_weak. exact Hlt.
    + intros m [= <-]. apply Qle_refl.
  - split; [apply Qle_refl | discriminate].
Qed.

(** An active trial stays active under [track_speed], which updates the
    two extremes with Python's [max] and [min]. *)
Lemma track_speed_active (speed now : Q) (s : t) :
  trial_active s = true ->
  trial_active (track_speed speed now s) = true
  /\ max_speed_during_run (track_speed speed now s)
     = py_max (max_speed_during_run s) speed
  /\ min_speed_during_run (track_speed speed now s)
     = Finite (py_min (min_speed_during_run s) speed).
Proof.
  intros Hactive. unfold track_speed. rewrite Hactive.
  destruct (Qlt_le_dec (max_speed s) speed), (violation_start s);
    repeat split; assumption.
Qed.

Lemma track_all_monotone (samples : list (Q * Q)) :
  forall s, trial_active s = true ->
    trial_active (track_all samples s) = true
    /\ max_speed_during_run s <= max_speed_during_run (track_all samples s)
    /\ forall v, at_most (min_speed_during_run s) v ->
                 at_most (min_speed_during_run (track_all samples s)) v.
Proof.
  induction samples as [| [speed now] rest IH]; intros s Hactive.
  - cbn. split; [exact Hactive |]. split; [apply Qle_refl | auto].
  - destruct (track_speed_active speed now s Hactive) as (Ha & Hmax & Hmin).
    destruct (IH _ Ha) as (Ha' & Hmax' & Hmin').
    change (track_all ((speed, now) :: rest) s)
      with (track_all rest (track_speed speed now s)).
    split; [exact Ha' |]. split.
    + apply Qle_trans with (2 := Hmax'). rewrite Hmax.
      apply py_max_bounds.
    + intros v Hv. apply Hmin'. rewrite Hmin. cbn.
      destruct (min_speed_during_run s) as [m |]; [| contradiction].
      cbn in Hv. apply Qle_trans with (2 := Hv).
      apply (py_min_bounds (Finite m) speed). reflexivity.
Qed.

(** X9.  Over any list of samples taken during an active trial, the
    recorded maximum is at least every sample and the recorded minimum is
    a finite speed that is at most every sample. *)
Theorem run_extremes_bound_samples (samples : list (Q * Q)) (s : t) (v : Q) :
  trial_active s = true ->
  In v (map fst samples) ->
  v <= max_speed_during_run (track_all samples s)
  /\ at_most (min_speed_during_run (track_all samples s)) v.
Proof.
  revert s. induction samples as [| [speed now] rest IH];
    intros s Hactive Hin; [contradiction |].
  destruct (track_speed_active speed now s Hactive) as (Ha & Hmax & Hmin).
  change (track_all ((speed, now) :: rest) s)
    with (track_all rest (track_speed speed now s)).
  destruct Hin as [<- | Hin]; [| exact (IH _ Ha Hin)].
  destruct (track_all_monotone rest _ Ha) as (_ & Hmono & Hanti).
  cbn [fst]. split.
  - apply Qle_trans with (2 := Hmono). rewrite Hmax. apply py_max_bounds.
  - apply Hanti. rewrite Hmin. cbn.
    exact (proj1 (py_min_bounds (min_speed_during_run s) speed)).
Qed.

Lemma run_extremes_bound_samples_witness :
  30 <= max_speed_during_run
          (track_all [(50, 1); (30, 2); (40, 3)] (initiate_trial 0 (init ∅)))
  /\ at_most
       (min_speed_during_run
          (track_all [(50, 1); (30, 2); (40, 3)] (initiate_trial 0 (init ∅))))
       30.
Proof.
  apply (run_extremes_bound_samples [(50, 1); (30, 2); (40, 3)]
           (initiate_trial 0 (init ∅)) 30);
    [reflexivity | right; left; reflexivity].
Defined.

(** An iteration of the game loop from a state in which an active trial
    has its start time. *)
Lemma game_loop_trial_step_total (k1 kr ks : bool) (speed now : Q) (s : t) :
  (trial_active s = true -> start_time s <> None) ->
  exists s',
    game_loop_trial_step k1 kr ks speed now s = Ok s'
    /\ (trial_active s' = true -> start_time s' <> None).
Proof.
  intros Hinv. unfold game_loop_trial_step.
  destruct s as [act st en vs vd vc ts ms tr dr ss cs sw mx mn cl].
  cbn in Hinv.
  destruct k1, kr, ks, act, ss, dr, st as [b |];
    try (exfalso; apply Hinv; reflexivity);
    cbn; eexists; (split; [reflexivity |]);
    unfold track_speed; cbn;
    repeat match goal with
      | |- context [Qlt_le_dec ?a ?b] => destruct (Qlt_le_dec a b)
      | |- context [match ?o with Some _ => _ | None => _ end] =>
          destruct o
      end; cbn; congruence.
Qed.

(** X10.  The game loop never fails in the trial code: from a fresh
    [TrialManager], whatever keys are held and whatever speeds are read
    frame after frame, every iteration returns.  ([end_trial] subtracts
    [start_time], which is [None] until a trial is started; the loop only
    ends trials that are active.) *)
Theorem game_loop_never_raises (settings : gmap string Q)
  (frames : list Input) :
  exists s, game_loop frames (init settings) = Ok s.
Proof.
  assert (Hgen : forall s,
             (trial_active s = true -> start_time s <> None) ->
             exists s', game_loop frames s = Ok s').
  { induction frames as [| f rest IH]; intros s Hinv.
    - exists s. reflexivity.
    - cbn [game_loop].
      destruct (game_loop_trial_step_total (key_KP1 f) (key_RETURN f)
                  (key_SPACE f) (speed f) (now f) s Hinv)
        as (s1 & E & Hinv1).
      rewrite E. cbn [bind]. exact (IH s1 Hinv1). }
  apply Hgen. cbn. discriminate.
Qed.

(** A property kept by every call is kept by a run of calls. *)
Lemma run_invariant (P : t -> Prop) :
  (forall o s s', P s -> step o s = Ok s' -> P s') ->
  forall ops s s', P s -> run ops s = Ok s' -> P s'.
Proof.
  intros Hstep. induction ops as [| o rest IH]; intros s s' HP Hrun;
    cbn in Hrun.
  - injection Hrun as <-. exact HP.
  - destruct (step o s) as [s1 | e] eqn:E; [| discriminate Hrun].
    cbn [bind] in Hrun. exact (IH s1 s' (Hstep o s s1 HP E) Hrun).
Qed.

Lemma end_trial_inv (now : Q) (s s' : t) :
  end_trial now s = Ok s' ->
  exists started results,
    start_time s = Some started
    /\ s' = mk false (start_time s) (Some now) (violation_start s)
              (violation_durations s) (violation_count s) (trial_settings s)
              (max_speed s) (Some results) true (start_screen s)
              (current_speed s) (speeding_warning s) (max_speed_during_run s)
              (min_speed_during_run s) (calls s)
    /\ avg_speed results
       = match violation_durations s with
         | [] => 0
         | _ => sum (map snd (violation_durations s))
                / len (violation_durations s)
         end.
Proof.
  unfold end_trial, calculate_results. cbn.
  destruct (start_time s) as [b |]; [| discriminate].
  cbn. intros [= <-]. eexists _, _. repeat split.
Qed.

(** X11.  In every state reached from a fresh [TrialManager] the speeding
    warning is shown exactly while a violation interval is open. *)
Theorem warning_shown_while_violation_open (settings : gmap string Q)
  (ops : list Op) (s : t) :
  run ops (init settings) = Ok s ->
  speeding_warning s
  = match violation_start s with Some _ => true | None => false end.
Proof.
  apply (run_invariant
           (fun s => speeding_warning s
                     = match violation_start s with
                       | Some _ => true
                       | None => false
                       end)); [| reflexivity].
  clear. intros o s s' HP Hstep.
  destruct o as [| now | now | speed now]; cbn in Hstep.
  - injection Hstep as <-. exact HP.
  - injection Hstep as <-. reflexivity.
  - destruct (end_trial_inv _ _ _ Hstep) as (b & r & _ & -> & _). exact HP.
  - injection Hstep as <-. unfold track_speed.
    destruct (trial_active s); [| exact HP].
    destruct (Qlt_le_dec (max_speed s) speed), (violation_start s);
      reflexivity.
Qed.

Lemma warning_shown_while_violation_open_witness :
  exists s,
    run Sample.speeding_until_the_end (init ∅) = Ok s
    /\ speeding_warning s = true
    /\ violation_start s = Some 4.
Proof.
  destruct (run Sample.speeding_until_the_end (init ∅)) as [s | e] eqn:E.
  - pose proof (warning_shown_while_violation_open ∅ _ s E) as Hw.
    vm_compute in E. injection E as <-.
    eexists. split; [reflexivity |]. split; [exact Hw | reflexivity].
  - vm_compute in E. discriminate E.
Defined.

(** X12.  When the clock never runs backwards, every recorded violation
    has a duration that is not negative. *)
Theorem violation_durations_not_negative (settings : gmap string Q)
  (ops : list Op) (t0 : Q) (s : t) :
  clock_monotone t0 ops ->
  run ops (init settings) = Ok s ->
  forall d, In d (violation_durations s) -> 0 <= fst d.
Proof.
  assert (Hgen : forall ops last s0 s',
             (forall v, violation_start s0 = Some v -> v <= last) ->
             (forall d, In d (violation_durations s0) -> 0 <= fst d) ->
             clock_monotone last ops -> run ops s0 = Ok s' ->
             forall d, In d (violation_durations s') -> 0 <= fst d).
  { clear. induction ops as [| o rest IH];
      intros last s0 s' Hopen Hdur Hclock Hrun; cbn in Hrun.
    - injection Hrun as <-. exact Hdur.
    - destruct (step o s0) as [s1 | e] eqn:E; [| discriminate Hrun].
      cbn [bind] in Hrun.
      destruct o as [| now | now | speed now]; cbn in E, Hclock.
      + injection E as <-.
        exact (IH last (start_trial s0) s' Hopen Hdur Hclock Hrun).
      + injection E as <-. destruct Hclock as [_ Hclock].
        apply (IH now (initiate_trial now s0) s');
          [discriminate | contradiction | exact Hclock | exact Hrun].
      + destruct (end_trial_inv _ _ _ E) as (b & r & _ & -> & _).
        destruct Hclock as [Hle Hclock].
        match type of Hrun with
        | run _ ?st = _ =>
            apply (IH now st s'); [| exact Hdur | exact Hclock | exact Hrun]
        end.
        cbn. intros v Hv. apply Qle_trans with (1 := Hopen v Hv). exact Hle.
      + injection E as <-. destruct Hclock as [Hle Hclock].
        apply (IH now (track_speed speed now s0) s');
          [| | exact Hclock | exact Hrun];
          unfold track_speed;
          destruct (trial_active s0);
          try destruct (Qlt_le_dec (max_speed s0) speed);
          destruct (violation_start s0) as [v |] eqn:Ev; cbn;
          try discriminate;
          try (intros v' [= <-]; apply Qle_refl);
          try (intros v' [= <-];
               apply Qle_trans with (1 := Hopen v eq_refl); exact Hle);
          try exact Hdur.
        intros d Hin. apply in_app_or in Hin.
        destruct Hin as [Hin | [<- | []]]; [exact (Hdur d Hin) |].
        cbn. pose proof (Hopen v eq_refl). Lqa.lra. }
  intros Hclock Hrun.
  apply (Hgen ops t0 (init settings) s);
    [discriminate | contradiction | exact Hclock | exact Hrun].
Qed.

Lemma violation_durations_not_negative_witness :
  exists s,
    run Sample.one_closed_violation (init ∅) = Ok s
    /\ violation_durations s = [(3 - 1, 30)]
    /\ forall d, In d (violation_durations s) -> 0 <= fst d.
Proof.
  destruct (run Sample.one_closed_violation (init ∅)) as [s | e] eqn:E.
  - assert (Hclock : clock_monotone 0 Sample.one_closed_violation).
    { cbn. repeat split; discriminate. }
    pose proof (violation_durations_not_negative ∅ _ 0 s Hclock E) as Hd.
    vm_compute in E. injection E as <-.
    eexists. split; [reflexivity |]. split; [reflexivity | exact Hd].
  - vm_compute in E. discriminate E.
Defined.

(** X13.  Every speed stored with a closed violation is at or below the
    speed limit, however fast the car went, and the limit itself is the
    configured one throughout: a violation is closed by the first sample
    that is not above the limit, and it is that sample's speed which is
    kept.  These are the speeds [calculate_results] averages. *)
Theorem closing_speeds_never_above_limit (settings : gmap string Q)
  (ops : list Op) (s : t) :
  run ops (init settings) = Ok s ->
  max_speed s = get settings "speed_limit" 45.0
  /\ forall duration speed,
       In (duration, speed) (violation_durations s) -> speed <= max_speed s.
Proof.
  intros Hrun.
  set (limit := get settings "speed_limit" 45.0) in *.
  assert (Hinv : max_speed s = limit
                 /\ (forall d, In d (violation_durations s) ->
                               snd d <= limit)).
  { apply (run_invariant
             (fun s => max_speed s = limit
                       /\ (forall d, In d (violation_durations s) ->
                                     snd d <= limit)))
      with (ops := ops) (s := init settings);
      [| cbn; split; [reflexivity | contradiction] | exact Hrun].
    intros o s0 s' (Hmax & Hdur) Hstep.
    destruct o as [| now | now | speed now]; cbn in Hstep.
    - injection Hstep as <-. cbn. auto.
    - injection Hstep as <-. cbn.
      split; [exact Hmax | contradiction].
    - destruct (end_trial_inv _ _ _ Hstep) as (b & r & _ & -> & _). cbn.
      split; [exact Hmax | exact Hdur].
    - injection Hstep as <-. unfold track_speed.
      destruct (trial_active s0); [| cbn; auto].
      destruct (Qlt_le_dec (max_speed s0) speed) as [Hlt | Hle],
               (violation_start s0); cbn; repeat split; auto.
      intros d Hin. apply in_app_or in Hin.
      destruct Hin as [Hin | [<- | []]]; [exact (Hdur d Hin) |].
      cbn. rewrite <- Hmax. exact Hle. }
  destruct Hinv as (Hmax & Hdur). split; [exact Hmax |].
  intros duration speed Hin. rewrite Hmax. exact (Hdur _ Hin).
Qed.

Lemma closing_speeds_never_above_limit_witness :
  exists s,
    run Sample.one_closed_violation (init ∅) = Ok s
    /\ max_speed_during_run s = 50
    /\ violation_durations s = [(2, 30)]
    /\ 30 <= max_speed s.
Proof.
  destruct (run Sample.one_closed_violation (init ∅)) as [s | e] eqn:E.
  - destruct (closing_speeds_never_above_limit ∅ _ s E) as [_ Hall].
    vm_compute in E. injection E as <-.
    eexists. split; [reflexivity |]. split; [reflexivity |].
    split; [reflexivity |].
    apply (Hall 2 30). left. reflexivity.
  - vm_compute in E. discriminate E.
Defined.

(** X14.  Computing the results again changes nothing: the results are a
    function of the recorded run. *)
Theorem calculate_results_idempotent (s s' : t) :
  calculate_results s = Ok s' -> calculate_results s' = Ok s'.
Proof.
  unfold calculate_results.
  destruct (end_time s) as [e |] eqn:Ee; [| discriminate].
  destruct (start_time s) as [b |] eqn:Eb; [| discriminate].
  intros [= <-]. cbn. rewrite ?Ee, ?Eb. reflexivity.
Qed.

Lemma calculate_results_idempotent_witness :
  exists s s',
    run Sample.slow_trial (init ∅) = Ok s
    /\ calculate_results s = Ok s'
    /\ calculate_results s' = Ok s'.
Proof.
  destruct (run Sample.slow_trial (init ∅)) as [s | e] eqn:E;
    [| vm_compute in E; discriminate E].
  destruct (calculate_results s) as [s' | e] eqn:E'.
  - exists s, s'. split; [reflexivity |]. split; [exact E' |].
    exact (calculate_results_idempotent s s' E').
  - vm_compute in E. injection E as <-. vm_compute in E'. discriminate E'.
Defined.

(** [int] on a number that is not negative is the floor. *)
Lemma int_floor (y : Q) : 0 <= y -> CarlaSimulator.int y = Qfloor y.
Proof.
  destruct y as [n d]. unfold Qle, CarlaSimulator.int, Qfloor. cbn.
  intros Hn. apply Z.quot_div_nonneg; lia.
Qed.

Lemma int_inject_Z (k : Z) : CarlaSimulator.int (inject_Z k) = k.
Proof. unfold CarlaSimulator.int. cbn. apply Z.quot_1_r. Qed.

Lemma Qfloor_unique (x : Q) (z : Z) :
  inject_Z z <= x -> x < inject_Z (z + 1) -> Qfloor x = z.
Proof.
  intros Hlo Hhi.
  pose proof (Qfloor_le x) as Flo. pose proof (Qlt_floor x) as Fhi.
  assert (H1 : (z < Qfloor x + 1)%Z).
  { rewrite Zlt_Qlt. apply Qle_lt_trans with (1 := Hlo). exact Fhi. }
  assert (H2 : (Qfloor x < z + 1)%Z).
  { rewrite Zlt_Qlt. apply Qle_lt_trans with (1 := Flo). exact Hhi. }
  lia.
Qed.

Lemma Qfloor_range (y : Q) (n : Z) :
  0 <= y -> y < inject_Z n -> (0 <= Qfloor y < n)%Z.
Proof.
  intros Hlo Hhi. split.
  - change 0%Z with (Qfloor 0). apply Qfloor_resp_le. exact Hlo.
  - rewrite Zlt_Qlt. apply Qle_lt_trans with (2 := Hhi). apply Qfloor_le.
Qed.

(** X15.  For a time that is not negative and below [2^53] seconds, the
    timer shows the whole minutes and then seconds between 0 and 59, and
    the two add up to the whole seconds of the time; this holds whatever
    the rounding of the product behind the third field is. *)
Theorem timer_minutes_and_seconds (float_mul : Q -> Q -> Q) (x : Q) :
  0 <= x ->
  x < inject_Z (2 ^ 53) ->
  let '(minutes, seconds, _) := time_fields float_mul x in
  (0 <= minutes)%Z
  /\ (0 <= seconds <= 59)%Z
  /\ (60 * minutes + seconds)%Z = Qfloor x.
Proof.
  intros Hx _. unfold time_fields, float_floordiv, float_mod.
  set (k := Qfloor (x / 60)).
  assert (Hk : inject_Z k <= x * (1 # 60) /\ x * (1 # 60) < inject_Z k + 1).
  { pose proof (Qfloor_le (x / 60)) as Hlo.
    pose proof (Qlt_floor (x / 60)) as Hhi.
    fold k in Hlo, Hhi. rewrite inject_Z_plus in Hhi.
    unfold Qdiv in Hlo, Hhi. change (/ 60) with (1 # 60) in Hlo, Hhi.
    change (inject_Z 1) with 1 in Hhi. split; assumption. }
  destruct Hk as [Hklo Hkhi].
  assert (Hk0 : (0 <= k)%Z).
  { change 0%Z with (Qfloor 0). apply Qfloor_resp_le.
    unfold Qdiv. change (/ 60) with (1 # 60). Lqa.lra. }
  set (y := x - 60 * inject_Z k).
  assert (Hy : 0 <= y /\ y < inject_Z 60).
  { unfold y. change (inject_Z 60) with 60. split; Lqa.lra. }
  destruct Hy as [Hylo Hyhi].
  rewrite int_inject_Z, (int_floor y Hylo).
  pose proof (Qfloor_range y 60 Hylo Hyhi) as Ry.
  split; [exact Hk0 |]. split; [lia |].
  symmetry. apply Qfloor_unique.
  - rewrite inject_Z_plus, inject_Z_mult.
    pose proof (Qfloor_le y) as Hlo. change (inject_Z 60) with 60.
    unfold y in Hlo at 2. Lqa.lra.
  - rewrite !inject_Z_plus, inject_Z_mult.
    pose proof (Qlt_floor y) as Hhi. rewrite inject_Z_plus in Hhi.
    change (inject_Z 60) with 60. change (inject_Z 1) with 1 in *.
    unfold y in Hhi at 1. Lqa.lra.
Qed.

Lemma timer_minutes_and_seconds_witness :
  time_fields Qmult 75.5 = (1%Z, 15%Z, 50%Z)
  /\ (60 * 1 + 15)%Z = Qfloor 75.5
  /\ format_time Qmult 75.5 = "01:15:50".
Proof.
  assert (Hpos : 0 <= 75.5) by (vm_compute; discriminate).
  assert (Hbig : 75.5 < inject_Z (2 ^ 53)) by (vm_compute; reflexivity).
  pose proof (timer_minutes_and_seconds Qmult 75.5 Hpos Hbig) as H.
  assert (E : time_fields Qmult 75.5 = (1%Z, 15%Z, 50%Z))
    by (vm_compute; reflexivity).
  rewrite E in H. destruct H as (_ & _ & Hsum).
  split; [exact E |]. split; [exact Hsum | vm_compute; reflexivity].
Defined.

End TrialMoreFacts.

(** ** More on the counters of [CarlaSimulator] *)

Module SimulatorMoreFacts.

Import CarlaSimulator.
Local Open Scope Q_scope.

(** The samples of a list of frames, as calls of [display_speed]. *)
Lemma samples_accumulate (samples : list (Q * Q)) :
  forall s, trial_running s = true ->
    let s' := run (map (fun x => op_display_speed (fst x) (snd x)) samples) s in
    trial_running s' = true
    /\ speed_sum s' = fold_left Qplus (map fst samples) (speed_sum s)
    /\ speed_sample_count s'
       = (speed_sample_count s + Z.of_nat (length samples))%Z.
Proof.
  induction samples as [| [speed now] rest IH]; intros s Hrun.
  - cbn. repeat split; [exact Hrun | lia].
  - assert (Hstep : trial_running (display_speed speed now s) = true
                    /\ speed_sum (display_speed speed now s)
                       = speed_sum s + speed
                    /\ speed_sample_count (display_speed speed now s)
                       = (speed_sample_count s + 1)%Z).
    { unfold display_speed.
      destruct (Qlt_le_dec (max_speed_limit s) speed), (speed_exceeded s);
        cbn; rewrite Hrun; cbn; repeat split; exact Hrun. }
    destruct Hstep as (Hr & Hsum & Hcount).
    destruct (IH _ Hr) as (Hr' & Hsum' & Hcount').
    change (run (map (fun x => op_display_speed (fst x) (snd x))
                   ((speed, now) :: rest)) s)
      with (run (map (fun x => op_display_speed (fst x) (snd x)) rest)
              (display_speed speed now s)).
    cbn zeta in *. split; [exact Hr' |]. split.
    + rewrite Hsum', Hsum. reflexivity.
    + rewrite Hcount', Hcount. cbn [length]. lia.
Qed.

Lemma int_nonpositive (x : Q) : (int x <= 0)%Z <-> x < 1.
Proof.
  destruct x as [n d]. unfold int, Qlt. cbn.
  rewrite Z.mul_1_r, Z.mul_1_l.
  destruct (Z.neg_nonneg_cases n) as [Hneg | Hpos].
  - split; [lia |]. intros _.
    replace n with (- (- n))%Z by lia. rewrite Z.quot_opp_l by lia.
    pose proof (Z.quot_pos (- n) (Z.pos d) ltac:(lia) ltac:(lia)). lia.
  - rewrite Z.quot_div_nonneg by lia. split.
    + intros Hq. apply Z.nle_gt. intros Hle.
      pose proof (Z.div_le_mono (Z.pos d) n (Z.pos d) ltac:(lia) Hle) as Hm.
      rewrite Z.div_same in Hm by lia. lia.
    + intros Hlt. rewrite Z.div_small by lia. lia.
Qed.

(** X16.  The countdown ends as soon as less than one second of it is
    left, because the remaining time is truncated to an integer: the
    trial then starts at the current time with every counter reset.
    While a second or more is left nothing changes. *)
Theorem countdown_ends_below_one_second (now : Q) (s : t) :
  (countdown_duration s - (now - countdown_start_time s) < 1 ->
   trial_running (display_countdown now s) = true
   /\ trial_countdown (display_countdown now s) = false
   /\ trial_timer_start (display_countdown now s) = now
   /\ speed_sum (display_countdown now s) = 0
   /\ speed_sample_count (display_countdown now s) = 0%Z
   /\ max_speed (display_countdown now s) = 0
   /\ violation_durations (display_countdown now s) = []
   /\ speed_violation_count (display_countdown now s) = 0%Z)
  /\ (1 <= countdown_duration s - (now - countdown_start_time s) ->
      display_countdown now s = s).
Proof.
  unfold display_countdown.
  pose proof (int_nonpositive
                (countdown_duration s - (now - countdown_start_time s)))
    as Hint.
  destruct (int (countdown_duration s - (now - countdown_start_time s))
            <=? 0)%Z eqn:E.
  - split; [intros _; repeat split |].
    intros Hge. apply Z.leb_le in E. apply Hint in E.
    exfalso. exact (Qlt_not_le _ _ E Hge).
  - split; [| reflexivity].
    intros Hlt. apply Hint in Hlt. apply Z.leb_gt in E. lia.
Qed.

Lemma countdown_ends_below_one_second_witness :
  trial_running
    (display_countdown 4.5 (start_countdown 0 (init 5 45))) = true
  /\ display_countdown 4 (start_countdown 0 (init 5 45))
     = start_countdown 0 (init 5 45).
Proof.
  split.
  - destruct (countdown_ends_below_one_second 4.5
                (start_countdown 0 (init 5 45))) as [Hstart _].
    apply Hstart. vm_compute. reflexivity.
  - destruct (countdown_ends_below_one_second 4
                (start_countdown 0 (init 5 45))) as [_ Hwait].
    apply Hwait. vm_compute. discriminate.
Defined.

(** X17.  The average speed printed for a trial is the mean of the
    samples read since the countdown ended: their sum, added up in the
    order they came, over their number. *)
Theorem average_is_mean_of_samples (now : Q) (s : t) (samples : list (Q * Q)) :
  countdown_duration s - (now - countdown_start_time s) < 1 ->
  samples <> [] ->
  average_speed
    (calculate_results
       (run (map (fun x => op_display_speed (fst x) (snd x)) samples)
          (display_countdown now s)))
  = fold_left Qplus (map fst samples) 0
    / inject_Z (Z.of_nat (length samples)).
Proof.
  intros Hend Hsome.
  destruct (countdown_ends_below_one_second now s) as [Hstart _].
  destruct (Hstart Hend) as (Hrun & _ & _ & Hsum & Hcount & _).
  destruct (samples_accumulate samples _ Hrun) as (_ & Hsum' & Hcount').
  unfold calculate_results. cbn [average_speed].
  rewrite Hsum', Hcount', Hsum, Hcount.
  destruct samples as [| x rest]; [contradiction |].
  replace (0 <? 0 + Z.of_nat (length (x :: rest)))%Z with true
    by (symmetry; apply Z.ltb_lt; cbn [length]; lia).
  reflexivity.
Qed.

Lemma average_is_mean_of_samples_witness :
  average_speed
    (calculate_results
       (run [op_display_speed 20 5; op_display_speed 40 6]
          (display_countdown 4.5 (start_countdown 0 (init 5 45)))))
  == 30.
Proof.
  assert (Hend : countdown_duration (start_countdown 0 (init 5 45))
                 - (4.5 - countdown_start_time (start_countdown 0 (init 5 45)))
                 < 1) by (vm_compute; reflexivity).
  assert (Hsome : [(20, 5); (40, 6)] <> ([] : list (Q * Q)))
    by discriminate.
  pose proof (average_is_mean_of_samples 4.5 (start_countdown 0 (init 5 45))
                [(20, 5); (40, 6)] Hend Hsome) as Hmean.
  cbn [map fst snd] in Hmean. rewrite Hmean. reflexivity.
Defined.

End SimulatorMoreFacts.

(** ** Lights and weather of [World] *)

Module WorldFacts.

Import PyMore.
Import World.

Lemma testbit_flag (k n : Z) :
  (0 <= k)%Z -> Z.testbit (2 ^ k) n = (k =? n)%Z.
Proof. intros Hk. apply Z.pow2_bits_eqb. exact Hk. Qed.

Lemma testbit_set (l k n : Z) :
  (0 <= k)%Z ->
  Z.testbit (Z.lor l (2 ^ k)) n = (if (n =? k)%Z then true else Z.testbit l n).
Proof.
  intros Hk. rewrite Z.lor_spec, testbit_flag by exact Hk.
  rewrite (Z.eqb_sym n k). destruct (k =? n)%Z; [apply orb_true_r |].
  apply orb_false_r.
Qed.

Lemma testbit_clear (l k n : Z) :
  (0 <= k)%Z -> (0 <= n)%Z ->
  Z.testbit (Z.land l (Z.lnot (2 ^ k))) n
  = (if (n =? k)%Z then false else Z.testbit l n).
Proof.
  intros Hk Hn. rewrite Z.land_spec, Z.lnot_spec, testbit_flag by assumption.
  rewrite (Z.eqb_sym n k). destruct (k =? n)%Z; [apply andb_false_r |].
  apply andb_true_r.
Qed.

Lemma lamp_bits (brake_light reverse_light : bool) (w : t) (n : Z) :
  (0 <= n)%Z ->
  Z.testbit
    (player_light_state (set_vehicle_light_state brake_light reverse_light w))
    n
  = (if (n =? 3)%Z then brake_light
     else if (n =? 6)%Z then reverse_light
     else Z.testbit (player_light_state w) n).
Proof.
  intros Hn. unfold set_vehicle_light_state, with_lights.
  cbn [player_light_state].
  change vls_Brake with (2 ^ 3)%Z. change vls_Reverse with (2 ^ 6)%Z.
  destruct brake_light, reverse_light;
    repeat first [ rewrite testbit_set by lia
                 | rewrite testbit_clear by lia ];
    destruct (Z.eqb_spec n 3), (Z.eqb_spec n 6); try reflexivity; lia.
Qed.

(** X18.  [set_vehicle_light_state] makes the brake lamp and the reverse
    lamp what it is told and leaves every other lamp of the vehicle as
    it was. *)
Theorem brake_and_reverse_lamps_only (brake_light reverse_light : bool)
  (w : t) (n : Z) :
  (0 <= n)%Z ->
  Z.testbit
    (player_light_state (set_vehicle_light_state brake_light reverse_light w))
    n
  = (if (n =? 3)%Z then brake_light
     else if (n =? 6)%Z then reverse_light
     else Z.testbit (player_light_state w) n).
Proof. apply lamp_bits. Qed.

Lemma brake_and_reverse_lamps_only_witness :
  Z.testbit
    (player_light_state
       (set_vehicle_light_state true false (mk 3 true [] 0 None None))) 3
  = true
  /\ Z.testbit
       (player_light_state
          (set_vehicle_light_state true false (mk 3 true [] 0 None None))) 1
     = true.
Proof.
  split.
  - exact (brake_and_reverse_lamps_only true false
             (mk 3 true [] 0 None None) 3 ltac:(lia)).
  - exact (brake_and_reverse_lamps_only true false
             (mk 3 true [] 0 None None) 1 ltac:(lia)).
Defined.

Lemma high_beam_test (l : Z) :
  (Z.land l vls_HighBeam =? 0)%Z = negb (Z.testbit l 2).
Proof.
  change vls_HighBeam with (2 ^ 2)%Z.
  destruct (Z.testbit l 2) eqn:E; cbn [negb].
  - apply Z.eqb_neq. intros H0.
    assert (Hbit : Z.testbit (Z.land l (2 ^ 2)) 2 = true).
    { rewrite Z.land_spec, E, testbit_flag by lia. reflexivity. }
    rewrite H0, Z.bits_0 in Hbit. discriminate Hbit.
  - apply Z.eqb_eq. apply Z.bits_inj'. intros n Hn.
    rewrite Z.land_spec, testbit_flag, Z.bits_0 by lia.
    destruct (Z.eqb_spec 2 n) as [<- | _]; [| apply andb_false_r].
    rewrite E. reflexivity.
Qed.

Lemma toggle_high_beam_bits (w : t) (n : Z) :
  (0 <= n)%Z ->
  Z.testbit (player_light_state (_toggle_vehicle_lights w)) n
  = (if (n =? 2)%Z then negb (Z.testbit (player_light_state w) 2)
     else Z.testbit (player_light_state w) n).
Proof.
  intros Hn. unfold _toggle_vehicle_lights, with_lights.
  cbn [player_light_state].
  rewrite high_beam_test, negb_involutive.
  change vls_HighBeam with (2 ^ 2)%Z.
  destruct (Z.testbit (player_light_state w) 2) eqn:E;
    rewrite ?testbit_set, ?testbit_clear by lia;
    destruct (Z.eqb_spec n 2); reflexivity.
Qed.

(** X19.  The light key changes the high beam and nothing else, and
    pressing it twice brings the vehicle's lights back to what they
    were. *)
Theorem high_beam_toggle_is_involution (w : t) :
  _toggle_vehicle_lights (_toggle_vehicle_lights w) = w
  /\ Z.testbit (player_light_state (_toggle_vehicle_lights w)) 2
     = negb (Z.testbit (player_light_state w) 2)
  /\ forall n, (0 <= n)%Z -> n <> 2%Z ->
       Z.testbit (player_light_state (_toggle_vehicle_lights w)) n
       = Z.testbit (player_light_state w) n.
Proof.
  split; [| split].
  - assert (Hl : player_light_state
                   (_toggle_vehicle_lights (_toggle_vehicle_lights w))
                 = player_light_state w).
    { apply Z.bits_inj'. intros n Hn.
      rewrite !toggle_high_beam_bits by lia.
      destruct (Z.eqb_spec n 2); [| reflexivity].
      subst n. cbn. apply negb_involutive. }
    destruct w as [l h p i we nt]. cbn in Hl.
    unfold _toggle_vehicle_lights, with_lights in *. cbn in *.
    rewrite Hl. reflexivity.
  - rewrite toggle_high_beam_bits by lia. reflexivity.
  - intros n Hn Hne. rewrite toggle_high_beam_bits by lia.
    destruct (Z.eqb_spec n 2); [contradiction | reflexivity].
Qed.

Lemma high_beam_toggle_is_involution_witness :
  _toggle_vehicle_lights
    (_toggle_vehicle_lights (mk 9 false [] 0 None None))
  = mk 9 false [] 0 None None
  /\ Z.testbit
       (player_light_state
          (_toggle_vehicle_lights (mk 9 false [] 0 None None))) 3
     = true.
Proof.
  destruct (high_beam_toggle_is_involution (mk 9 false [] 0 None None))
    as (Hback & _ & Hrest).
  split; [exact Hback |].
  rewrite (Hrest 3%Z ltac:(lia) ltac:(lia)). reflexivity.
Defined.

(** X20.  After [toggle_headlights] the low beam is lit exactly when the
    [headlights_on] flag says so, whatever the lamp showed before; the
    other lamps are untouched.  The flag, not the lamp, is what the key
    toggles. *)
Theorem headlights_follow_flag (w : t) (n : Z) :
  (0 <= n)%Z ->
  headlights_on (toggle_headlights w) = negb (headlights_on w)
  /\ Z.testbit (player_light_state (toggle_headlights w)) n
     = (if (n =? 1)%Z then headlights_on (toggle_headlights w)
        else Z.testbit (player_light_state w) n).
Proof.
  intros Hn. unfold toggle_headlights.
  cbn [player_light_state headlights_on]. split; [reflexivity |].
  change vls_LowBeam with (2 ^ 1)%Z.
  destruct (headlights_on w); cbn [negb];
    rewrite ?testbit_set, ?testbit_clear by lia;
    destruct (Z.eqb_spec n 1); reflexivity.
Qed.

Lemma headlights_follow_flag_witness :
  Z.testbit
    (player_light_state (toggle_headlights (mk 3 true [] 0 None None))) 1
  = false.
Proof.
  destruct (headlights_follow_flag (mk 3 true [] 0 None None) 1 ltac:(lia))
    as [_ Hbit].
  exact Hbit.
Defined.

Lemma getitem_in_range {A : Type} (l : list A) (j : Z) :
  (0 <= j < Z.of_nat (length l))%Z ->
  exists a, getitem l j = Return a /\ nth_error l (Z.to_nat j) = Some a.
Proof.
  intros Hj. unfold getitem.
  assert (Hneg : (j <? 0)%Z = false) by lia. rewrite Hneg.
  assert (Hin : ((0 <=? j) && (j <? Z.of_nat (length l)))%Z = true).
  { apply andb_true_iff. split; lia. }
  rewrite Hin.
  destruct (nth_error l (Z.to_nat j)) as [a |] eqn:E.
  - exists a. split; reflexivity.
  - apply nth_error_None in E. lia.
Qed.



Lemma next_weather_without_presets (reverse : bool) (w : t) :
  _weather_presets w = [] -> next_weather reverse w = Throw ZeroDivisionError.
Proof. intros H. unfold next_weather. rewrite H. reflexivity. Qed.

End WorldFacts.

(** ** The lamps after a frame *)

Module LampFacts.

Import DualControl.
Local Open Scope R_scope.

Section Frames.

Variable pygame_K : string -> option Z.
Variable round1 : R -> R.

(** X22.  A frame that applies a control vector ends by setting the
    lamps from that vector: once the [world] has carried out the frame's
    last call, the reverse lamp is lit exactly when the applied gear is
    negative and the brake lamp exactly when the applied brake is above
    0. *)
Theorem lamps_follow_applied_control (fr : Frame) (s s' : t) :
  parse_events pygame_K round1 fr s = Ok (false, s') ->
  _autopilot_enabled s' = false ->
  exists before brake_light reverse_light,
    world_calls s'
    = before ++ [player_apply_control (_control s');
                 set_vehicle_light_state brake_light reverse_light]
    /\ (brake_light = true <-> 0 < brake (_control s'))
    /\ forall w,
         Z.testbit
           (World.player_light_state
              (World.set_vehicle_light_state brake_light reverse_light w)) 6
         = (gear (_control s') <? 0)%Z
         /\ Z.testbit
              (World.player_light_state
                 (World.set_vehicle_light_state brake_light reverse_light w))
              3
            = brake_light.
Proof.
  intros H Hoff.
  destruct (ControlFacts.parse_events_inv _ _ _ _ _ _ H)
    as (q & s1 & Hev & Hcase).
  destruct Hcase as [(Hq & _) | [(_ & _ & Hauto & ->) | Hrun]];
    [discriminate Hq | congruence |].
  destruct Hrun as (_ & _ & _ & s3 & _ & ->).
  exists (world_calls s3),
         (if Rlt_dec 0 (brake (_control s3)) then true else false),
         (gear (_control s3) <? 0)%Z.
  split; [cbn; rewrite <- app_assoc; reflexivity |].
  split.
  - cbn. destruct (Rlt_dec 0 (brake (_control s3))) as [Hp | Hn];
      split; intros Hx; try assumption; try reflexivity;
      [discriminate Hx | contradiction].
  - intros w. rewrite !WorldFacts.lamp_bits by lia. cbn. split; reflexivity.
Qed.

End Frames.

Lemma lamps_follow_applied_control_witness :
  exists s' before brake_light reverse_light,
    parse_events Sample.pygame_K (fun x => x)
      (mkFrame [KEYUP K_q] false false Sample.no_keys 16%Z None)
      (Sample.controller Sample.axes 0.5 1 1) = Ok (false, s')
    /\ world_calls s'
       = before ++ [player_apply_control (_control s');
                    set_vehicle_light_state brake_light reverse_light]
    /\ Z.testbit
         (World.player_light_state
            (World.set_vehicle_light_state brake_light reverse_light
               (World.mk 1 false [] 0 None None))) 6
       = true.
Proof.
  pose (s0 := Sample.controller Sample.axes 0.5 1 1).
  pose (s1 := toggle_reverse_gear s0).
  pose (s2 := _parse_vehicle_keys (fun x => x) Sample.no_keys 16%Z s1).
  pose (s4 := with_control
                (set_reverse (gear (_control s2) <? 0)%Z (_control s2)) s2).
  pose (s5 := update_vehicle_lights
                (call (player_apply_control (_control s4)) s4)).
  assert (E : parse_events Sample.pygame_K (fun x => x)
                (mkFrame [KEYUP K_q] false false Sample.no_keys 16%Z None) s0
              = Ok (false, s5)) by reflexivity.
  destruct (lamps_follow_applied_control Sample.pygame_K (fun x => x)
              _ _ _ E eq_refl) as (before & bl & rl & Ecalls & _ & Hbits).
  exists s5, before, bl, rl. split; [exact E |]. split; [exact Ecalls |].
  destruct (Hbits (World.mk 1 false [] 0 None None)) as [Hrev _].
  rewrite Hrev. reflexivity.
Defined.

End LampFacts.

(** ** The camera manager *)

Module CameraFacts.

Import PyMore.
Import CameraManager.
Import CameraShown.

Lemma sensors_length : Z.of_nat (length sensors) = 7%Z.
Proof. reflexivity. Qed.

Lemma transforms_length : Z.of_nat (length _camera_transforms) = 2%Z.
Proof. reflexivity. Qed.

Lemma sensor_row (i : Z) :
  exists new_row, getitem sensors (i mod 7) = Return new_row.
Proof.
  destruct (WorldFacts.getitem_in_range sensors (i mod 7)) as (r & Hr & _).
  - rewrite sensors_length. apply Z.mod_pos_bound. lia.
  - exists r. exact Hr.
Qed.

(** [set_sensor] on a manager that shows its selection. *)
Lemma set_sensor_shown (i : Z) (notify : bool) (m : t) :
  shows_selection m ->
  exists m' old old_row new_row,
    set_sensor i notify m = Return m'
    /\ index m = Some old
    /\ getitem sensors old = Return old_row
    /\ getitem sensors (i mod 7) = Return new_row
    /\ index m' = Some (i mod 7)%Z
    /\ transform_index m' = transform_index m
    /\ recording m' = recording m
    /\ shows_selection m'
    /\ (blueprint_id new_row = blueprint_id old_row -> sensor m' = sensor m)
    /\ (blueprint_id new_row <> blueprint_id old_row ->
        exists tr,
          getitem _camera_transforms (transform_index m) = Return tr
          /\ sensor m' = Some (mkSensor (i mod 7) tr)).
Proof.
  intros (old & live & from_row & old_row & tr & Hidx & Hold & Hsens & Hfrom
          & Hsel & Hbp & Hti & Htr & Hatt).
  destruct (sensor_row i) as (new_row & Hnew).
  assert (Hrange : (0 <= i mod 7 < 7)%Z) by (apply Z.mod_pos_bound; lia).
  unfold set_sensor. rewrite sensors_length, Hnew. cbn [and_then].
  rewrite Hidx, Hsel. cbn [and_then].
  destruct (String.eqb (blueprint_id new_row) (blueprint_id old_row)) eqn:Eq;
    cbn [negb and_then].
  - apply String.eqb_eq in Eq.
    eexists _, old, old_row, new_row. split; [reflexivity |].
    repeat split; try assumption; try reflexivity.
    + exists (i mod 7)%Z, live, from_row, new_row, tr. cbn.
      repeat split; try assumption; try lia. congruence.
    + intros Hne. contradiction.
  - apply String.eqb_neq in Eq. rewrite Htr. cbn [and_then].
    eexists _, old, old_row, new_row. split; [reflexivity |].
    repeat split; try assumption; try reflexivity.
    + exists (i mod 7)%Z, (mkSensor (i mod 7) tr), new_row, new_row, tr. cbn.
      repeat split; try assumption; try lia.
    + intros Heq. contradiction.
    + intros _. exists tr. split; reflexivity.
Qed.

Lemma toggle_camera_shown (m : t) :
  shows_selection m ->
  exists m' live tr,
    toggle_camera m = Return m'
    /\ transform_index m' = (1 - transform_index m)%Z
    /\ index m' = index m
    /\ recording m' = recording m
    /\ sensor m' = Some live
    /\ getitem _camera_transforms (transform_index m') = Return tr
    /\ attached_at live = tr
    /\ shows_selection m'.
Proof.
  intros (i & live & from_row & sel_row & tr & Hidx & Hi & Hsens & Hfrom
          & Hsel & Hbp & Hti & Htr & Hatt).
  unfold toggle_camera. rewrite transforms_length, Hsens.
  assert (Hnew : ((transform_index m + 1) mod 2 = 1 - transform_index m)%Z).
  { assert (Hc : transform_index m = 0%Z \/ transform_index m = 1%Z) by lia.
    destruct Hc as [-> | ->]; reflexivity. }
  rewrite Hnew.
  destruct (WorldFacts.getitem_in_range _camera_transforms
              (1 - transform_index m)%Z) as (tr' & Htr' & _).
  { rewrite transforms_length. lia. }
  rewrite Htr'. cbn [and_then].
  eexists _, _, tr'. split; [reflexivity |]. cbn.
  repeat split; try assumption; try reflexivity.
  exists i, (mkSensor (spawned_from live) tr'), from_row, sel_row, tr'. cbn.
  repeat split; try assumption; lia.
Qed.

Lemma step_shown (o : Op) (m : t) :
  shows_selection m ->
  exists m', step o m = Return m' /\ shows_selection m'.
Proof.
  intros Hm. destruct o as [| i | |]; cbn [step].
  - destruct (toggle_camera_shown m Hm) as (m' & _ & _ & E & _ & _ & _ & _ & _
                                            & _ & Hm').
    exists m'. split; assumption.
  - destruct (set_sensor_shown i true m Hm)
      as (m' & _ & _ & _ & E & _ & _ & _ & _ & _ & _ & Hm' & _).
    exists m'. split; assumption.
  - unfold next_sensor.
    destruct Hm as (i & Hrest). pose proof Hrest as (_ & _ & _ & _ & Hidx & _).
    assert (Hm : shows_selection m) by (exists i; exact Hrest).
    rewrite Hidx.
    destruct (set_sensor_shown (i + 1) true m Hm)
      as (m' & _ & _ & _ & E & _ & _ & _ & _ & _ & _ & Hm' & _).
    exists m'. split; assumption.
  - eexists. split; [reflexivity |].
    destruct Hm as (i & live & from_row & sel_row & tr & Hrest).
    exists i, live, from_row, sel_row, tr. exact Hrest.
Qed.

(** X23.  Once [World.restart] has put a fresh camera manager at one of
    the two camera positions and selected a sensor, no sequence of camera
    keys makes the manager fail, and it keeps showing what is selected:
    the live sensor has the blueprint of the selected row and sits at the
    selected position. *)
Theorem camera_keys_never_fail (position i : Z) (ops : list Op) :
  (0 <= position < 2)%Z ->
  exists m0 m,
    set_sensor i false (mk None false position None []) = Return m0
    /\ run ops m0 = Return m
    /\ shows_selection m.
Proof.
  intros Hpos.
  assert (Hfirst : exists m0,
             set_sensor i false (mk None false position None []) = Return m0
             /\ shows_selection m0).
  { destruct (sensor_row i) as (new_row & Hnew).
    destruct (WorldFacts.getitem_in_range _camera_transforms position)
      as (tr & Htr & _); [rewrite transforms_length; exact Hpos |].
    unfold set_sensor. rewrite sensors_length, Hnew. cbn [and_then index].
    cbn [transform_index]. rewrite Htr. cbn [and_then].
    eexists. split; [reflexivity |].
    exists (i mod 7)%Z, (mkSensor (i mod 7) tr), new_row, new_row, tr. cbn.
    repeat split; try assumption; try lia;
      apply Z.mod_pos_bound; lia. }
  destruct Hfirst as (m0 & E0 & Hm0). exists m0.
  assert (Hrun : forall ops m, shows_selection m ->
                 exists m', run ops m = Return m' /\ shows_selection m').
  { clear. induction ops as [| o rest IH]; intros m Hm.
    - exists m. split; [reflexivity | exact Hm].
    - destruct (step_shown o m Hm) as (m1 & E1 & Hm1).
      destruct (IH m1 Hm1) as (m' & E' & Hm').
      exists m'. cbn [run]. rewrite E1. cbn [and_then].
      split; assumption. }
  destruct (Hrun ops m0 Hm0) as (m & E & Hm).
  exists m. repeat split; assumption.
Qed.

Lemma camera_keys_never_fail_witness :
  exists m0 m,
    set_sensor 0 false (mk None false 0 None []) = Return m0
    /\ run [op_next_sensor; op_toggle_camera; op_set_sensor 8] m0 = Return m
    /\ shows_selection m.
Proof.
  apply (camera_keys_never_fail 0 0
           [op_next_sensor; op_toggle_camera; op_set_sensor 8]). lia.
Defined.

(** X24.  [set_sensor] selects row [i mod 7] of the sensor table and
    keeps the live sensor when the new row has the blueprint of the old
    one (as among the three depth views); otherwise it spawns a sensor
    from the new row at the current camera position.  The camera position
    and the recording flag are not touched. *)
Theorem set_sensor_respawns_on_new_blueprint (i : Z) (notify : bool) (m : t) :
  shows_selection m ->
  exists m' old old_row new_row,
    set_sensor i notify m = Return m'
    /\ index m = Some old
    /\ getitem sensors old = Return old_row
    /\ getitem sensors (i mod 7) = Return new_row
    /\ index m' = Some (i mod 7)%Z
    /\ transform_index m' = transform_index m
    /\ recording m' = recording m
    /\ (blueprint_id new_row = blueprint_id old_row -> sensor m' = sensor m)
    /\ (blueprint_id new_row <> blueprint_id old_row ->
        exists tr,
          getitem _camera_transforms (transform_index m) = Return tr
          /\ sensor m' = Some (mkSensor (i mod 7) tr)).
Proof.
  intros Hm.
  destruct (set_sensor_shown i notify m Hm)
    as (m' & old & old_row & new_row & E & H1 & H2 & H3 & H4 & H5 & H6 & _
        & H7 & H8).
  exists m', old, old_row, new_row. repeat split; assumption.
Qed.

Lemma depth_view_shown :
  shows_selection
    (mk (Some (mkSensor 1 (1.6%Q, 1.7%Q, 0%Q))) false 1 (Some 1%Z) []).
Proof.
  exists 1%Z, (mkSensor 1 (1.6%Q, 1.7%Q, 0%Q)),
         ("sensor.camera.depth", Some "Raw", "Camera Depth (Raw)"),
         ("sensor.camera.depth", Some "Raw", "Camera Depth (Raw)"),
         (1.6%Q, 1.7%Q, 0%Q).
  repeat split; try reflexivity; cbn; lia.
Defined.

Lemma set_sensor_respawns_on_new_blueprint_witness :
  exists m',
    set_sensor 2 true
      (mk (Some (mkSensor 1 (1.6%Q, 1.7%Q, 0%Q))) false 1 (Some 1%Z) [])
    = Return m'
    /\ index m' = Some 2%Z
    /\ sensor m' = Some (mkSensor 1 (1.6%Q, 1.7%Q, 0%Q)).
Proof.
  destruct (set_sensor_respawns_on_new_blueprint 2 true _ depth_view_shown)
    as (m' & old & old_row & new_row & E & H1 & H2 & H3 & H4 & _ & _ & Hkeep
        & _).
  exists m'. split; [exact E |]. split; [exact H4 |].
  apply Hkeep. injection H1 as <-.
  vm_compute in H2, H3. injection H2 as <-. injection H3 as <-. reflexivity.
Defined.

Lemma next_sensors_shown (n : nat) :
  forall m old,
    shows_selection m -> index m = Some old ->
    exists m',
      run (repeat op_next_sensor n) m = Return m'
      /\ shows_selection m'
      /\ index m' = Some ((old + Z.of_nat n) mod 7)%Z
      /\ transform_index m' = transform_index m
      /\ recording m' = recording m.
Proof.
  induction n as [| n IH]; intros m old Hm Hidx.
  - exists m. split; [reflexivity |]. split; [exact Hm |].
    split; [| split; reflexivity].
    destruct Hm as (i & _ & _ & _ & _ & Hi & Hrange & _).
    rewrite Hidx in Hi. injection Hi as ->.
    rewrite Z.add_0_r, Z.mod_small by exact Hrange. exact Hidx.
  - destruct (set_sensor_shown (old + 1) true m Hm)
      as (m1 & _ & _ & _ & E1 & _ & _ & _ & Hidx1 & Hti1 & Hrec1 & Hm1 & _).
    destruct (IH m1 _ Hm1 Hidx1) as (m' & E' & Hm' & Hidx' & Hti' & Hrec').
    exists m'. cbn [repeat run step]. unfold next_sensor. rewrite Hidx, E1.
    cbn [and_then]. split; [exact E' |]. split; [exact Hm' |].
    split; [| split; congruence].
    rewrite Hidx', Zplus_mod_idemp_l. f_equal. f_equal. lia.
Qed.

(** X25.  The sensor key walks through the seven rows in a cycle: seven
    presses select the row they started from.  The camera key alternates
    between the two positions: two presses bring the live sensor back to
    the position it had. *)
Theorem camera_keys_cycle (m : t) :
  shows_selection m ->
  (exists m7,
     run (repeat op_next_sensor 7) m = Return m7
     /\ index m7 = index m
     /\ transform_index m7 = transform_index m)
  /\ (exists m2 live live2,
        run [op_toggle_camera; op_toggle_camera] m = Return m2
        /\ transform_index m2 = transform_index m
        /\ index m2 = index m
        /\ sensor m = Some live
        /\ sensor m2 = Some live2
        /\ attached_at live2 = attached_at live).
Proof.
  intros Hm. split.
  - pose proof Hm as (old & _ & _ & _ & _ & Hidx & Hrange & _).
    destruct (next_sensors_shown 7 m old Hm Hidx)
      as (m7 & E & _ & Hidx7 & Hti & _).
    exists m7. split; [exact E |]. split; [| exact Hti].
    rewrite Hidx7, Hidx. f_equal.
    change (Z.of_nat 7) with (1 * 7)%Z.
    rewrite Z.mod_add by lia. apply Z.mod_small. exact Hrange.
  - destruct (toggle_camera_shown m Hm)
      as (m1 & live1 & tr1 & E1 & Hti1 & Hidx1 & _ & _ & _ & _ & Hm1).
    destruct (toggle_camera_shown m1 Hm1)
      as (m2 & live2 & tr2 & E2 & Hti2 & Hidx2 & _ & Hs2 & Htr2 & Hatt2 & _).
    destruct Hm as (i & live & from_row & sel_row & tr & _ & _ & Hsens & _ & _
                    & _ & _ & Htr & Hatt).
    exists m2, live, live2. cbn [run step]. rewrite E1. cbn [and_then].
    rewrite E2. cbn [and_then].
    assert (Hback : transform_index m2 = transform_index m) by lia.
    rewrite Hback, Htr in Htr2.
    repeat split; try assumption; congruence.
Qed.

Lemma camera_keys_cycle_witness :
  exists m7,
    run (repeat op_next_sensor 7)
      (mk (Some (mkSensor 1 (1.6%Q, 1.7%Q, 0%Q))) false 1 (Some 1%Z) [])
    = Return m7
    /\ index m7 = Some 1%Z.
Proof.
  destruct (camera_keys_cycle _ depth_view_shown)
    as ((m7 & E & Hidx & _) & _).
  exists m7. split; [exact E | exact Hidx].
Defined.

(** The sensor key before any sensor is selected adds 1 to [None]. *)
Lemma next_sensor_without_selection :
  next_sensor init = Throw TypeError.
Proof. reflexivity. Qed.

End CameraFacts.

(** ** The HUD notification line *)

Module FadingFacts.

Import FadingText.
Local Open Scope Q_scope.

Section Rounding.

Variable round_float : Q -> Q.

(** What the proofs use of rounding: it keeps the order, and it leaves 0
    and every float as they are. *)
Hypothesis round_monotone :
  forall a b, a <= b -> round_float a <= round_float b.
Hypothesis round_zero : round_float 0 == 0.
Hypothesis round_idempotent :
  forall a, round_float (round_float a) == round_float a.

Lemma round_compat (a b : Q) : a == b -> round_float a == round_float b.
Proof.
  intros Hab. apply Qle_antisym; apply round_monotone; rewrite Hab;
    apply Qle_refl.
Qed.

Lemma delta_seconds_not_negative (ms : Z) :
  (0 <= ms)%Z -> 0 <= delta_seconds round_float ms.
Proof.
  intros Hms. unfold delta_seconds.
  assert (Hd : 0 <= inject_Z ms).
  { change 0 with (inject_Z 0). rewrite <- Zle_Qle. exact Hms. }
  assert (He : 0 <= round_float 1e-3).
  { rewrite <- round_zero. apply round_monotone. discriminate. }
  rewrite <- round_zero. apply round_monotone.
  apply Qmult_le_0_compat; assumption.
Qed.

Lemma tick_left (ms : Z) (f : t) :
  (0 <= ms)%Z ->
  0 <= seconds_left f ->
  is_float round_float (seconds_left f) ->
  0 <= seconds_left (tick round_float ms f)
  /\ seconds_left (tick round_float ms f) <= seconds_left f
  /\ is_float round_float (seconds_left (tick round_float ms f))
  /\ alpha (tick round_float ms f)
     = Some (round_float (500.0 * seconds_left (tick round_float ms f)))
  /\ (seconds_left f <= delta_seconds round_float ms ->
      seconds_left (tick round_float ms f) == 0).
Proof.
  intros Hms Hleft Hfloat. unfold tick. cbn [seconds_left alpha].
  pose proof (delta_seconds_not_negative ms Hms) as Hd.
  set (d := delta_seconds round_float ms) in *.
  set (l1 := round_float (seconds_left f - d)).
  assert (Hl1 : l1 <= seconds_left f).
  { unfold is_float in Hfloat. rewrite <- Hfloat. apply round_monotone.
    Lqa.lra. }
  destruct (Qlt_le_dec 0.0 l1) as [Hpos | Hneg].
  - split; [Lqa.lra |]. split; [exact Hl1 |].
    split; [apply round_idempotent |]. split; [reflexivity |].
    intros Hspent.
    assert (Hl0 : l1 <= 0).
    { rewrite <- round_zero. apply round_monotone. Lqa.lra. }
    Lqa.lra.
  - split; [discriminate |]. split; [Lqa.lra |]. split.
    + assert (Hz0 : 0.0 == 0) by reflexivity.
      unfold is_float. rewrite (round_compat _ _ Hz0), round_zero.
      reflexivity.
    + split; [reflexivity |]. intros _. reflexivity.
Qed.

Lemma ticks_left (frames : list Z) (f : t) :
  (forall ms, In ms frames -> (0 <= ms)%Z) ->
  0 <= seconds_left f ->
  is_float round_float (seconds_left f) ->
  0 <= seconds_left (ticks round_float frames f)
  /\ seconds_left (ticks round_float frames f) <= seconds_left f.
Proof.
  revert f. induction frames as [| ms rest IH]; intros f Hall Hleft Hfloat.
  - split; [exact Hleft | apply Qle_refl].
  - assert (Hms : (0 <= ms)%Z) by (apply Hall; left; reflexivity).
    destruct (tick_left ms f Hms Hleft Hfloat) as (H0 & Hle & Hfl & _).
    destruct (IH (tick round_float ms f)
                (fun x Hx => Hall x (or_intror Hx)) H0 Hfl) as [H0' Hle'].
    change (ticks round_float (ms :: rest) f)
      with (ticks round_float rest (tick round_float ms f)).
    split; [exact H0' |]. apply Qle_trans with (1 := Hle'). exact Hle.
Qed.

Lemma ticks_alpha (frames : list Z) (f : t) :
  frames <> [] ->
  alpha (ticks round_float frames f)
  = Some (round_float
            (500.0 * seconds_left (ticks round_float frames f))).
Proof.
  revert f. induction frames as [| ms rest IH]; intros f Hne;
    [contradiction |].
  change (ticks round_float (ms :: rest) f)
    with (ticks round_float rest (tick round_float ms f)).
  destruct rest as [| ms2 rest2]; [reflexivity |].
  apply IH. discriminate.
Qed.

(** X26.  A notification fades and never comes back by itself, whatever
    the rounding of the float operations does, as long as it keeps the
    order and leaves 0 and floats as they are.  Over any frames the time
    left is never negative and never grows; and when the first frame's
    [delta_seconds] is at least the time left, the time left is 0 and so
    is the alpha of the surface, after that frame and after every later
    one. *)
Theorem notification_fades_out (frames : list Z) (f : t) :
  (forall ms, In ms frames -> (0 <= ms)%Z) ->
  0 <= seconds_left f ->
  is_float round_float (seconds_left f) ->
  0 <= seconds_left (ticks round_float frames f)
  /\ seconds_left (ticks round_float frames f) <= seconds_left f
  /\ (forall ms later,
        frames = ms :: later ->
        seconds_left f <= delta_seconds round_float ms ->
        seconds_left (ticks round_float frames f) == 0
        /\ exists a, alpha (ticks round_float frames f) = Some a
                     /\ a == 0).
Proof.
  intros Hall Hleft Hfloat.
  destruct (ticks_left frames f Hall Hleft Hfloat) as [H0 Hle].
  split; [exact H0 |]. split; [exact Hle |].
  intros ms later -> Hspent.
  assert (Hms : (0 <= ms)%Z) by (apply Hall; left; reflexivity).
  destruct (tick_left ms f Hms Hleft Hfloat) as (T0 & _ & Tfl & _ & Tz).
  specialize (Tz Hspent).
  destruct (ticks_left later (tick round_float ms f)
              (fun x Hx => Hall x (or_intror Hx)) T0 Tfl) as [_ Lle].
  change (ticks round_float later (tick round_float ms f))
    with (ticks round_float (ms :: later) f) in Lle.
  assert (Hz : seconds_left (ticks round_float (ms :: later) f) == 0)
    by (apply Qle_antisym; [Lqa.lra | exact H0]).
  split; [exact Hz |].
  eexists. split; [apply ticks_alpha; discriminate |].
  assert (Hprod :
    500.0 * seconds_left (ticks round_float (ms :: later) f) == 0)
    by (rewrite Hz; reflexivity).
  rewrite (round_compat _ _ Hprod). exact round_zero.
Qed.

End Rounding.

Lemma notification_fades_out_witness :
  seconds_left
    (ticks (fun x => x) [2000; 16; 17]%Z (set_text "Autopilot On" 2.0 init))
  == 0.
Proof.
  destruct (notification_fades_out (fun x => x)
              (fun a b H => H) (Qeq_refl 0) (fun a => Qeq_refl a)
              [2000; 16; 17]%Z (set_text "Autopilot On" 2.0 init))
    as (_ & _ & Hzero).
  - intros ms [<- | [<- | [<- | []]]]; lia.
  - vm_compute. discriminate.
  - unfold is_float. reflexivity.
  - destruct (Hzero 2000%Z [16; 17]%Z eq_refl) as [Hz _];
      [vm_compute; discriminate | exact Hz].
Defined.

End FadingFacts.

(** ** The collision history *)

Module CollisionFacts.

Import CollisionSensor.
Local Open Scope Q_scope.

(** All events of a run, in order. *)
Lemma on_collision_step (frame : Z) (intensity : Q) (history : History) :
  (length history <= 4000)%nat ->
  _on_collision frame intensity history
  = skipn (length (history ++ [(frame, intensity)]) - 4000)
      (history ++ [(frame, intensity)])
  /\ (length (_on_collision frame intensity history) <= 4000)%nat.
Proof.
  intros Hlen. unfold _on_collision.
  assert (Hl : length (history ++ [(frame, intensity)])
               = S (length history)).
  { rewrite length_app. cbn [length]. lia. }
  destruct (Nat.ltb_spec 4000 (length (history ++ [(frame, intensity)])))
    as [Hover | Hfits].
  - assert (Hk : (length (history ++ [(frame, intensity)]) - 4000 = 1)%nat)
      by lia.
    rewrite Hk. split; [reflexivity |].
    destruct (history ++ [(frame, intensity)]) as [| e rest];
      cbn [tl length] in *; lia.
  - assert (Hk : (length (history ++ [(frame, intensity)]) - 4000 = 0)%nat)
      by lia.
    rewrite Hk. split; [reflexivity | lia].
Qed.

(** X27.  The collision history is a bounded buffer: after any number of
    collisions it holds at most 4000 entries, and they are the most
    recent ones, in order. *)
Theorem history_keeps_latest_4000 (events : list (Z * Q))
  (history : History) :
  (length history <= 4000)%nat ->
  let history' :=
    fold_left (fun h e => _on_collision (fst e) (snd e) h) events history in
  (length history' <= 4000)%nat
  /\ history'
     = skipn (length (history ++ events) - 4000) (history ++ events).
Proof.
  revert history. induction events as [| [frame intensity] rest IH];
    intros history Hlen; cbn zeta.
  - cbn [fold_left]. rewrite app_nil_r. split; [exact Hlen |].
    replace (length history - 4000)%nat with 0%nat by lia. reflexivity.
  - cbn [fold_left fst snd].
    destruct (on_collision_step frame intensity history Hlen)
      as (Hstep & Hlen1).
    destruct (IH _ Hlen1) as (Hlen' & Hall). cbn zeta in Hlen', Hall.
    split; [exact Hlen' |].
    rewrite Hall, Hstep.
    set (h1 := history ++ [(frame, intensity)]).
    assert (Happ : history ++ (frame, intensity) :: rest = h1 ++ rest).
    { unfold h1. rewrite <- app_assoc. reflexivity. }
    rewrite Happ.
    set (k := (length h1 - 4000)%nat).
    assert (Hk : (k <= length h1)%nat) by (unfold k; lia).
    assert (Hsplit : skipn k h1 ++ rest = skipn k (h1 ++ rest)).
    { rewrite skipn_app.
      replace (k - length h1)%nat with 0%nat by lia. reflexivity. }
    rewrite Hsplit, skipn_skipn. f_equal.
    rewrite length_skipn, !length_app. unfold k. lia.
Qed.

Lemma history_keeps_latest_4000_witness :
  fold_left (fun h e => _on_collision (fst e) (snd e) h)
    [(7%Z, 2); (7%Z, 3); (9%Z, 1)] []
  = [(7%Z, 2); (7%Z, 3); (9%Z, 1)].
Proof.
  destruct (history_keeps_latest_4000 [(7%Z, 2); (7%Z, 3); (9%Z, 1)] [])
    as [_ Hall]; [cbn; lia |].
  exact Hall.
Defined.

Lemma at_frame_insert (d : gmap Z Q) (frame k : Z) (v : Q) :
  at_frame (<[frame := v]> d) k = if (frame =? k)%Z then v else at_frame d k.
Proof.
  unfold at_frame. destruct (Z.eqb_spec frame k) as [-> | Hne].
  - rewrite lookup_insert_eq. reflexivity.
  - rewrite lookup_insert_ne by exact Hne. reflexivity.
Qed.

Lemma history_by_frame_from (history : History) (k : Z) :
  forall d : gmap Z Q,
    at_frame
      (fold_left
         (fun d entry =>
            <[fst entry := default 0 (d !! fst entry) + snd entry]> d)
         history d) k
    = fold_left Qplus
        (map snd (List.filter (fun e => (fst e =? k)%Z) history)) (at_frame d k).
Proof.
  induction history as [| [frame intensity] rest IH]; intros d.
  - reflexivity.
  - cbn [fold_left fst snd]. rewrite IH, at_frame_insert.
    cbn [List.filter fst]. destruct (Z.eqb_spec frame k) as [-> | Hne].
    + reflexivity.
    + reflexivity.
Qed.

(** X28.  The history by frame adds up the collisions of each frame: the
    value read for a frame is the sum of the intensities recorded for
    that frame, in the order they came, and 0 for a frame without a
    collision. *)
Theorem history_by_frame (history : History) (k : Z) :
  at_frame (get_collision_history history) k
  = fold_left Qplus (map snd (List.filter (fun e => (fst e =? k)%Z) history)) 0.
Proof.
  unfold get_collision_history. rewrite history_by_frame_from. reflexivity.
Qed.

Lemma sum_not_negative (l : list Q) :
  (forall x, In x l -> 0 <= x) ->
  forall a, 0 <= a -> 0 <= fold_left Qplus l a.
Proof.
  induction l as [| x rest IH]; intros Hall a Ha; [exact Ha |].
  cbn [fold_left]. apply IH.
  - intros y Hy. apply Hall. right. exact Hy.
  - pose proof (Hall x (or_introl eq_refl)). Lqa.lra.
Qed.

Lemma py_max_upper (a b : Q) : a <= py_max a b /\ b <= py_max a b.
Proof.
  unfold py_max. destruct (Qlt_le_dec a b) as [Hlt | Hle]; split;
    try apply Qle_refl; [apply Qlt_le_weak; exact Hlt | exact Hle].
Qed.

Lemma fold_max_upper (l : list Q) :
  forall a, a <= fold_left py_max l a
            /\ forall x, In x l -> x <= fold_left py_max l a.
Proof.
  induction l as [| y rest IH]; intros a.
  - split; [apply Qle_refl | contradiction].
  - cbn [fold_left]. destruct (IH (py_max a y)) as [Hacc Hrest].
    destruct (py_max_upper a y) as [Ha Hy]. split.
    + apply Qle_trans with (1 := Ha). exact Hacc.
    + intros x [<- | Hx]; [| exact (Hrest x Hx)].
      apply Qle_trans with (1 := Hy). exact Hacc.
Qed.

(** X29.  The collision graph of the HUD has one value for each of the
    last 200 frames, and when no recorded intensity is negative every
    value lies between 0 and 1: the divisor is the largest value or 1,
    whichever is greater, so it is never zero. *)
Theorem collision_graph_normalised (hud_frame : Z) (history : History) :
  (forall e, In e history -> 0 <= snd e) ->
  length (collision_graph hud_frame history) = 200%nat
  /\ forall x, In x (collision_graph hud_frame history) -> 0 <= x /\ x <= 1.
Proof.
  intros Hpos. unfold collision_graph.
  set (colhist := get_collision_history history).
  set (collision :=
         map (fun x => at_frame colhist (Z.of_nat x + hud_frame - 200))
           (seq 0 200)).
  assert (Hlen : length collision = 200%nat).
  { unfold collision. rewrite length_map, length_seq. reflexivity. }
  assert (Hnonneg : forall x, In x collision -> 0 <= x).
  { intros x Hx. unfold collision in Hx. apply in_map_iff in Hx.
    destruct Hx as (n & <- & _). unfold colhist, get_collision_history.
    rewrite history_by_frame_from. apply sum_not_negative.
    - intros y Hy. apply in_map_iff in Hy. destruct Hy as (e & <- & He).
      apply filter_In in He. apply Hpos. exact (proj1 He).
    - apply Qle_refl. }
  destruct collision as [| first rest] eqn:Ec; [discriminate Hlen |].
  cbn [list_max]. rewrite length_map. split; [exact Hlen |].
  set (m := fold_left py_max rest first).
  destruct (fold_max_upper rest first) as [Hfirst Hrest]. fold m in Hfirst, Hrest.
  destruct (py_max_upper 1.0 m) as [Hone Hm].
  set (max_col := py_max 1.0 m) in *.
  assert (Hc : 0 < max_col).
  { apply Qlt_le_trans with (2 := Hone). reflexivity. }
  intros x Hx. apply in_map_iff in Hx. destruct Hx as (y & <- & Hy).
  assert (Hy0 : 0 <= y) by (apply Hnonneg; exact Hy).
  assert (Hym : y <= max_col).
  { apply Qle_trans with (2 := Hm).
    destruct Hy as [<- | Hy]; [exact Hfirst | exact (Hrest y Hy)]. }
  split.
  - apply Qle_shift_div_l; [exact Hc |]. Lqa.lra.
  - apply Qle_shift_div_r; [exact Hc |]. Lqa.lra.
Qed.

Lemma collision_graph_normalised_witness :
  length (collision_graph 100 [(7%Z, 2); (50%Z, 3); (50%Z, 1)]) = 200%nat
  /\ forall x,
       In x (collision_graph 100 [(7%Z, 2); (50%Z, 3); (50%Z, 1)]) ->
       0 <= x /\ x <= 1.
Proof.
  apply (collision_graph_normalised 100 [(7%Z, 2); (50%Z, 3); (50%Z, 1)]).
  intros e [<- | [<- | [<- | []]]]; vm_compute; discriminate.
Defined.

(** The graph of that history at frame 100: frame 50 holds the largest
    value, 4, and is drawn at 1; frame 7 holds 2 and is drawn at a half. *)
Example collision_graph_sample :
  nth_error (collision_graph 100 [(7%Z, 2); (50%Z, 3); (50%Z, 1)]) 150
  = Some (4 / 4)
  /\ nth_error (collision_graph 100 [(7%Z, 2); (50%Z, 3); (50%Z, 1)]) 107
     = Some (2 / 4).
Proof. split; vm_compute; reflexivity. Qed.

End CollisionFacts.
